(** * The map evaluator of panoptic_mapping_utils

    A shallow embedding of
    [panoptic_mapping_utils/src/evaluation/map_evaluator.cpp] and of the
    declarations of [map_evaluator.h], followed by the properties of the
    evaluation engine: the reconstruction error pass, the mesh error pass,
    the summary statistics, the error colouring, the labeled point cloud
    export, the coverage export and the load-failure paths of [evaluate].

    Numbers are modelled as the code has them: C++ [float] is IEEE-754
    binary32 and [double] is binary64, both through the executable
    specification of [SpecFloat]; [uint64_t], [uint32_t] and [int] are [Z]
    with the wrap-around written out.  The volumetric map, the point cloud
    codecs, the voxel grid filter and the kd-tree are collaborators that are
    not part of the sources: they enter as functions carried by records. *)

From stdpp Require Import gmap.
From Stdlib Require Import String Ascii ZArith List Bool QArith Qabs Lqa Lia.
From Stdlib Require Import Floats.SpecFloat.
Import ListNotations.

Local Open Scope Z_scope.

(* ================================================================== *)
(** * Part I: the embedding                                            *)
(* ================================================================== *)

(** ** Machine numbers *)

(** C++ [float]: binary32, 24 bits of precision, exponent range 128. *)
Module Float32.
Definition prec : Z := 24.
Definition emax : Z := 128.

Definition add : spec_float -> spec_float -> spec_float := SFadd prec emax.
Definition sub : spec_float -> spec_float -> spec_float := SFsub prec emax.
Definition mul : spec_float -> spec_float -> spec_float := SFmul prec emax.
Definition div : spec_float -> spec_float -> spec_float := SFdiv prec emax.
Definition sqrt : spec_float -> spec_float := SFsqrt prec emax.
Definition abs : spec_float -> spec_float := SFabs.
Definition ltb : spec_float -> spec_float -> bool := SFltb.
Definition leb : spec_float -> spec_float -> bool := SFleb.

(** [static_cast<float>(n)] for an integer [n], and integer literals
    such as [255.f]. *)
Definition of_Z (n : Z) : spec_float := binary_normalize prec emax n 0 false.

(** A decimal literal [p/q] written with the [f] suffix: the binary32
    number nearest to the quotient ([0.05f] is [lit 5 100]). *)
Definition lit (p q : Z) : spec_float := div (of_Z p) (of_Z q).

Definition zero : spec_float := S754_zero false.

(** [std::min(a, b)] is [(b < a) ? b : a] and [std::max(a, b)] is
    [(a < b) ? b : a]. *)
Definition std_min (a b : spec_float) : spec_float := if ltb b a then b else a.
Definition std_max (a b : spec_float) : spec_float := if ltb a b then b else a.

Definition valid (x : spec_float) : bool := valid_binary prec emax x.
End Float32.

(** C++ [double]: binary64.  Only the promotions made by [std::pow] and by
    the unqualified [sqrt] go through it. *)
Module Float64.
Definition prec : Z := 53.
Definition emax : Z := 1024.

Definition add : spec_float -> spec_float -> spec_float := SFadd prec emax.
Definition mul : spec_float -> spec_float -> spec_float := SFmul prec emax.
Definition sqrt : spec_float -> spec_float := SFsqrt prec emax.

(** [float] to [double]: exact, the mantissa is renormalised. *)
Definition of_float (x : spec_float) : spec_float :=
  match x with
  | S754_finite s m e => binary_round prec emax s m e
  | _ => x
  end.

(** [double] to [float]: rounded to nearest even. *)
Definition to_float (x : spec_float) : spec_float :=
  match x with
  | S754_finite s m e => binary_round Float32.prec Float32.emax s m e
  | _ => x
  end.

(** [std::pow(v, 2)] and [std::pow(v, 2.0)] on a [float] argument: the
    argument is promoted and the square of a binary32 number is exact in
    binary64. *)
Definition pow2 (v : spec_float) : spec_float :=
  mul (of_float v) (of_float v).
End Float64.

Abbreviation float := spec_float.

(** [uint64_t] counters. *)
Definition u64_modulus : Z := 2 ^ 64.
Definition u64_incr (n : Z) : Z := (n + 1) mod u64_modulus.

(** [uint32_t] labels and 32-bit [int]. *)
Definition u32_modulus : Z := 2 ^ 32.
Definition u32_wrap (n : Z) : Z := n mod u32_modulus.
Definition int_min : Z := - 2 ^ 31.
Definition int_max : Z := 2 ^ 31 - 1.

(** ** Outcomes

    A call either returns, or the process leaves defined behaviour: an
    integer modulo by zero, a null pointer dereference, an exception that
    nothing catches, or a fatal log entry that terminates the process. *)

Inductive fault : Type :=
| ModuloByZero
| NullPointer
| OutOfRange
| FatalLog.

Inductive outcome (A : Type) : Type :=
| Done (a : A)
| Trap (f : fault).
Arguments Done {A} a.
Arguments Trap {A} f.

Definition obind {A B : Type} (m : outcome A) (k : A -> outcome B) : outcome B :=
  match m with
  | Done a => k a
  | Trap f => Trap f
  end.

Notation "'run' x <- m ; k" := (obind m (fun x => k))
  (at level 10, x name, m at level 100, k at level 200).

Definition returns {A : Type} (m : outcome A) : Prop :=
  exists a, m = Done a.

(** ** Data model *)

(** [Point] (an Eigen vector of three floats) and [pcl::PointXYZ]. *)
Record Point : Type := mkPoint { px : float; py : float; pz : float }.
Abbreviation PointXYZ := Point.

(** [MapEvaluator::EvaluationRequest], the fields in the order of the
    header; the field [evaluate] is [evaluate_flag] here, the name
    [evaluate] being kept for the method. *)
Record EvaluationRequest : Type := mkRequest {
  verbosity : Z;
  map_file : string;
  ground_truth_pointcloud_file : string;
  output_suffix : string;
  maximum_distance : float;
  inlier_distance : float;
  visualize : bool;
  evaluate_flag : bool;
  compute_coloring : bool;
  ignore_truncated_points : bool;
  color_by_max_error : bool;
  color_by_mesh_distance : bool;
  is_single_tsdf : bool;
  export_mesh : bool;
  export_labeled_pointcloud : bool;
  export_coverage_pointcloud : bool
}.

(** Two requests that differ at most in one field. *)
Definition with_inlier_distance (r : EvaluationRequest) (d : float)
  : EvaluationRequest :=
  mkRequest (verbosity r) (map_file r) (ground_truth_pointcloud_file r)
    (output_suffix r) (maximum_distance r) d (visualize r) (evaluate_flag r)
    (compute_coloring r) (ignore_truncated_points r) (color_by_max_error r)
    (color_by_mesh_distance r) (is_single_tsdf r) (export_mesh r)
    (export_labeled_pointcloud r) (export_coverage_pointcloud r).

Definition with_ignore_truncated_points (r : EvaluationRequest) (b : bool)
  : EvaluationRequest :=
  mkRequest (verbosity r) (map_file r) (ground_truth_pointcloud_file r)
    (output_suffix r) (maximum_distance r) (inlier_distance r) (visualize r)
    (evaluate_flag r) (compute_coloring r) b (color_by_max_error r)
    (color_by_mesh_distance r) (is_single_tsdf r) (export_mesh r)
    (export_labeled_pointcloud r) (export_coverage_pointcloud r).

(** Modelled from the spec: [EvaluationRequest::isValid] belongs to the
    config_utilities base class; [checkParams] asks for both distances to
    be greater than zero, and the request is "invalid when
    maximum_distance <= 0 or inlier_distance <= 0". *)
Definition isValid (r : EvaluationRequest) : bool :=
  negb (Float32.leb (maximum_distance r) Float32.zero)
  && negb (Float32.leb (inlier_distance r) Float32.zero).

(** The default request of the header ([maximum_distance = 0.2],
    [inlier_distance = 0.1]). *)
Definition default_request : EvaluationRequest :=
  mkRequest 4 "" "scene0587_02_vh_clean_2.pointcloud.ply" "evaluation_data"
    (Float32.lit 2 10) (Float32.lit 1 10)
    true true false false false true false false false false.

(** [PanopticLabel] and [ChangeState] of a submap. *)
Inductive PanopticLabel : Type := kUnknown | kInstance | kBackground | kFreeSpace.
Inductive ChangeState : Type := kNew | kPersistent | kAbsent | kUnobserved.

(** The voxel encodings of a class layer that the export names, and any
    further encoding. *)
Inductive ClassVoxelType : Type :=
| kBinaryCount | kMovingBinaryCount | kFixedCount | kVariableCount
| kPanopticWeight | kOtherVoxelType.

(** [voxblox::Color]: three [uint8_t] channels. *)
Record Color : Type := mkColor { color_r : Z; color_g : Z; color_b : Z }.

(** What the export reads of the class voxel under a vertex. *)
Record ClassVoxel : Type := mkClassVoxel {
  getVoxelType : ClassVoxelType;
  getBelongingID : Z
}.

(** [voxblox::Interpolator<TsdfVoxel>::getDistance(point, &distance,
    interpolate)] on a layer: [Some d] when it returns true. *)
Definition TsdfLayer : Type := Point -> bool -> option float.

(** One mesh block: its vertices, their colours and, for the labeled
    export, the class voxel found under each vertex when the class layer
    has this block ([None] when [hasBlock] is false). *)
Record MeshBlock : Type := mkMeshBlock {
  vertices : list Point;
  colors : list Color;
  class_block : option (Point -> ClassVoxel)
}.

Record Submap : Type := mkSubmap {
  getID : Z;
  getLabel : PanopticLabel;
  getChangeState : ChangeState;
  getClassID : Z;
  getInstanceID : Z;
  hasClassLayer : bool;
  (** [getMeshLayer().getAllAllocatedMeshes] with [getMeshByIndex]. *)
  mesh_blocks : list MeshBlock;
  getTsdfLayer : TsdfLayer;
  (** The number of blocks that [getTsdfLayer().getAllAllocatedBlocks]
      lists. *)
  tsdf_block_count : nat
}.

(** [PlanningInterface]: [getDistance(point, &distance,
    consider_change_state, include_free_space)] and [isObserved(point)]. *)
Record PlanningInterface : Type := mkPlanning {
  getDistance : Point -> bool -> bool -> option float;
  isObserved : Point -> bool
}.

(** [SubmapCollection]: the submaps in iteration order. *)
Definition SubmapCollection : Type := list Submap.

(** [pcl::VoxelGrid] with its leaf layout saved. *)
Record VoxelGrid : Type := mkVoxelGrid {
  getMinBoxCoordinates : Z * Z * Z;
  getMaxBoxCoordinates : Z * Z * Z;
  getCentroidIndexAt : Z * Z * Z -> Z
}.

(** The members of [MapEvaluator] that the evaluation reads and writes. *)
Record MapEvaluator : Type := mkEvaluator {
  gt_cloud_ptr_ : option (list PointXYZ);
  gt_voxel_grid_ptr_ : option VoxelGrid;
  filtered_gt_cloud_ptr_ : option (list PointXYZ);
  submaps_ : option SubmapCollection;
  voxblox_ : option TsdfLayer;
  use_voxblox_ : bool;
  target_directory_ : string;
  target_map_name_ : string;
  planning_ : option PlanningInterface;
  kdtree_data_ : list Point;
  output_open_ : bool;
  request_ : EvaluationRequest
}.

(** ** The reconstruction error pass *)

(** The locals of [computeReconstructionError] that live across the loop. *)
Record ReconState : Type := mkRecon {
  total_points : Z;
  unknown_points : Z;
  truncated_points : Z;
  inliers : Z;
  abserror : list float;
  count : Z
}.

Definition recon_init : ReconState := mkRecon 0 0 0 0 [] 0.

(** Lines 254-265: the distance lookup of one ground-truth point. *)
Definition lookup_distance (ev : MapEvaluator) (request : EvaluationRequest)
    (point : Point) : outcome (option float) :=
  if use_voxblox_ ev then
    match voxblox_ ev with
    | Some layer => Done (layer point true)
    | None => Trap NullPointer
    end
  else
    match planning_ ev with
    | Some planning =>
        if is_single_tsdf request
        then Done (getDistance planning point false true)
        else Done (getDistance planning point true false)
    | None => Trap NullPointer
    end.

(** Lines 267-282: the error of one point, from its lookup result.  The
    truncation test and the sample are taken from the argument [request];
    the inlier test reads the member [request_]. *)
Definition classify (request_0 request : EvaluationRequest)
    (reading : option float) (st : ReconState) : ReconState :=
  match reading with
  | Some distance =>
      let st1 :=
        if Float32.ltb (maximum_distance request) (Float32.abs distance) then
          let st' := mkRecon (total_points st) (unknown_points st)
                       (u64_incr (truncated_points st)) (inliers st)
                       (abserror st) (count st) in
          if negb (ignore_truncated_points request) then
            mkRecon (total_points st') (unknown_points st')
              (truncated_points st') (inliers st')
              (abserror st' ++ [maximum_distance request]) (count st')
          else st'
        else
          mkRecon (total_points st) (unknown_points st) (truncated_points st)
            (inliers st) (abserror st ++ [Float32.abs distance]) (count st) in
      if Float32.leb (Float32.abs distance) (inlier_distance request_0) then
        mkRecon (total_points st1) (unknown_points st1) (truncated_points st1)
          (u64_incr (inliers st1)) (abserror st1) (count st1)
      else st1
  | None =>
      mkRecon (total_points st) (u64_incr (unknown_points st))
        (truncated_points st) (inliers st) (abserror st) (count st)
  end.

(** Lines 284-288: the progress guard [count % interval == 0] and
    [count++].  The display itself has no effect on the results. *)
Definition progress_guard (interval : Z) (st : ReconState) : outcome ReconState :=
  if interval =? 0 then Trap ModuloByZero
  else Done (mkRecon (total_points st) (unknown_points st)
               (truncated_points st) (inliers st) (abserror st)
               (u64_incr (count st))).

(** Lines 250-289: one iteration of the loop over the ground-truth cloud. *)
Definition recon_body (ev : MapEvaluator) (request : EvaluationRequest)
    (interval : Z) (st : ReconState) (pcl_point : PointXYZ) : outcome ReconState :=
  let point := mkPoint (px pcl_point) (py pcl_point) (pz pcl_point) in
  let st := mkRecon (u64_incr (total_points st)) (unknown_points st)
              (truncated_points st) (inliers st) (abserror st) (count st) in
  run reading <- lookup_distance ev request point;
  progress_guard interval (classify (request_ ev) request reading st).

Fixpoint recon_loop (ev : MapEvaluator) (request : EvaluationRequest)
    (interval : Z) (cloud : list PointXYZ) (st : ReconState) : outcome ReconState :=
  match cloud with
  | [] => Done st
  | pcl_point :: rest =>
      run st' <- recon_body ev request interval st pcl_point;
      recon_loop ev request interval rest st'
  end.

(** Lines 231-290: setup and loop, up to the final state of the locals. *)
Definition recon_pass (ev : MapEvaluator) (request : EvaluationRequest)
  : outcome ReconState :=
  match gt_cloud_ptr_ ev with
  | None => Trap NullPointer
  | Some cloud =>
      let interval := Z.of_nat (length cloud) / 100 in
      recon_loop ev request interval cloud recon_init
  end.

(** ** Summary statistics *)

Record Statistics : Type := mkStatistics {
  mean : float;
  stddev : float;
  rmse : float
}.

(** [mean += value; rmse += std::pow(value, 2)]: the first sum is a float
    sum, the second is formed in double and stored back into the float. *)
Definition sum_step (acc : float * float) (value : float) : float * float :=
  (Float32.add (fst acc) value,
   Float64.to_float (Float64.add (Float64.of_float (snd acc)) (Float64.pow2 value))).

(** [stddev += std::pow(value - mean, 2.0)]. *)
Definition deviation_step (mean0 : float) (acc : float) (value : float) : float :=
  Float64.to_float
    (Float64.add (Float64.of_float acc) (Float64.pow2 (Float32.sub value mean0))).

(** The sum of squared deviations that the second loop leaves in [stddev]. *)
Definition squared_deviations (mean0 : float) (values : list float) : float :=
  fold_left (deviation_step mean0) values Float32.zero.

(** The unqualified [sqrt] of line 308 takes its float argument as a double. *)
Definition sqrt_via_double (x : float) : float :=
  Float64.to_float (Float64.sqrt (Float64.of_float x)).

(** Lines 293-309 of [computeReconstructionError]; lines 382-398 of
    [computeMeshError] are the same statements over [errors]. *)
Definition summary_statistics (values : list float) : Statistics :=
  let sums := fold_left sum_step values (Float32.zero, Float32.zero) in
  let size := Z.of_nat (length values) in
  let mean1 :=
    if negb (size =? 0) then Float32.div (fst sums) (Float32.of_Z size)
    else fst sums in
  let rmse1 :=
    if negb (size =? 0)
    then Float32.sqrt (Float32.div (snd sums) (Float32.of_Z size))
    else snd sums in
  let stddev0 := squared_deviations mean1 values in
  let stddev1 :=
    if 2 <? size
    then sqrt_via_double (Float32.div stddev0 (Float32.of_Z (size - 1)))
    else stddev0 in
  mkStatistics mean1 stddev1 rmse1.

(** The comma separated fields that [computeReconstructionError] returns. *)
Record ReconSummary : Type := mkReconSummary {
  recon_stats : Statistics;
  sum_total_points : Z;
  sum_unknown_points : Z;
  sum_truncated_points : Z;
  sum_inliers : Z
}.

Definition recon_summary (st : ReconState) : ReconSummary :=
  mkReconSummary (summary_statistics (abserror st)) (total_points st)
    (unknown_points st) (truncated_points st) (inliers st).

Definition computeReconstructionError (ev : MapEvaluator)
    (request : EvaluationRequest) : outcome ReconSummary :=
  run st <- recon_pass ev request;
  Done (recon_summary st).

(** ** Vectors and the nearest-neighbour query *)

(** Eigen on three floats.  [squaredNorm] reduces as [x*x + (y*y + z*z)];
    [normalized] divides by the norm when the squared norm is positive and
    returns the vector unchanged otherwise. *)
Definition vec_sub (a b : Point) : Point :=
  mkPoint (Float32.sub (px a) (px b)) (Float32.sub (py a) (py b))
    (Float32.sub (pz a) (pz b)).

Definition vec_scale (a : Point) (s : float) : Point :=
  mkPoint (Float32.mul (px a) s) (Float32.mul (py a) s) (Float32.mul (pz a) s).

Definition vec_quot (a : Point) (s : float) : Point :=
  mkPoint (Float32.div (px a) s) (Float32.div (py a) s) (Float32.div (pz a) s).

Definition squaredNorm (a : Point) : float :=
  Float32.add (Float32.mul (px a) (px a))
    (Float32.add (Float32.mul (py a) (py a)) (Float32.mul (pz a) (pz a))).

Definition norm (a : Point) : float := Float32.sqrt (squaredNorm a).

Definition normalized (a : Point) : Point :=
  let z := squaredNorm a in
  if Float32.ltb Float32.zero z then vec_quot a (Float32.sqrt z) else a.

(** The metric of the kd-tree: the squared differences summed in order. *)
Definition dist_sqr (q p : Point) : float :=
  let d0 := Float32.sub (px q) (px p) in
  let d1 := Float32.sub (py q) (py p) in
  let d2 := Float32.sub (pz q) (pz p) in
  Float32.add (Float32.add (Float32.add Float32.zero (Float32.mul d0 d0))
                 (Float32.mul d1 d1)) (Float32.mul d2 d2).

Fixpoint knn_scan (q : Point) (pts : list Point) (i : nat)
    (best : option (nat * float)) : option (nat * float) :=
  match pts with
  | [] => best
  | p :: rest =>
      let d := dist_sqr q p in
      let best' :=
        match best with
        | None => Some (i, d)
        | Some (_, bd) => if Float32.ltb d bd then Some (i, d) else best
        end in
      knn_scan q rest (S i) best'
  end.

(** Modelled from the spec: the kd-tree ([nanoflann]) is not part of the
    sources.  A query for one neighbour "returns up to k (index,
    squaredDistance) pairs sorted ascending by distance", and on an "empty
    index (no points) yields zero results for any query, never a fault". *)
Definition knnSearch1 (tree : list Point) (q : Point) : option (nat * float) :=
  knn_scan q tree 0%nat None.

(** ** The mesh error pass *)

Record MeshState : Type := mkMesh {
  mesh_inliers : Z;
  mesh_outliers : Z;
  errors : list float
}.

Definition mesh_init : MeshState := mkMesh 0 0 [].

(** Lines 356-372: one mesh vertex.  The inlier test reads [request_]. *)
Definition mesh_vertex (tree : list Point) (request_0 : EvaluationRequest)
    (st : MeshState) (point : Point) : MeshState :=
  match knnSearch1 tree point with
  | Some (ret_index, _) =>
      let error := norm (vec_sub (nth ret_index tree point) point) in
      if Float32.leb error (inlier_distance request_0) then
        mkMesh (u64_incr (mesh_inliers st)) (mesh_outliers st) (errors st ++ [error])
      else
        mkMesh (mesh_inliers st) (u64_incr (mesh_outliers st)) (errors st ++ [error])
  | None => st
  end.

(** Lines 335-345: the submaps that the pass leaves out. *)
Definition skipped (request : EvaluationRequest) (submap : Submap) : bool :=
  negb (is_single_tsdf request)
  && (match getLabel submap with kFreeSpace => true | _ => false end
      || match getChangeState submap with
         | kAbsent | kUnobserved => true
         | _ => false
         end).

(** Lines 350-378: the blocks of one submap.  [ros_ok n] is the answer of
    [ros::ok()] to its [n]-th call of the pass; when it is false the pass
    returns the empty string, which is [None] here. *)
Fixpoint mesh_blocks_loop (tree : list Point) (request_0 : EvaluationRequest)
    (ros_ok : nat -> bool) (blocks : list MeshBlock) (calls : nat)
    (st : MeshState) : option (nat * MeshState) :=
  match blocks with
  | [] => Some (calls, st)
  | block :: rest =>
      if negb (ros_ok calls) then None
      else mesh_blocks_loop tree request_0 ros_ok rest (S calls)
             (fold_left (mesh_vertex tree request_0) (vertices block) st)
  end.

Fixpoint mesh_submaps_loop (tree : list Point)
    (request_0 request : EvaluationRequest) (ros_ok : nat -> bool)
    (submaps : list Submap) (calls : nat) (st : MeshState) : option MeshState :=
  match submaps with
  | [] => Some st
  | submap :: rest =>
      if skipped request submap
      then mesh_submaps_loop tree request_0 request ros_ok rest calls st
      else
        match mesh_blocks_loop tree request_0 ros_ok (mesh_blocks submap) calls st with
        | None => None
        | Some (calls', st') =>
            mesh_submaps_loop tree request_0 request ros_ok rest calls' st'
        end
  end.

(** The comma separated fields that [computeMeshError] returns. *)
Record MeshSummary : Type := mkMeshSummary {
  mesh_stats : Statistics;
  sum_mesh_inliers : Z;
  sum_mesh_outliers : Z
}.

Definition mesh_summary (st : MeshState) : MeshSummary :=
  mkMeshSummary (summary_statistics (errors st)) (mesh_inliers st) (mesh_outliers st).

(** Lines 328-379: the pass up to the final state of its locals. *)
Definition mesh_pass (ev : MapEvaluator) (request : EvaluationRequest)
    (ros_ok : nat -> bool) : outcome (option MeshState) :=
  match submaps_ ev with
  | None => Trap NullPointer
  | Some collection =>
      Done (mesh_submaps_loop (kdtree_data_ ev) (request_ ev) request ros_ok
              collection 0%nat mesh_init)
  end.

Definition computeMeshError (ev : MapEvaluator) (request : EvaluationRequest)
    (ros_ok : nat -> bool) : outcome (option MeshSummary) :=
  run st <- mesh_pass ev request ros_ok;
  Done (option_map mesh_summary st).

(** ** The error-to-colour mapper

    The colour statements of [visualizeReconstructionError] are the same in
    both colouring modes.  They are written once over the arithmetic they
    use, which is then read in two ways: as binary32, the way the program
    runs, and as exact rational arithmetic, where the gradient is the
    piecewise linear function the comments describe. *)

Class ColorArith (F : Type) : Type := mkColorArith {
  c_of_Z : Z -> F;
  c_lit : Z -> Z -> F;
  c_add : F -> F -> F;
  c_sub : F -> F -> F;
  c_mul : F -> F -> F;
  c_div : F -> F -> F;
  c_ltb : F -> F -> bool;
  c_leb : F -> F -> bool
}.

#[export] Instance float_arith : ColorArith float :=
  mkColorArith float Float32.of_Z Float32.lit Float32.add Float32.sub
    Float32.mul Float32.div Float32.ltb Float32.leb.

#[export] Instance exact_arith : ColorArith Q :=
  mkColorArith Q inject_Z (fun p q => Qmake p (Z.to_pos q)) Qplus Qminus
    Qmult Qdiv (fun a b => negb (Qle_bool b a)) Qle_bool.

(** The float channels before they are stored into a [Color]. *)
Record Channels (F : Type) : Type := mkChannels {
  red : F;
  green : F;
  blue : F
}.
Arguments mkChannels {F} red green blue.
Arguments red {F} c.
Arguments green {F} c.
Arguments blue {F} c.

Section ColorMapper.
Context {F : Type} `{ColorArith F}.

Definition c_min (a b : F) : F := if c_ltb b a then b else a.

(** Lines 505-506 and 597-602:
    [std::min(error, request.maximum_distance) / request.maximum_distance]. *)
Definition error_fraction (error_value maximum_distance0 : F) : F :=
  c_div (c_min error_value maximum_distance0) maximum_distance0.

(** Lines 507 and 605. *)
Definition color_red (frac : F) : F :=
  c_mul (c_min (c_add (c_mul (c_sub frac (c_lit 1 2)) (c_of_Z 2)) (c_of_Z 1))
           (c_of_Z 1))
    (c_of_Z 255).

(** Lines 508-511 and 606-609: the falling branch is computed first and
    replaced when [frac <= 0.5f]. *)
Definition color_green (frac : F) : F :=
  let g := c_mul (c_mul (c_sub (c_of_Z 1) frac) (c_of_Z 2)) (c_of_Z 255) in
  if c_leb frac (c_lit 1 2)
  then c_add (c_of_Z 190) (c_mul (c_of_Z 130) frac)
  else g.

(** [Color(r, g, 0)]. *)
Definition colorFor (frac : F) : Channels F :=
  mkChannels (color_red frac) (color_green frac) (c_of_Z 0).
End ColorMapper.

(** The value of a float with its fraction dropped, when it is finite. *)
Definition truncate (x : float) : option Z :=
  match x with
  | S754_zero _ => Some 0
  | S754_finite s m e =>
      let magnitude :=
        if 0 <=? e then Z.pos m * 2 ^ e else Z.pos m / 2 ^ (- e) in
      Some (if s then - magnitude else magnitude)
  | _ => None
  end.

(** A float passed where [uint8_t] is expected: defined when the
    truncated value fits. *)
Definition to_uint8 (x : float) : option Z :=
  match truncate x with
  | Some n => if (0 <=? n) && (n <=? 255) then Some n else None
  | None => None
  end.

Definition store_color (c : Channels float) : option Color :=
  match to_uint8 (red c), to_uint8 (green c), to_uint8 (blue c) with
  | Some r, Some g, Some b => Some (mkColor r g b)
  | _, _, _ => None
  end.

(** Lines 497-512: the colour of one mesh vertex, from the result of the
    one-neighbour query.  With no result [out_dist_sqr] was never written,
    and the colour is computed from an indeterminate value: [None]. *)
Definition mesh_vertex_color (request : EvaluationRequest)
    (result : option (nat * float)) : option (Channels float) :=
  match result with
  | Some (_, out_dist_sqr) =>
      let distance := Float32.sqrt out_dist_sqr in
      let frac := error_fraction distance (maximum_distance request) in
      Some (colorFor frac)
  | None => None
  end.

(** Lines 570-588: the errors of the neighbours of one voxel centre. *)
Record VoxelError : Type := mkVoxelError {
  total_error : float;
  max_error : float;
  counted_voxels : Z;
  min_dist_sqr : float
}.

Definition voxel_error_step (interpolator : TsdfLayer) (tree : list Point)
    (voxel_size_sqr : float) (acc : VoxelError) (res : nat * float) : VoxelError :=
  let min1 := Float32.std_min (min_dist_sqr acc) (snd res) in
  if Float32.ltb voxel_size_sqr (snd res) then
    mkVoxelError (total_error acc) (max_error acc) (counted_voxels acc) min1
  else
    match interpolator (nth (fst res) tree (mkPoint Float32.zero Float32.zero Float32.zero)) true with
    | Some distance =>
        let error := Float32.abs distance in
        mkVoxelError (Float32.add (total_error acc) error)
          (Float32.std_max (max_error acc) error) (counted_voxels acc + 1) min1
    | None =>
        mkVoxelError (total_error acc) (max_error acc) (counted_voxels acc) min1
    end.

(** Lines 589-603: the fraction of one voxel. *)
Definition voxel_fraction (request : EvaluationRequest) (acc : VoxelError) : float :=
  let acc1 :=
    if counted_voxels acc =? 0 then
      mkVoxelError (Float32.add (total_error acc) (Float32.sqrt (min_dist_sqr acc)))
        (min_dist_sqr acc) 1 (min_dist_sqr acc)
    else acc in
  if color_by_max_error request then
    error_fraction (max_error acc1) (maximum_distance request)
  else
    error_fraction
      (Float32.div (total_error acc1) (Float32.of_Z (counted_voxels acc1)))
      (maximum_distance request).

(** Lines 556-610: the colour of one voxel, from the results of the
    neighbour query around its centre; grey when there is none. *)
Definition voxel_color (interpolator : TsdfLayer) (tree : list Point)
    (request : EvaluationRequest) (voxel_size : float)
    (results : list (nat * float)) : option Color :=
  match results with
  | [] => Some (mkColor 128 128 128)
  | _ =>
      let voxel_size_sqr := Float32.mul voxel_size voxel_size in
      let acc :=
        fold_left (voxel_error_step interpolator tree voxel_size_sqr) results
          (mkVoxelError Float32.zero Float32.zero 0 (Float32.of_Z 1000)) in
      store_color (colorFor (voxel_fraction request acc))
  end.

(** ** The world outside the evaluator

    The file codecs and the voxel grid filter, as the answers they give. *)
Record World : Type := mkWorld {
  (** [pcl::io::loadPLYFile]: the return code and the points read. *)
  loadPLYFile : string -> Z * list PointXYZ;
  (** [SubmapCollection::loadFromFile]: the collection when it succeeds. *)
  loadFromFile : string -> option SubmapCollection;
  (** [voxblox::io::LoadLayer]: the layer when it succeeds. *)
  LoadLayer : string -> option TsdfLayer;
  (** [output_file_.open] followed by [is_open]. *)
  open_output_file : string -> bool;
  (** The rows [(InstanceID, ClassID)] of a label map file, when
      [std::filesystem::is_regular_file] holds for it. *)
  read_label_rows : string -> option (list (Z * Z));
  (** [pcl::VoxelGrid::filter] with the given leaf size: the grid with its
      leaf layout and the filtered cloud. *)
  voxel_grid_filter : list PointXYZ -> float -> VoxelGrid * list PointXYZ;
  (** The constructor [PlanningInterface(submaps_)]: the queries over the
      collection, [None] standing for a null pointer. *)
  new_PlanningInterface : option SubmapCollection -> option PlanningInterface
}.

(** ** The labeled point cloud export *)

(** [pcl::PointXYZRGBL]. *)
Record PointXYZRGBL : Type := mkLabeled {
  labeled_position : Point;
  labeled_color : Color;
  label : Z
}.

(** [static_cast<int>] of a [uint32_t]. *)
Definition to_int (n : Z) : Z := if n <? 2 ^ 31 then n else n - u32_modulus.

(** Lines 688-721: the label of one vertex; [None] when the vertex is left
    out ([continue]). *)
Definition vertex_label (submap : Submap)
    (class_block0 : option (Point -> ClassVoxel)) (vertex : Point) : option Z :=
  let chosen :=
    match class_block0 with
    | Some block =>
        let class_voxel := block vertex in
        match getVoxelType class_voxel with
        | kBinaryCount | kMovingBinaryCount =>
            if getBelongingID class_voxel =? 0 then None
            else
              let label0 := u32_wrap (getClassID submap * 1000) in
              Some (match getLabel submap with
                    | kInstance => u32_wrap (label0 + getInstanceID submap)
                    | _ => label0
                    end)
        | kPanopticWeight | kFixedCount | kVariableCount =>
            Some (u32_wrap (getBelongingID class_voxel))
        | kOtherVoxelType => None
        end
    | None => Some 0
    end in
  match chosen with
  | Some label0 => if 50000 <? label0 then None else Some label0
  | None => None
  end.

(** Lines 685-729: the vertices of one mesh block; [colors.at(i)] throws
    when the block has fewer colours than vertices. *)
Fixpoint export_vertices (submap : Submap)
    (class_block0 : option (Point -> ClassVoxel)) (vs : list Point)
    (cs : list Color) (cloud : list PointXYZRGBL) : outcome (list PointXYZRGBL) :=
  match vs with
  | [] => Done cloud
  | vertex :: vs' =>
      match cs with
      | [] => Trap OutOfRange
      | color :: cs' =>
          export_vertices submap class_block0 vs' cs'
            (match vertex_label submap class_block0 vertex with
             | Some label0 => cloud ++ [mkLabeled vertex color label0]
             | None => cloud
             end)
      end
  end.

(** Lines 739-749: the table read from the rows of the label map file. *)
Definition read_label_map (rows : list (Z * Z)) : gmap Z Z :=
  fold_left
    (fun (label_map : gmap Z Z) (row : Z * Z) =>
       let (inst, cls) := row in
       if negb (inst =? -1) && negb (cls =? -1)
       then <[inst := cls]> label_map
       else label_map)
    rows ∅.

(** Lines 753-761: the new label of one point. *)
Definition remap_label (label_map : gmap Z Z) (label0 : Z) : Z :=
  match label_map !! to_int label0 with
  | Some cls => u32_wrap (cls * 1000 + to_int label0)
  | None => u32_wrap (label0 * 1000)
  end.

Definition remap_point (label_map : gmap Z Z) (p : PointXYZRGBL) : PointXYZRGBL :=
  mkLabeled (labeled_position p) (labeled_color p) (remap_label label_map (label p)).

(** Lines 752-762. *)
Definition remap_cloud (label_map : gmap Z Z) (cloud : list PointXYZRGBL)
  : list PointXYZRGBL :=
  map (remap_point label_map) cloud.

(** Lines 676-730: the blocks of one submap. *)
Fixpoint export_blocks (submap : Submap) (blocks : list MeshBlock)
    (cloud : list PointXYZRGBL) : outcome (list PointXYZRGBL) :=
  match blocks with
  | [] => Done cloud
  | block :: rest =>
      run cloud' <- export_vertices submap (class_block block) (vertices block)
                      (colors block) cloud;
      export_blocks submap rest cloud'
  end.

(** Lines 668-731. *)
Fixpoint export_submaps (submaps : list Submap) (cloud : list PointXYZRGBL)
  : outcome (list PointXYZRGBL) :=
  match submaps with
  | [] => Done cloud
  | submap :: rest =>
      if negb (hasClassLayer submap) then export_submaps rest cloud
      else
        run cloud' <- export_blocks submap (mesh_blocks submap) cloud;
        export_submaps rest cloud'
  end.

(** [exportLabeledPointcloud]: the name of the file written and the cloud
    in it.  The remapping is decided by the member [request_]. *)
Definition exportLabeledPointcloud (w : World) (ev : MapEvaluator)
    (request : EvaluationRequest) : outcome (string * list PointXYZRGBL) :=
  match submaps_ ev with
  | None => Trap NullPointer
  | Some collection =>
      run cloud <- export_submaps collection [];
      let cloud1 :=
        if is_single_tsdf (request_ ev) then
          match read_label_rows w
                  (target_directory_ ev ++ "/" ++ target_map_name_ ev ++ ".csv")%string with
          | Some rows => remap_cloud (read_label_map rows) cloud
          | None => cloud
          end
        else cloud in
      Done ((target_directory_ ev ++ "/" ++ target_map_name_ ev
             ++ ".pointcloud.ply")%string,
            cloud1)
  end.

(** ** The coverage export *)

(** [kCoverageGridVoxelSize = 0.05f]. *)
Definition kCoverageGridVoxelSize : float := Float32.lit 5 100.

(** Lines 26-32. *)
Definition get_voxel_centroid (voxel_coordinates : Z * Z * Z) (voxel_size : float)
  : PointXYZ :=
  let '(x, y, z) := voxel_coordinates in
  let t :=
    vec_scale (normalized (mkPoint (Float32.of_Z x) (Float32.of_Z y) (Float32.of_Z z)))
      (Float32.div voxel_size (Float32.of_Z 2)) in
  mkPoint (Float32.add (Float32.mul (Float32.of_Z x) voxel_size) (px t))
    (Float32.add (Float32.mul (Float32.of_Z y) voxel_size) (py t))
    (Float32.add (Float32.mul (Float32.of_Z z) voxel_size) (pz t)).

(** The values of [for (int i = lo; i <= hi; ++i)]. *)
Definition int_range (lo hi : Z) : list Z :=
  map (fun n => lo + Z.of_nat n) (seq 0 (Z.to_nat (hi - lo + 1))).

(** The cells visited by the three nested loops of lines 809-811, in order. *)
Definition grid_cells (min_box max_box : Z * Z * Z) : list (Z * Z * Z) :=
  let '(x0, y0, z0) := min_box in
  let '(x1, y1, z1) := max_box in
  flat_map (fun i =>
    flat_map (fun j =>
      map (fun k => (i, j, k)) (int_range z0 z1))
      (int_range y0 y1))
    (int_range x0 x1).

(** [cloud.at(index)] with an [int] index. *)
Definition cloud_at (cloud : list PointXYZ) (index : Z) : outcome PointXYZ :=
  if (0 <=? index) && (index <? Z.of_nat (length cloud))
  then match nth_error cloud (Z.to_nat index) with
       | Some p => Done p
       | None => Trap OutOfRange
       end
  else Trap OutOfRange.

(** [planning_interface_ptr->isObserved(point)]. *)
Definition observed_by (planning : option PlanningInterface) (point : Point)
  : outcome bool :=
  match planning with
  | Some interface => Done (isObserved interface point)
  | None => Trap NullPointer
  end.

(** Lines 812-827: what one cell appends to the coverage cloud. *)
Definition coverage_cell (grid : VoxelGrid) (filtered : list PointXYZ)
    (planning : option PlanningInterface) (cell : Z * Z * Z)
  : outcome (list PointXYZ) :=
  let centroid_index := getCentroidIndexAt grid cell in
  if centroid_index =? -1 then
    let empty_voxel_centroid := get_voxel_centroid cell kCoverageGridVoxelSize in
    run observed <- observed_by planning
                      (mkPoint (px empty_voxel_centroid) (py empty_voxel_centroid)
                         (pz empty_voxel_centroid));
    if observed then Done [empty_voxel_centroid] else Done []
  else
    run voxel_centroid <- cloud_at filtered centroid_index;
    run observed <- observed_by planning
                      (mkPoint (px voxel_centroid) (py voxel_centroid)
                         (pz voxel_centroid));
    if observed then Done [voxel_centroid] else Done [].

Fixpoint coverage_loop (grid : VoxelGrid) (filtered : list PointXYZ)
    (planning : option PlanningInterface) (cells : list (Z * Z * Z))
    (coverage_cloud : list PointXYZ) : outcome (list PointXYZ) :=
  match cells with
  | [] => Done coverage_cloud
  | cell :: rest =>
      run appended <- coverage_cell grid filtered planning cell;
      coverage_loop grid filtered planning rest (coverage_cloud ++ appended)
  end.

Definition with_ground_truth (ev : MapEvaluator) (cloud : option (list PointXYZ))
  : MapEvaluator :=
  mkEvaluator cloud (gt_voxel_grid_ptr_ ev) (filtered_gt_cloud_ptr_ ev)
    (submaps_ ev) (voxblox_ ev) (use_voxblox_ ev) (target_directory_ ev)
    (target_map_name_ ev) (planning_ ev) (kdtree_data_ ev) (output_open_ ev)
    (request_ ev).

Definition with_voxel_grid (ev : MapEvaluator) (grid : VoxelGrid)
    (filtered : list PointXYZ) : MapEvaluator :=
  mkEvaluator (gt_cloud_ptr_ ev) (Some grid) (Some filtered)
    (submaps_ ev) (voxblox_ ev) (use_voxblox_ ev) (target_directory_ ev)
    (target_map_name_ ev) (planning_ ev) (kdtree_data_ ev) (output_open_ ev)
    (request_ ev).

(** Lines 774-783: the ground truth is loaded when it is missing; a failed
    load is logged at the fatal level, which ends the process. *)
Definition coverage_ground_truth (w : World) (ev : MapEvaluator)
  : outcome (MapEvaluator * list PointXYZ) :=
  match gt_cloud_ptr_ ev with
  | Some cloud => Done (ev, cloud)
  | None =>
      let (code, cloud) := loadPLYFile w (ground_truth_pointcloud_file (request_ ev)) in
      if code =? -1 then Trap FatalLog
      else Done (with_ground_truth ev (Some cloud), cloud)
  end.

(** Lines 785-799: the voxel grid is computed once. *)
Definition coverage_voxel_grid (w : World) (ev : MapEvaluator)
    (cloud : list PointXYZ) : outcome (MapEvaluator * VoxelGrid * list PointXYZ) :=
  match gt_voxel_grid_ptr_ ev with
  | Some grid =>
      match filtered_gt_cloud_ptr_ ev with
      | Some filtered => Done (ev, grid, filtered)
      | None => Trap NullPointer
      end
  | None =>
      let (grid, filtered) := voxel_grid_filter w cloud kCoverageGridVoxelSize in
      Done (with_voxel_grid ev grid filtered, grid, filtered)
  end.

(** [exportCoveragePointcloud]: the evaluator afterwards, the name of the
    file written and the coverage cloud in it. *)
Definition exportCoveragePointcloud (w : World) (ev : MapEvaluator)
    (request : EvaluationRequest)
  : outcome (MapEvaluator * string * list PointXYZ) :=
  run loaded <- coverage_ground_truth w ev;
  run gridded <- coverage_voxel_grid w (fst loaded) (snd loaded);
  let '(ev2, grid, filtered) := gridded in
  run coverage_cloud <-
    coverage_loop grid filtered (new_PlanningInterface w (submaps_ ev2))
      (grid_cells (getMinBoxCoordinates grid) (getMaxBoxCoordinates grid)) [];
  Done (ev2,
        (target_directory_ ev2 ++ "/" ++ target_map_name_ ev2
         ++ ".coverage.ply")%string,
        coverage_cloud).

(** ** [std::string] positions

    [size_t] positions are [Z] modulo [2^64]; [npos] is the largest one. *)
Definition npos : Z := u64_modulus - 1.
Definition size_wrap (n : Z) : Z := n mod u64_modulus.

Fixpoint last_index (c : ascii) (s : string) (i : Z) (found : Z) : Z :=
  match s with
  | EmptyString => found
  | String a rest => last_index c rest (i + 1) (if Ascii.eqb a c then i else found)
  end.

(** [s.find_last_of(c)]. *)
Definition find_last_of (s : string) (c : ascii) : Z := last_index c s 0 npos.

Definition string_size (s : string) : Z := Z.of_nat (String.length s).

(** [s.substr(pos, count)]: throws [std::out_of_range] when [pos] is past
    the end. *)
Definition substr (s : string) (pos count : Z) : outcome string :=
  if string_size s <? pos then Trap OutOfRange
  else Done (substring (Z.to_nat pos)
               (Z.to_nat (Z.min count (string_size s - pos))) s).

(** Lines 148-154 and 427-432: the extension and the map name of a path. *)
Definition path_extension (path : string) : outcome string :=
  substr path (find_last_of path ".") npos.

Definition path_map_name (path extension : string) : outcome string :=
  let separator := find_last_of path "/" in
  substr path (size_wrap (separator + 1))
    (size_wrap (string_size path - separator - string_size extension - 1)).

(** ** [evaluate] and the service callback *)

(** What a run leaves behind: the files written and the publication. *)
Inductive Artifact : Type :=
| CsvRow (file : string) (row : ReconSummary)
| ServiceRow (recon : ReconSummary) (mesh : option MeshSummary)
| MeshPly (file : string)
| LabeledPly (file : string) (cloud : list PointXYZRGBL)
| CoveragePly (file : string) (cloud : list PointXYZ)
| ColoredMap (file : string)
| Published.

Definition with_target (ev : MapEvaluator) (directory name : string) : MapEvaluator :=
  mkEvaluator (gt_cloud_ptr_ ev) (gt_voxel_grid_ptr_ ev) (filtered_gt_cloud_ptr_ ev)
    (submaps_ ev) (voxblox_ ev) (use_voxblox_ ev) directory name (planning_ ev)
    (kdtree_data_ ev) (output_open_ ev) (request_ ev).

Definition with_map (ev : MapEvaluator) (submaps : option SubmapCollection)
    (voxblox : option TsdfLayer) (use_voxblox : bool)
    (planning : option PlanningInterface) : MapEvaluator :=
  mkEvaluator (gt_cloud_ptr_ ev) (gt_voxel_grid_ptr_ ev) (filtered_gt_cloud_ptr_ ev)
    submaps voxblox use_voxblox (target_directory_ ev) (target_map_name_ ev)
    planning (kdtree_data_ ev) (output_open_ ev) (request_ ev).

Definition with_kdtree (ev : MapEvaluator) (points : list Point) : MapEvaluator :=
  mkEvaluator (gt_cloud_ptr_ ev) (gt_voxel_grid_ptr_ ev) (filtered_gt_cloud_ptr_ ev)
    (submaps_ ev) (voxblox_ ev) (use_voxblox_ ev) (target_directory_ ev)
    (target_map_name_ ev) (planning_ ev) points (output_open_ ev) (request_ ev).

Definition is_empty (s : string) : bool :=
  match s with EmptyString => true | _ => false end.

(** Lines 125-143: the ground truth of [evaluate].  The boolean tells
    whether the run goes on; when it is false [evaluate] returns false. *)
Definition load_ground_truth (w : World) (ev : MapEvaluator)
    (request : EvaluationRequest) : MapEvaluator * bool :=
  if evaluate_flag request || compute_coloring request then
    let loaded :=
      if negb (is_empty (ground_truth_pointcloud_file request)) then
        let (code, cloud) := loadPLYFile w (ground_truth_pointcloud_file request) in
        if negb (code =? 0) then (with_ground_truth ev None, false)
        else (with_ground_truth ev (Some cloud), true)
      else (ev, true) in
    if snd loaded then
      match gt_cloud_ptr_ (fst loaded) with
      | None => (fst loaded, false)
      | Some _ => (fst loaded, true)
      end
    else loaded
  else (ev, true).

(** Lines 145-177: the map of [evaluate]. *)
Definition load_map (w : World) (ev : MapEvaluator) (request : EvaluationRequest)
  : outcome (MapEvaluator * bool) :=
  if negb (is_empty (map_file request)) then
    run extension <- path_extension (map_file request);
    run directory <- substr (map_file request) 0 (find_last_of (map_file request) "/");
    run name <- path_map_name (map_file request) extension;
    let ev1 := with_target ev directory name in
    if String.eqb extension ".panmap" then
      match loadFromFile w (map_file request) with
      | None => Done (with_map ev1 None (voxblox_ ev1) false (planning_ ev1), false)
      | Some collection =>
          Done (with_map ev1 (Some collection) (voxblox_ ev1) false
                  (new_PlanningInterface w (Some collection)), true)
      end
    else if String.eqb extension ".vxblx" then
      Done (with_map ev1 (submaps_ ev1)
              (match LoadLayer w (map_file request) with
               | Some layer => Some layer
               | None => voxblox_ ev1
               end)
              true (planning_ ev1), true)
    else Done (ev1, false)
  else Done (ev, true).

(** [exportMesh]: the name of the merged mesh file. *)
Definition exportMesh (ev : MapEvaluator) (request : EvaluationRequest)
  : outcome string :=
  match submaps_ ev with
  | None => Trap NullPointer
  | Some _ =>
      Done (target_directory_ ev ++ "/" ++ target_map_name_ ev ++ ".mesh.ply")%string
  end.

(** Lines 459-470: the submaps that the colouring removes. *)
Definition inactive (submap : Submap) : bool :=
  match getLabel submap with kFreeSpace => true | _ => false end
  || match getChangeState submap with kPersistent => false | _ => true end.

(** Lines 539-543 and 613-615: the blocks of the TSDF layer of one submap
    in the voxel colouring.  [ros_ok n] is the answer of [ros::ok()] to its
    [n]-th call of the pass; when it is false the function returns at
    once, which is [None] here.  The colours written into the voxels of a
    block are those of [voxel_color]. *)
Fixpoint color_blocks_loop (ros_ok : nat -> bool) (blocks calls : nat)
  : option nat :=
  match blocks with
  | O => Some calls
  | S rest =>
      if negb (ros_ok calls) then None
      else color_blocks_loop ros_ok rest (S calls)
  end.

(** Lines 524-617: the submaps of the voxel colouring. *)
Fixpoint color_submaps_loop (ros_ok : nat -> bool) (submaps : list Submap)
    (calls : nat) : option nat :=
  match submaps with
  | [] => Some calls
  | submap :: rest =>
      match color_blocks_loop ros_ok (tsdf_block_count submap) calls with
      | None => None
      | Some calls' => color_submaps_loop ros_ok rest calls'
      end
  end.

(** [visualizeReconstructionError], as far as [evaluate] depends on it: the
    kd-tree is rebuilt over the ground truth and the inactive submaps are
    removed.  Colouring by the mesh distance always reaches [saveToFile];
    the voxel colouring asks [ros::ok()] before every block and returns
    without saving when the answer is false.  The result holds the name
    under which the coloured map was stored, if it was.  The colours
    themselves are those of [mesh_vertex_color] and [voxel_color]. *)
Definition visualizeReconstructionError (ev : MapEvaluator)
    (request : EvaluationRequest) (ros_ok : nat -> bool)
  : outcome (MapEvaluator * option string) :=
  match gt_cloud_ptr_ ev with
  | None => Trap NullPointer
  | Some cloud =>
      let ev1 := with_kdtree ev (map (fun p => mkPoint (px p) (py p) (pz p)) cloud) in
      match submaps_ ev1 with
      | None => Trap NullPointer
      | Some collection =>
          let kept :=
            if negb (is_single_tsdf request)
            then filter (fun submap => negb (inactive submap)) collection
            else collection in
          let ev2 := with_map ev1 (Some kept) (voxblox_ ev1) (use_voxblox_ ev1)
                       (planning_ ev1) in
          if color_by_mesh_distance request then
            Done (ev2,
                  Some (target_directory_ ev2 ++ "/" ++ target_map_name_ ev2
                        ++ "_evaluated.panmap")%string)
          else
            match color_submaps_loop ros_ok kept 0%nat with
            | None => Done (ev2, None)
            | Some _ =>
                Done (ev2,
                      Some (target_directory_ ev2 ++ "/" ++ target_map_name_ ev2
                            ++ "_evaluated_"
                            ++ (if color_by_max_error request then "max" else "mean")
                            ++ ".panmap")%string)
            end
      end
  end.

(** Lines 183-222: the outputs of [evaluate] once everything is loaded. *)
Definition evaluate_outputs (w : World) (ev : MapEvaluator)
    (request : EvaluationRequest) (ros_ok : nat -> bool)
  : outcome (bool * MapEvaluator * list Artifact) :=
  let out_file_name :=
    (target_directory_ ev ++ "/" ++ target_map_name_ ev ++ "_"
     ++ output_suffix request ++ ".csv")%string in
  if evaluate_flag request && negb (open_output_file w out_file_name)
  then Done (false, ev, [])
  else
    run written <-
      (if evaluate_flag request then
         run row <- computeReconstructionError ev request;
         Done [CsvRow out_file_name row]
       else Done []);
    run meshed <-
      (if export_mesh request then
         run file <- exportMesh ev request; Done [MeshPly file]
       else Done []);
    run labeled <-
      (if export_labeled_pointcloud request then
         run exported <- exportLabeledPointcloud w ev request;
         Done [LabeledPly (fst exported) (snd exported)]
       else Done []);
    run colored <-
      (if compute_coloring request then
         run visualized <- visualizeReconstructionError ev request ros_ok;
         Done (fst visualized,
               match snd visualized with
               | Some file => [ColoredMap file]
               | None => []
               end)
       else Done (ev, []));
    let published := if visualize request then [Published] else [] in
    Done (true, fst colored,
          written ++ meshed ++ labeled ++ snd colored ++ published).

(** [MapEvaluator::evaluate]: the value returned, the evaluator afterwards
    and what was written.  [ros_ok n] is the answer of [ros::ok()] to its
    [n]-th call, which only the voxel colouring asks for. *)
Definition evaluate (w : World) (ev : MapEvaluator) (request : EvaluationRequest)
    (ros_ok : nat -> bool) : outcome (bool * MapEvaluator * list Artifact) :=
  if negb (isValid request) then Done (false, ev, [])
  else
    let (ev1, goes_on) := load_ground_truth w ev request in
    if negb goes_on then Done (false, ev1, [])
    else
      run mapped <- load_map w ev1 request;
      let (ev2, goes_on2) := mapped in
      if negb goes_on2 then Done (false, ev2, [])
      else
        match submaps_ ev2, use_voxblox_ ev2 with
        | None, false => Done (false, ev2, [])
        | _, _ => evaluate_outputs w ev2 request ros_ok
        end.

(** [MapEvaluator::evaluateMapCallback] on the path of the request. *)
Definition evaluateMapCallback (w : World) (ev : MapEvaluator)
    (file_path : string) (ros_ok : nat -> bool)
  : outcome (bool * MapEvaluator * list Artifact) :=
  match loadFromFile w file_path with
  | None =>
      Done (false,
            with_map ev None (voxblox_ ev) (use_voxblox_ ev) (planning_ ev), [])
  | Some collection =>
      let ev1 := with_map ev (Some collection) (voxblox_ ev) (use_voxblox_ ev)
                   (if evaluate_flag (request_ ev)
                    then new_PlanningInterface w (Some collection)
                    else planning_ ev) in
      run written <-
        (if evaluate_flag (request_ ev) then
           run recon <- computeReconstructionError ev1 (request_ ev1);
           run mesh <- computeMeshError ev1 (request_ ev1) ros_ok;
           Done [ServiceRow recon mesh]
         else Done []);
      run extension <- path_extension file_path;
      run name <- path_map_name file_path extension;
      let ev2 := with_target ev1 (target_directory_ ev1) name in
      run meshed <-
        (if export_mesh (request_ ev2) then
           run file <- exportMesh ev2 (request_ ev2); Done [MeshPly file]
         else Done []);
      run labeled <-
        (if export_labeled_pointcloud (request_ ev2) then
           run exported <- exportLabeledPointcloud w ev2 (request_ ev2);
           Done [LabeledPly (fst exported) (snd exported)]
         else Done []);
      run covered <-
        (if export_coverage_pointcloud (request_ ev2) then
           run exported <- exportCoveragePointcloud w ev2 (request_ ev2);
           Done (fst (fst exported),
                 [CoveragePly (snd (fst exported)) (snd exported)])
         else Done (ev2, []));
      Done (true, fst covered, written ++ meshed ++ labeled ++ snd covered)
  end.

(* ================================================================== *)
(** * Part I, continued: notions used to state the properties          *)
(* ================================================================== *)

(** Two outcomes are related when both return related values or both stop
    with the same fault. *)
Definition outcome_rel {A : Type} (R : A -> A -> Prop) (x y : outcome A) : Prop :=
  match x, y with
  | Done a, Done b => R a b
  | Trap f, Trap g => f = g
  | _, _ => False
  end.

(** The pointer that the distance lookup dereferences is set. *)
Definition lookup_ready (ev : MapEvaluator) : bool :=
  if use_voxblox_ ev
  then match voxblox_ ev with Some _ => true | None => false end
  else match planning_ ev with Some _ => true | None => false end.

(** The lookup result of a ground-truth point when the pointer is set. *)
Definition reading_of (ev : MapEvaluator) (request : EvaluationRequest)
    (pcl_point : PointXYZ) : option float :=
  let point := mkPoint (px pcl_point) (py pcl_point) (pz pcl_point) in
  if use_voxblox_ ev then
    match voxblox_ ev with
    | Some layer => layer point true
    | None => None
    end
  else
    match planning_ ev with
    | Some planning =>
        if is_single_tsdf request
        then getDistance planning point false true
        else getDistance planning point true false
    | None => None
    end.

(** One iteration of the reconstruction loop when nothing stops it. *)
Definition recon_step (ev : MapEvaluator) (request : EvaluationRequest)
    (st : ReconState) (pcl_point : PointXYZ) : ReconState :=
  let st1 := mkRecon (u64_incr (total_points st)) (unknown_points st)
               (truncated_points st) (inliers st) (abserror st) (count st) in
  let st2 := classify (request_ ev) request (reading_of ev request pcl_point) st1 in
  mkRecon (total_points st2) (unknown_points st2) (truncated_points st2)
    (inliers st2) (abserror st2) (u64_incr (count st2)).

(** The samples that one lookup result adds to [abserror]. *)
Definition samples_of (request : EvaluationRequest) (reading : option float)
  : list float :=
  match reading with
  | Some distance =>
      if Float32.ltb (maximum_distance request) (Float32.abs distance) then
        if ignore_truncated_points request then [] else [maximum_distance request]
      else [Float32.abs distance]
  | None => []
  end.

(** A lookup result that is observed and beyond the maximum distance. *)
Definition is_truncated (request : EvaluationRequest) (reading : option float)
  : bool :=
  match reading with
  | Some distance => Float32.ltb (maximum_distance request) (Float32.abs distance)
  | None => false
  end.

(** The two runs of one pass that differ in [ignore_truncated_points] go
    through related states. *)
Definition ignore_related (st_t st_f : ReconState) : Prop :=
  total_points st_t = total_points st_f
  /\ unknown_points st_t = unknown_points st_f
  /\ truncated_points st_t = truncated_points st_f
  /\ inliers st_t = inliers st_f
  /\ count st_t = count st_f
  /\ (length (abserror st_t) <= length (abserror st_f))%nat.

(** The counters of the pass are consistent: every point counted is
    unknown or observed, and truncated points and inliers are observed. *)
Definition counters_consistent (st : ReconState) : Prop :=
  0 <= unknown_points st
  /\ 0 <= inliers st
  /\ 0 <= truncated_points st
  /\ inliers st + unknown_points st <= total_points st
  /\ truncated_points st + unknown_points st <= total_points st
  /\ count st = total_points st.

(** ** Inputs for the examples *)

(** A planning interface over the half space [x >= 0], whose distance at a
    point is the [x] coordinate of the point. *)
Definition halfspace_planning : PlanningInterface :=
  mkPlanning
    (fun point _ _ =>
       if Float32.ltb (px point) Float32.zero then None else Some (px point))
    (fun point => negb (Float32.ltb (px point) Float32.zero)).

Definition on_x_axis (p q : Z) : Point :=
  mkPoint (Float32.lit p q) Float32.zero Float32.zero.

(** The points [(n/100, 0, 0)] for [n] from [-20] to [100]. *)
Definition axis_cloud : list PointXYZ :=
  map (fun n => on_x_axis n 100) (int_range (-20) 100).

Definition axis_evaluator (request_0 : EvaluationRequest) : MapEvaluator :=
  mkEvaluator (Some axis_cloud) None None None None false "" ""
    (Some halfspace_planning) [] false request_0.

(** A hundred ground-truth points of which two are observed, at distances
    [0] and [0.1]. *)
Definition two_observed_cloud : list PointXYZ :=
  on_x_axis 0 1 :: on_x_axis 1 10 :: repeat (on_x_axis (-1) 1) 98.

Definition two_observed_evaluator : MapEvaluator :=
  mkEvaluator (Some two_observed_cloud) None None None None false "" ""
    (Some halfspace_planning) [] false default_request.

(** A map of one persistent instance submap whose mesh has two vertices, at
    distances [0] and [0.1] from the only ground-truth point. *)
Definition two_vertex_submap : Submap :=
  mkSubmap 0 kInstance kPersistent 1 7 false
    [mkMeshBlock [on_x_axis 0 1; on_x_axis 1 10] [] None]
    (fun _ _ => None) 1.

Definition two_vertex_evaluator : MapEvaluator :=
  mkEvaluator (Some [on_x_axis 0 1]) None None (Some [two_vertex_submap]) None
    false "" "" (Some halfspace_planning) [on_x_axis 0 1] false default_request.

(** ** The empty cell of the coverage grid, in words *)

Definition vec_add (a b : Point) : Point :=
  mkPoint (Float32.add (px a) (px b)) (Float32.add (py a) (py b))
    (Float32.add (pz a) (pz b)).

(** The corner [(i*s, j*s, k*s)] of a cell. *)
Definition cell_corner (cell : Z * Z * Z) (voxel_size : float) : Point :=
  let '(i, j, k) := cell in
  mkPoint (Float32.mul (Float32.of_Z i) voxel_size)
    (Float32.mul (Float32.of_Z j) voxel_size)
    (Float32.mul (Float32.of_Z k) voxel_size).

(** The centre of a cell: half a cell size from the corner along each axis. *)
Definition cell_center (cell : Z * Z * Z) (voxel_size : float) : Point :=
  let half := Float32.div voxel_size (Float32.of_Z 2) in
  vec_add (cell_corner cell voxel_size) (mkPoint half half half).

(** "The cell corner offset by half a cell size along the corner-to-center
    unit vector". *)
Definition corner_to_center_point (cell : Z * Z * Z) (voxel_size : float) : Point :=
  let corner := cell_corner cell voxel_size in
  let direction := normalized (vec_sub (cell_center cell voxel_size) corner) in
  vec_add corner (vec_scale direction (Float32.div voxel_size (Float32.of_Z 2))).

(** The representative point of a cell: the stored centroid of an occupied
    cell, the synthetic point of an empty one. *)
Definition representative (grid : VoxelGrid) (filtered : list PointXYZ)
    (cell : Z * Z * Z) : option PointXYZ :=
  if getCentroidIndexAt grid cell =? -1
  then Some (get_voxel_centroid cell kCoverageGridVoxelSize)
  else
    if (0 <=? getCentroidIndexAt grid cell)
       && (getCentroidIndexAt grid cell <? Z.of_nat (length filtered))
    then nth_error filtered (Z.to_nat (getCentroidIndexAt grid cell))
    else None.

(** What a cell with a representative point appends to the coverage cloud. *)
Definition observed_points (grid : VoxelGrid) (filtered : list PointXYZ)
    (planning : PlanningInterface) (cell : Z * Z * Z) : list PointXYZ :=
  match representative grid filtered cell with
  | Some point =>
      if isObserved planning (mkPoint (px point) (py point) (pz point))
      then [point] else []
  | None => []
  end.

(** A grid of the two cells [(0,0,0)] and [(1,0,0)], the first occupied by
    the only point of the filtered cloud, the second empty. *)
Definition two_cell_grid : VoxelGrid :=
  mkVoxelGrid (0, 0, 0) (1, 0, 0)
    (fun cell => match cell with (0, 0, 0) => 0 | _ => -1 end).

(** The exponent of the binary32 format for a number of the given
    magnitude. *)
Definition fexp32 (k : Z) : Z := Z.max (k - 24) (-149).

(** ** The gradient as a function of exact fractions *)

Definition nondecreasing_between (lo hi : Q) (f : Q -> Q) : Prop :=
  forall x y : Q, (lo <= x)%Q -> (x <= y)%Q -> (y <= hi)%Q -> (f x <= f y)%Q.

Definition nonincreasing_between (lo hi : Q) (f : Q -> Q) : Prop :=
  forall x y : Q, (lo <= x)%Q -> (x <= y)%Q -> (y <= hi)%Q -> (f y <= f x)%Q.

(** Monotonic on the unit interval: never decreasing, or never increasing. *)
Definition monotonic_on_unit (f : Q -> Q) : Prop :=
  nondecreasing_between 0 1 f \/ nonincreasing_between 0 1 f.

(** Continuous at every fraction of the unit interval. *)
Definition continuous_on_unit (f : Q -> Q) : Prop :=
  forall x : Q, (0 <= x <= 1)%Q ->
  forall eps : Q, (0 < eps)%Q ->
  exists delta : Q,
    (0 < delta)%Q
    /\ forall y : Q, (0 <= y <= 1)%Q ->
         (Qabs (y - x) < delta)%Q -> (Qabs (f y - f x) < eps)%Q.

(** ** The label table, in words *)

(** The class that the rows give to an instance: the [ClassID] of the last
    row with this [InstanceID]. *)
Definition last_class (rows : list (Z * Z)) (instance : Z) : option Z :=
  fold_left
    (fun (found : option Z) (row : Z * Z) =>
       if fst row =? instance then Some (snd row) else found)
    rows None.

(** The largest class whose label [class * 1000 + 50000] fits an [int]. *)
Definition max_class : Z := (int_max - 50000) / 1000.

(** What the remapping through a table does to a point [p], with image
    [q]: position and colour are kept; a label that is a key of the table
    becomes [class * 1000 + instance] as an unsigned 32-bit number, that is
    modulo [2^32]; any other label is multiplied by 1000. *)
Definition remapped_by (label_map : gmap Z Z) (p q : PointXYZRGBL) : Prop :=
  labeled_position q = labeled_position p
  /\ labeled_color q = labeled_color p
  /\ match label_map !! label p with
     | Some cls => label q = u32_wrap (cls * 1000 + label p)
     | None => label q = label p * 1000
     end.

(** "Receives the label classID*1000 + instanceID exactly", for a label
    that is a key of the table. *)
Definition remapped_exactly (label_map : gmap Z Z) (p q : PointXYZRGBL) : Prop :=
  match label_map !! label p with
  | Some cls => label q = cls * 1000 + label p
  | None => label q = label p * 1000
  end.

(** The same in terms of the rows of the file. *)
Definition remapped (rows : list (Z * Z)) (p q : PointXYZRGBL) : Prop :=
  labeled_position q = labeled_position p
  /\ labeled_color q = labeled_color p
  /\ match last_class rows (label p) with
     | Some cls => label q = cls * 1000 + label p
     | None => label q = label p * 1000
     end.

(** The labels that the export lets through. *)
Definition label_bounded (p : PointXYZRGBL) : Prop := 0 <= label p <= 50000.

(** ** More inputs for the examples *)

(** A world in which no ground truth and no layer can be loaded, every
    map file holds an empty collection, and every label map file holds
    the row [(7, 3)]. *)
Definition bare_world : World :=
  mkWorld (fun _ => (-1, []))
    (fun _ => Some [])
    (fun _ => None)
    (fun _ => true)
    (fun _ => Some [(7, 3)])
    (fun _ _ => (mkVoxelGrid (0, 0, 0) (0, 0, 0) (fun _ => -1), []))
    (fun submaps => option_map (fun _ => halfspace_planning) submaps).

(** A request that asks for the coverage export only. *)
Definition coverage_request : EvaluationRequest :=
  mkRequest 4 "" "missing.ply" "evaluation_data"
    (Float32.lit 2 10) (Float32.lit 1 10)
    false false false false false true false false false true.

(** An evaluator in service mode that holds no ground truth. *)
Definition coverage_evaluator : MapEvaluator :=
  mkEvaluator None None None None None false "run" "" None [] true
    coverage_request.

(** A request for a voxblox layer that asks for no output at all. *)
Definition layer_request : EvaluationRequest :=
  mkRequest 4 "run/map.vxblx" "" "evaluation_data"
    (Float32.lit 2 10) (Float32.lit 1 10)
    false false false false false true false false false false.

(** A request for a panoptic map with the evaluation switched on. *)
Definition panmap_request : EvaluationRequest :=
  mkRequest 4 "run/map.panmap" "missing.ply" "evaluation_data"
    (Float32.lit 2 10) (Float32.lit 1 10)
    false true false false false true false false false false.

Definition fresh_evaluator : MapEvaluator :=
  mkEvaluator None None None None None false "" "" None [] false default_request.

(** A single-TSDF map: one submap with a class layer of fixed-count voxels,
    whose mesh has a vertex of instance 7 and a vertex of instance 9. *)
Definition single_tsdf_request : EvaluationRequest :=
  mkRequest 4 "" "" "evaluation_data" (Float32.lit 2 10) (Float32.lit 1 10)
    false true false false false true true false true false.

Definition instance_block : MeshBlock :=
  mkMeshBlock [on_x_axis 0 1; on_x_axis 1 1]
    [mkColor 10 20 30; mkColor 40 50 60]
    (Some (fun vertex =>
             if Float32.ltb Float32.zero (px vertex)
             then mkClassVoxel kFixedCount 9
             else mkClassVoxel kFixedCount 7)).

Definition single_tsdf_evaluator : MapEvaluator :=
  mkEvaluator None None None
    (Some [mkSubmap 0 kBackground kPersistent 0 0 true [instance_block]
             (fun _ _ => None) 1])
    None false "run" "map" None [] true single_tsdf_request.

(** A world in which the ground truth loads and no map does. *)
Definition no_map_world : World :=
  mkWorld (fun _ => (0, [on_x_axis 0 1]))
    (fun _ => None)
    (fun _ => None)
    (fun _ => true)
    (fun _ => None)
    (fun _ _ => (mkVoxelGrid (0, 0, 0) (0, 0, 0) (fun _ => -1), []))
    (fun submaps => option_map (fun _ => halfspace_planning) submaps).

(* ================================================================== *)
(** * Part I, continued: further notions                               *)
(* ================================================================== *)

(** Every point counted is unknown, or left out as truncated, or has
    given one sample. *)
Definition samples_accounted (request : EvaluationRequest) (st : ReconState)
  : Prop :=
  Z.of_nat (length (abserror st)) + unknown_points st
  + (if ignore_truncated_points request then truncated_points st else 0)
  = total_points st.

(** Two states of the reconstruction loop with the same counters and the
    same samples up to their order. *)
Definition same_counts (a b : ReconState) : Prop :=
  total_points a = total_points b
  /\ unknown_points a = unknown_points b
  /\ truncated_points a = truncated_points b
  /\ inliers a = inliers b
  /\ count a = count b
  /\ Permutation (abserror a) (abserror b).

(** No lookup of the cloud is observed. *)
Definition all_unknown (ev : MapEvaluator) (request : EvaluationRequest)
    (cloud : list PointXYZ) : Prop :=
  Forall (fun p => reading_of ev request p = None) cloud.

(** The cloud of [axis_cloud] mirrored: the same points in reverse order. *)
Definition reversed_axis_cloud : list PointXYZ := rev axis_cloud.

(** A hundred points outside the half space. *)
Definition unknown_cloud : list PointXYZ := repeat (on_x_axis (-1) 1) 100.

Definition with_cloud (ev : MapEvaluator) (cloud : list PointXYZ) : MapEvaluator :=
  with_ground_truth ev (Some cloud).

(** Each measured vertex is an inlier or an outlier, once. *)
Definition mesh_accounted (st : MeshState) : Prop :=
  0 <= mesh_inliers st
  /\ 0 <= mesh_outliers st
  /\ mesh_inliers st + mesh_outliers st = Z.of_nat (length (errors st)).

(** The mesh blocks, and the vertices, of the submaps that the mesh error
    pass does not leave out, in the order of the pass. *)
Definition measured_blocks (request : EvaluationRequest)
    (submaps : list Submap) : list MeshBlock :=
  flat_map (fun submap => if skipped request submap then [] else mesh_blocks submap)
    submaps.

Definition measured_vertices (request : EvaluationRequest)
    (submaps : list Submap) : list Point :=
  flat_map vertices (measured_blocks request submaps).

(** [ros::ok()] holds at the calls [first], ..., [first + n - 1]. *)
Definition all_ok (ros_ok : nat -> bool) (first n : nat) : bool :=
  forallb ros_ok (seq first n).

(** A free-space submap with one mesh block of one vertex. *)
Definition free_space_submap : Submap :=
  mkSubmap 1 kFreeSpace kPersistent 0 0 false
    [mkMeshBlock [on_x_axis 5 1] [] None]
    (fun _ _ => None) 1.

Definition mixed_evaluator : MapEvaluator :=
  mkEvaluator (Some [on_x_axis 0 1]) None None
    (Some [free_space_submap; two_vertex_submap]) None
    false "" "" (Some halfspace_planning) [on_x_axis 0 1] false default_request.

Definition with_submaps (ev : MapEvaluator) (submaps : option SubmapCollection)
  : MapEvaluator :=
  with_map ev submaps (voxblox_ ev) (use_voxblox_ ev) (planning_ ev).

(** A mesh block with a colour for each of its vertices. *)
Definition colored (block : MeshBlock) : bool :=
  (length (vertices block) <=? length (colors block))%nat.

(** Every mesh block of every submap with a class layer is coloured. *)
Definition exportable (submaps : list Submap) : bool :=
  forallb (fun submap =>
             negb (hasClassLayer submap) || forallb colored (mesh_blocks submap))
    submaps.

(** The vertices of the submaps with a class layer. *)
Definition class_layer_vertices (submaps : list Submap) : list Point :=
  flat_map (fun submap =>
              if hasClassLayer submap
              then flat_map vertices (mesh_blocks submap) else [])
    submaps.

(** No mesh block has a block of the class layer under it. *)
Definition no_class_blocks (submaps : list Submap) : Prop :=
  forall submap block,
    In submap submaps -> In block (mesh_blocks submap) ->
    class_block block = None.

(** A class-layer submap whose only mesh block has two vertices and one
    colour. *)
Definition uncolored_evaluator : MapEvaluator :=
  mkEvaluator None None None
    (Some [mkSubmap 0 kInstance kPersistent 1 7 true
             [mkMeshBlock [on_x_axis 0 1; on_x_axis 1 1] [mkColor 1 2 3] None]
             (fun _ _ => None) 1])
    None false "run" "map" None [] true default_request.

(** A class-layer submap without class blocks, fully coloured. *)
Definition unlabeled_evaluator : MapEvaluator :=
  mkEvaluator None None None
    (Some [mkSubmap 0 kInstance kPersistent 1 7 true
             [mkMeshBlock [on_x_axis 0 1; on_x_axis 1 1]
                [mkColor 1 2 3; mkColor 4 5 6] None]
             (fun _ _ => None) 1])
    None false "run" "map" None [] true default_request.

(** The number of values of [for (int i = lo; i <= hi; ++i)]. *)
Definition range_size (lo hi : Z) : nat := Z.to_nat (hi - lo + 1).

(** A cell lies in the box of the grid, bounds included. *)
Definition in_box (min_box max_box cell : Z * Z * Z) : Prop :=
  let '(x0, y0, z0) := min_box in
  let '(x1, y1, z1) := max_box in
  let '(i, j, k) := cell in
  x0 <= i <= x1 /\ y0 <= j <= y1 /\ z0 <= k <= z1.

(** A world whose voxel grid filter yields [two_cell_grid] with the
    centroid [(0.01, 0, 0)] for the occupied cell, and in which the ground
    truth loads. *)
Definition grid_world : World :=
  mkWorld (fun _ => (0, [on_x_axis 1 100]))
    (fun _ => Some [])
    (fun _ => None)
    (fun _ => true)
    (fun _ => None)
    (fun _ _ => (two_cell_grid, [on_x_axis 1 100]))
    (fun submaps => option_map (fun _ => halfspace_planning) submaps).

Definition service_evaluator : MapEvaluator :=
  mkEvaluator None None None (Some []) None false "run" "map" None [] true
    coverage_request.

(** A grid whose leaf layout points past the end of the filtered cloud. *)
Definition stale_grid : VoxelGrid :=
  mkVoxelGrid (0, 0, 0) (0, 0, 0) (fun _ => 3).

(** The character occurs in the string. *)
Fixpoint contains (c : ascii) (s : string) : bool :=
  match s with
  | EmptyString => false
  | String a rest => Ascii.eqb a c || contains c rest
  end.


(** The kind of an output, without its content. *)
Inductive OutputKind : Type :=
| ErrorRow
| ServiceErrorRow
| MergedMesh
| LabeledCloud
| CoverageCloud
| ColoredSubmaps
| Publication.

Definition output_kind (artifact : Artifact) : OutputKind :=
  match artifact with
  | CsvRow _ _ => ErrorRow
  | ServiceRow _ _ => ServiceErrorRow
  | MeshPly _ => MergedMesh
  | LabeledPly _ _ => LabeledCloud
  | CoveragePly _ _ => CoverageCloud
  | ColoredMap _ => ColoredSubmaps
  | Published => Publication
  end.

(** The outputs that a request asks [evaluate] for, in the order in which
    [evaluate] produces them; [saved] tells whether the colouring reached
    [saveToFile]. *)
Definition outputs_of (request : EvaluationRequest) (saved : bool)
  : list OutputKind :=
  (if evaluate_flag request then [ErrorRow] else [])
  ++ (if export_mesh request then [MergedMesh] else [])
  ++ (if export_labeled_pointcloud request then [LabeledCloud] else [])
  ++ (if compute_coloring request && saved then [ColoredSubmaps] else [])
  ++ (if visualize request then [Publication] else []).

(** The blocks of the TSDF layers of the submaps, all together. *)
Definition tsdf_blocks_of (submaps : list Submap) : nat :=
  list_sum (map tsdf_block_count submaps).

(** A world in which everything loads: the ground truth has three points. *)
Definition small_world : World :=
  mkWorld (fun _ => (0, [on_x_axis 0 1; on_x_axis 1 10; on_x_axis 1 1]))
    (fun _ => Some [two_vertex_submap])
    (fun _ => None)
    (fun _ => true)
    (fun _ => None)
    (fun _ _ => (two_cell_grid, [on_x_axis 1 100]))
    (fun submaps => option_map (fun _ => halfspace_planning) submaps).

(** The same world with a disk on which no output file can be opened. *)
Definition readonly_world : World :=
  mkWorld (loadPLYFile small_world) (loadFromFile small_world)
    (LoadLayer small_world) (fun _ => false) (read_label_rows small_world)
    (voxel_grid_filter small_world) (new_PlanningInterface small_world).

(** A request whose map file has no extension, and one whose extension is
    not known. *)
Definition no_extension_request : EvaluationRequest :=
  mkRequest 4 "run/map" "gt.ply" "evaluation_data"
    (Float32.lit 2 10) (Float32.lit 1 10)
    false true false false false true false false false false.

Definition unknown_extension_request : EvaluationRequest :=
  mkRequest 4 "run/map.ply" "gt.ply" "evaluation_data"
    (Float32.lit 2 10) (Float32.lit 1 10)
    false true false false false true false false false false.

(** A request with another [export_coverage_pointcloud]. *)
Definition with_export_coverage_pointcloud (r : EvaluationRequest) (b : bool)
  : EvaluationRequest :=
  mkRequest (verbosity r) (map_file r) (ground_truth_pointcloud_file r)
    (output_suffix r) (maximum_distance r) (inlier_distance r) (visualize r)
    (evaluate_flag r) (compute_coloring r) (ignore_truncated_points r)
    (color_by_max_error r) (color_by_mesh_distance r) (is_single_tsdf r)
    (export_mesh r) (export_labeled_pointcloud r) b.

Definition is_coverage (artifact : Artifact) : bool :=
  match artifact with CoveragePly _ _ => true | _ => false end.


(** ** Setting up the evaluation service *)

Definition with_request (ev : MapEvaluator) (request : EvaluationRequest)
  : MapEvaluator :=
  mkEvaluator (gt_cloud_ptr_ ev) (gt_voxel_grid_ptr_ ev) (filtered_gt_cloud_ptr_ ev)
    (submaps_ ev) (voxblox_ ev) (use_voxblox_ ev) (target_directory_ ev)
    (target_map_name_ ev) (planning_ ev) (kdtree_data_ ev) (output_open_ ev)
    request.

Definition with_output (ev : MapEvaluator) (is_open : bool) : MapEvaluator :=
  mkEvaluator (gt_cloud_ptr_ ev) (gt_voxel_grid_ptr_ ev) (filtered_gt_cloud_ptr_ ev)
    (submaps_ ev) (voxblox_ ev) (use_voxblox_ ev) (target_directory_ ev)
    (target_map_name_ ev) (planning_ ev) (kdtree_data_ ev) is_open
    (request_ ev).

(** Lines 628-637: the index is rebuilt over the points of the ground
    truth, in their order. *)
Definition buildKdTree (ev : MapEvaluator) : outcome MapEvaluator :=
  match gt_cloud_ptr_ ev with
  | None => Trap NullPointer
  | Some cloud =>
      Done (with_kdtree ev (map (fun p => mkPoint (px p) (py p) (pz p)) cloud))
  end.

(** Lines 70-116: [setupMultiMapEvaluation] from the point where the
    parameter server holds the request.  The result tells whether the
    service is advertised. *)
Definition setupMultiMapEvaluation (w : World) (ev : MapEvaluator)
    (request : EvaluationRequest) : outcome (bool * MapEvaluator) :=
  let ev1 := with_request ev request in
  if negb (isValid (request_ ev1)) then Done (false, ev1)
  else
    let ev2 := with_map ev1 (submaps_ ev1) (voxblox_ ev1) false (planning_ ev1) in
    let (code, cloud) :=
      loadPLYFile w (ground_truth_pointcloud_file (request_ ev2)) in
    let ev3 := with_ground_truth ev2 (Some cloud) in
    if negb (code =? 0) then Done (false, ev3)
    else
      run ev4 <- buildKdTree ev3;
      let out_file_name :=
        (map_file (request_ ev4) ++ "/" ++ output_suffix (request_ ev4)
         ++ ".csv")%string in
      let ev5 := with_output ev4 (open_output_file w out_file_name) in
      if negb (output_open_ ev5) then Done (false, ev5)
      else Done (true, with_target ev5 (map_file (request_ ev5))
                         (target_map_name_ ev5)).

(** The calls that the advertised service receives, one after the other,
    each on the evaluator that the call before has left. *)
Fixpoint serve (w : World) (ros_ok : nat -> bool) (ev : MapEvaluator)
    (paths : list string) : outcome MapEvaluator :=
  match paths with
  | [] => Done ev
  | file_path :: rest =>
      run answer <- evaluateMapCallback w ev file_path ros_ok;
      serve w ros_ok (snd (fst answer)) rest
  end.

(** The state in which the service works: the ground truth is held, the
    map is a panoptic map, and a voxel grid is held together with its
    filtered cloud. *)
Definition service_ready (ev : MapEvaluator) : bool :=
  match gt_cloud_ptr_ ev with Some _ => true | None => false end
  && negb (use_voxblox_ ev)
  && match gt_voxel_grid_ptr_ ev, filtered_gt_cloud_ptr_ ev with
     | Some _, None => false
     | _, _ => true
     end.

(** The faults of a value that is out of range, as opposed to those of a
    missing object. *)
Definition value_fault (f : fault) : bool :=
  match f with
  | ModuloByZero | OutOfRange => true
  | NullPointer | FatalLog => false
  end.

(** A neighbour that the error of a voxel does not count: it lies further
    than one voxel size from the centre, or the interpolation at it
    fails. *)
Definition uncounted (interpolator : TsdfLayer) (tree : list Point)
    (voxel_size_sqr : float) (res : nat * float) : bool :=
  Float32.ltb voxel_size_sqr (snd res)
  || match interpolator
             (nth (fst res) tree (mkPoint Float32.zero Float32.zero Float32.zero))
             true with
     | Some _ => false
     | None => true
     end.

(** The smallest squared distance among the results, from the initial
    [min_dist_sqr = 1000.f]. *)
Definition nearest_sqr (results : list (nat * float)) : float :=
  fold_left (fun m res => Float32.std_min m (snd res)) results
    (Float32.of_Z 1000).

(** A layer in which no interpolation succeeds. *)
Definition unobserved_layer : TsdfLayer := fun _ _ => None.

(** A request that colours by the maximum error, and two neighbours at
    0.2 m and 0.3 m of the centre of a voxel of 0.1 m. *)
Definition max_error_request : EvaluationRequest :=
  mkRequest 4 "run/map.panmap" "gt.ply" "evaluation_data"
    (Float32.lit 2 10) (Float32.lit 1 10)
    false false true false true false false false false false.

Definition far_results : list (nat * float) :=
  [(0%nat, Float32.lit 4 100); (1%nat, Float32.lit 9 100)].

(** Lines 459-470: the submaps that the colouring keeps. *)
Definition kept_submaps (request : EvaluationRequest)
    (collection : SubmapCollection) : SubmapCollection :=
  if negb (is_single_tsdf request)
  then filter (fun submap => negb (inactive submap)) collection
  else collection.

(** Whether a name was given, that is, whether the map was stored. *)
Definition was_saved (file : option string) : bool :=
  match file with Some _ => true | None => false end.

(** A world like [bare_world] whose label map files hold the row
    [(7, -2)]. *)
Definition negative_class_world : World :=
  mkWorld (loadPLYFile bare_world) (loadFromFile bare_world)
    (LoadLayer bare_world) (open_output_file bare_world)
    (fun _ => Some [(7, -2)])
    (voxel_grid_filter bare_world) (new_PlanningInterface bare_world).

(** A grid whose bounding box reaches to the cell [(-3, -4, 0)]; only the
    cell [(0, 0, 0)] holds a point. *)
Definition negative_grid : VoxelGrid :=
  mkVoxelGrid (-3, -4, 0) (0, 0, 0)
    (fun cell => match cell with (0, 0, 0) => 0 | _ => -1 end).

Definition far_cell : Z * Z * Z := (-3, -4, 0).

(** A planning interface of a map that has observed every point. *)
Definition everywhere_planning : PlanningInterface :=
  mkPlanning (fun _ _ _ => Some Float32.zero) (fun _ => true).

(** A hundred ground-truth points at the distance 0.3 of the surface. *)
Definition far_cloud : list PointXYZ := repeat (on_x_axis 3 10) 100.

(** A world in which this ground truth and a map load. *)
Definition far_world : World :=
  mkWorld (fun _ => (0, far_cloud))
    (fun _ => Some [two_vertex_submap])
    (fun _ => None)
    (fun _ => true)
    (fun _ => None)
    (voxel_grid_filter bare_world)
    (fun submaps => option_map (fun _ => halfspace_planning) submaps).

(** A request with the inlier distance 0.5 above the maximum distance
    0.2. *)
Definition wide_inlier_request : EvaluationRequest :=
  mkRequest 4 "run/map.panmap" "gt.ply" "evaluation_data"
    (Float32.lit 2 10) (Float32.lit 1 2)
    false true false false false true false false false false.

(* ================================================================== *)
(** * Part II: properties                                              *)
(* ================================================================== *)

(** ** Outcomes *)

Lemma obind_done {A B : Type} (m : outcome A) (k : A -> outcome B) (b : B) :
  obind m k = Done b -> exists a, m = Done a /\ k a = Done b.
Proof.
  destruct m as [a|f]; simpl; intros E; [eauto | discriminate].
Qed.

Lemma outcome_rel_bind {A B : Type} (R : A -> A -> Prop) (S : B -> B -> Prop)
    (x y : outcome A) (k l : A -> outcome B) :
  outcome_rel R x y ->
  (forall a b, R a b -> outcome_rel S (k a) (l b)) ->
  outcome_rel S (obind x k) (obind y l).
Proof.
  destruct x, y; simpl; intros HR Hk; try contradiction; auto.
Qed.

(** ** Unsigned counters *)

Lemma u64_incr_small (n : Z) :
  0 <= n < u64_modulus - 1 -> u64_incr n = n + 1.
Proof.
  intros Hn. unfold u64_incr. apply Z.mod_small. lia.
Qed.

Lemma u64_modulus_value : u64_modulus = 18446744073709551616.
Proof. reflexivity. Qed.

(** ** The reconstruction error pass *)

Lemma lookup_distance_ready (ev : MapEvaluator) (request : EvaluationRequest)
    (p : PointXYZ) :
  lookup_ready ev = true ->
  lookup_distance ev request (mkPoint (px p) (py p) (pz p))
  = Done (reading_of ev request p).
Proof.
  unfold lookup_ready, lookup_distance, reading_of.
  destruct (use_voxblox_ ev).
  - destruct (voxblox_ ev); [reflexivity | discriminate].
  - destruct (planning_ ev); [|discriminate].
    destruct (is_single_tsdf request); reflexivity.
Qed.

Lemma recon_body_ready (ev : MapEvaluator) (request : EvaluationRequest)
    (interval : Z) (st : ReconState) (p : PointXYZ) :
  lookup_ready ev = true -> interval <> 0 ->
  recon_body ev request interval st p = Done (recon_step ev request st p).
Proof.
  intros Hready Hint. unfold recon_body.
  rewrite lookup_distance_ready by assumption. simpl.
  unfold progress_guard.
  destruct (interval =? 0) eqn:E; [apply Z.eqb_eq in E; contradiction|].
  reflexivity.
Qed.

Lemma recon_loop_ready (ev : MapEvaluator) (request : EvaluationRequest)
    (interval : Z) (cloud : list PointXYZ) :
  lookup_ready ev = true -> interval <> 0 ->
  forall st,
    recon_loop ev request interval cloud st
    = Done (fold_left (recon_step ev request) cloud st).
Proof.
  intros Hready Hint. induction cloud as [|p rest IH]; intros st; simpl.
  - reflexivity.
  - rewrite recon_body_ready by assumption. simpl. apply IH.
Qed.

Lemma interval_nonzero (n : nat) :
  Z.of_nat n / 100 <> 0 <-> (100 <= n)%nat.
Proof.
  split.
  - intros Hq. destruct (Nat.lt_ge_cases n 100) as [Hlt|Hge]; [|exact Hge].
    exfalso. apply Hq. apply Z.div_small. lia.
  - intros Hge Hq.
    assert (H1 : 1 <= Z.of_nat n / 100).
    { apply Z.div_le_lower_bound; lia. }
    lia.
Qed.

Lemma recon_pass_ready (ev : MapEvaluator) (request : EvaluationRequest)
    (cloud : list PointXYZ) :
  gt_cloud_ptr_ ev = Some cloud ->
  lookup_ready ev = true ->
  (100 <= length cloud)%nat ->
  recon_pass ev request = Done (fold_left (recon_step ev request) cloud recon_init).
Proof.
  intros Hgt Hready Hlen. unfold recon_pass. rewrite Hgt.
  apply recon_loop_ready; [assumption|].
  apply interval_nonzero. exact Hlen.
Qed.

(** The three tests that the classification of an observed point makes. *)
Ltac classify_cases request_0 request d :=
  destruct (Float32.ltb (maximum_distance request) (Float32.abs d));
  destruct (ignore_truncated_points request);
  destruct (Float32.leb (Float32.abs d) (inlier_distance request_0)).

(** The classification of one lookup result, field by field. *)
Lemma classify_abserror (request_0 request : EvaluationRequest)
    (reading : option float) (st : ReconState) :
  abserror (classify request_0 request reading st)
  = abserror st ++ samples_of request reading.
Proof.
  unfold classify, samples_of. destruct reading as [d|]; simpl.
  - classify_cases request_0 request d; simpl; rewrite ?app_nil_r; reflexivity.
  - rewrite app_nil_r. reflexivity.
Qed.

Lemma classify_truncated_points (request_0 request : EvaluationRequest)
    (reading : option float) (st : ReconState) :
  truncated_points (classify request_0 request reading st)
  = if is_truncated request reading
    then u64_incr (truncated_points st) else truncated_points st.
Proof.
  unfold classify, is_truncated. destruct reading as [d|]; simpl.
  - classify_cases request_0 request d; reflexivity.
  - reflexivity.
Qed.

Lemma classify_inliers (request_0 request : EvaluationRequest)
    (reading : option float) (st : ReconState) :
  inliers (classify request_0 request reading st)
  = match reading with
    | Some d =>
        if Float32.leb (Float32.abs d) (inlier_distance request_0)
        then u64_incr (inliers st) else inliers st
    | None => inliers st
    end.
Proof.
  unfold classify. destruct reading as [d|]; simpl.
  - classify_cases request_0 request d; reflexivity.
  - reflexivity.
Qed.

Lemma classify_counters (request_0 request : EvaluationRequest)
    (reading : option float) (st : ReconState) :
  total_points (classify request_0 request reading st) = total_points st
  /\ count (classify request_0 request reading st) = count st
  /\ unknown_points (classify request_0 request reading st)
     = match reading with
       | Some _ => unknown_points st
       | None => u64_incr (unknown_points st)
       end.
Proof.
  unfold classify. destruct reading as [d|]; simpl.
  - classify_cases request_0 request d; simpl; auto.
  - auto.
Qed.

(** The samples of a whole pass, in the order of the cloud. *)
Lemma recon_fold_abserror (ev : MapEvaluator) (request : EvaluationRequest)
    (cloud : list PointXYZ) :
  forall st,
    abserror (fold_left (recon_step ev request) cloud st)
    = abserror st
      ++ flat_map (fun p => samples_of request (reading_of ev request p)) cloud.
Proof.
  induction cloud as [|p rest IH]; intros st; simpl.
  - rewrite app_nil_r. reflexivity.
  - rewrite IH. unfold recon_step at 1. simpl.
    rewrite classify_abserror. simpl. rewrite <- app_assoc. reflexivity.
Qed.

Lemma recon_step_consistent (ev : MapEvaluator) (request : EvaluationRequest)
    (st : ReconState) (p : PointXYZ) :
  counters_consistent st ->
  0 <= total_points st < u64_modulus - 1 ->
  counters_consistent (recon_step ev request st p)
  /\ total_points (recon_step ev request st p) = total_points st + 1.
Proof.
  intros (Hu & Hi & Ht & Hiu & Htu & Hc) Hbound.
  unfold counters_consistent, recon_step. simpl.
  rewrite classify_truncated_points, classify_inliers.
  match goal with
  | |- context [classify ?r0 ?r ?rd ?a] =>
      destruct (classify_counters r0 r rd a) as (-> & -> & ->)
  end.
  simpl. rewrite Hc.
  rewrite (u64_incr_small (total_points st)) by lia.
  unfold is_truncated.
  destruct (reading_of ev request p) as [d|].
  - destruct (Float32.ltb (maximum_distance request) (Float32.abs d));
      destruct (Float32.leb (Float32.abs d) (inlier_distance (request_ ev)));
      rewrite ?u64_incr_small by lia; lia.
  - rewrite ?u64_incr_small by lia. lia.
Qed.

(** On a cloud that a [uint64_t] can count, the pass counts every point
    and the inliers are among the observed points. *)
Lemma recon_fold_consistent (ev : MapEvaluator) (request : EvaluationRequest)
    (cloud : list PointXYZ) :
  forall st,
    counters_consistent st ->
    0 <= total_points st ->
    total_points st + Z.of_nat (length cloud) < u64_modulus ->
    counters_consistent (fold_left (recon_step ev request) cloud st)
    /\ total_points (fold_left (recon_step ev request) cloud st)
       = total_points st + Z.of_nat (length cloud).
Proof.
  induction cloud as [|p rest IH]; intros st Hst Hpos Hlen; simpl fold_left.
  - simpl. split; [exact Hst | lia].
  - simpl length in Hlen. rewrite Nat2Z.inj_succ in Hlen.
    destruct (recon_step_consistent ev request st p Hst ltac:(lia)) as [Hst' Htot].
    destruct (IH _ Hst' ltac:(lia) ltac:(lia)) as [Hfin Hfin_total].
    split; [exact Hfin|]. rewrite Hfin_total, Htot.
    simpl length. lia.
Qed.

Lemma recon_pass_inliers_bounded (ev : MapEvaluator) (request : EvaluationRequest)
    (cloud : list PointXYZ) :
  gt_cloud_ptr_ ev = Some cloud ->
  lookup_ready ev = true ->
  (100 <= length cloud)%nat ->
  Z.of_nat (length cloud) < u64_modulus ->
  exists st,
    recon_pass ev request = Done st
    /\ total_points st = Z.of_nat (length cloud)
    /\ inliers st <= total_points st - unknown_points st
    /\ truncated_points st <= total_points st - unknown_points st.
Proof.
  intros Hgt Hready Hlen Hsize.
  rewrite (recon_pass_ready ev request cloud Hgt Hready Hlen).
  eexists. split; [reflexivity|].
  destruct (recon_fold_consistent ev request cloud recon_init) as [Hc Ht].
  - unfold counters_consistent. simpl. lia.
  - simpl. lia.
  - simpl. lia.
  - destruct Hc as (Hu & Hi & Htr & Hiu & Htu & Hcount).
    simpl in Ht. lia.
Qed.

(** C1.  In the reconstruction error pass, an observed ground-truth point
    whose raw absolute distance exceeds [maximum_distance] increments
    [truncated_points]; what it adds to the error samples is exactly
    [maximum_distance] when [ignore_truncated_points] is false, never the
    raw distance, and nothing when [ignore_truncated_points] is true.  The
    first part is the loop body on any state from which the iteration
    completes, the second is the classification alone. *)
Theorem C1_truncation_policy
    (ev : MapEvaluator) (request : EvaluationRequest) (interval : Z)
    (st : ReconState) (p : PointXYZ) (d : float) :
  lookup_ready ev = true ->
  interval <> 0 ->
  reading_of ev request p = Some d ->
  Float32.ltb (maximum_distance request) (Float32.abs d) = true ->
  (exists st',
      recon_body ev request interval st p = Done st'
      /\ truncated_points st' = u64_incr (truncated_points st)
      /\ abserror st'
         = abserror st
           ++ (if ignore_truncated_points request then []
               else [maximum_distance request]))
  /\ (forall request_0 st0,
        truncated_points (classify request_0 request (Some d) st0)
        = u64_incr (truncated_points st0)
        /\ (ignore_truncated_points request = false ->
            abserror (classify request_0 request (Some d) st0)
            = abserror st0 ++ [maximum_distance request])
        /\ (ignore_truncated_points request = true ->
            abserror (classify request_0 request (Some d) st0) = abserror st0)).
Proof.
  intros Hready Hint Hread Htrunc. split.
  - exists (recon_step ev request st p). split.
    + apply recon_body_ready; assumption.
    + unfold recon_step. simpl. rewrite Hread.
      rewrite classify_truncated_points, classify_abserror. simpl.
      rewrite Htrunc. split; reflexivity.
  - intros request_0 st0.
    rewrite classify_truncated_points, classify_abserror. simpl.
    rewrite Htrunc. repeat split.
    + intros ->. reflexivity.
    + intros ->. apply app_nil_r.
Qed.

Lemma C1_truncation_policy_witness :
  let ev := axis_evaluator default_request in
  let p := on_x_axis 30 100 in
  exists st',
    recon_body ev default_request 1 recon_init p = Done st'
    /\ truncated_points st' = 1
    /\ abserror st' = [Float32.lit 2 10].
Proof.
  destruct (C1_truncation_policy (axis_evaluator default_request)
              default_request 1 recon_init (on_x_axis 30 100)
              (Float32.lit 30 100))
    as [[st' [Hbody [Htr Habs]]] _];
    [reflexivity | lia | reflexivity | reflexivity |].
  exists st'. split; [exact Hbody|]. split; [exact Htr | exact Habs].
Defined.

Lemma classify_ignore_related (request_0 request : EvaluationRequest)
    (reading : option float) (st_t st_f : ReconState) :
  ignore_related st_t st_f ->
  ignore_related
    (classify request_0 (with_ignore_truncated_points request true) reading st_t)
    (classify request_0 (with_ignore_truncated_points request false) reading st_f).
Proof.
  intros (Ht & Hu & Htr & Hi & Hc & Hlen). unfold ignore_related.
  rewrite !classify_truncated_points, !classify_inliers, !classify_abserror.
  destruct (classify_counters request_0 (with_ignore_truncated_points request true)
              reading st_t) as (-> & -> & ->).
  destruct (classify_counters request_0 (with_ignore_truncated_points request false)
              reading st_f) as (-> & -> & ->).
  rewrite Ht, Hu, Htr, Hi, Hc.
  repeat split; try reflexivity.
  rewrite !length_app. unfold samples_of. simpl.
  destruct reading as [d|]; simpl; [|lia].
  destruct (Float32.ltb (maximum_distance request) (Float32.abs d)); simpl; lia.
Qed.

Lemma recon_loop_ignore_related (ev : MapEvaluator) (request : EvaluationRequest)
    (interval : Z) (cloud : list PointXYZ) :
  forall st_t st_f,
    ignore_related st_t st_f ->
    outcome_rel ignore_related
      (recon_loop ev (with_ignore_truncated_points request true) interval cloud st_t)
      (recon_loop ev (with_ignore_truncated_points request false) interval cloud st_f).
Proof.
  induction cloud as [|p rest IH]; intros st_t st_f Hrel; simpl.
  - exact Hrel.
  - apply outcome_rel_bind with (R := ignore_related); [|intros a b; apply IH].
    unfold recon_body.
    change (lookup_distance ev (with_ignore_truncated_points request true)
              (mkPoint (px p) (py p) (pz p)))
      with (lookup_distance ev (with_ignore_truncated_points request false)
              (mkPoint (px p) (py p) (pz p))).
    destruct (lookup_distance ev (with_ignore_truncated_points request false)
                (mkPoint (px p) (py p) (pz p))) as [reading|f]; simpl;
      [|reflexivity].
    unfold progress_guard. destruct (interval =? 0); simpl; [reflexivity|].
    match goal with
    | |- ignore_related
           (mkRecon _ _ _ _ _ (u64_incr (count (classify ?r0 ?rt ?rd ?a))))
           (mkRecon _ _ _ _ _ (u64_incr (count (classify ?r0 ?rf ?rd ?b)))) =>
        assert (Hc : ignore_related (classify r0 rt rd a) (classify r0 rf rd b))
    end.
    { apply classify_ignore_related.
      destruct Hrel as (Ht & Hu & Htr & Hi & Hc & Hlen).
      unfold ignore_related; simpl. rewrite Ht. repeat split; assumption. }
    destruct Hc as (Ht & Hu & Htr & Hi & Hc & Hlen).
    unfold ignore_related; simpl. rewrite Hc. repeat split; assumption.
Qed.

(** C2.  For the same ground-truth cloud and map, the run with
    [ignore_truncated_points = true] ends with at most as many error
    samples as the run with [ignore_truncated_points = false], and with the
    same [truncated_points]; the two runs stop together when one stops, and
    on a cloud of at least a hundred points with the lookup pointer set
    both return. *)
Theorem C2_ignore_truncated_sample_size
    (ev : MapEvaluator) (request : EvaluationRequest) :
  outcome_rel
    (fun st_t st_f =>
       (length (abserror st_t) <= length (abserror st_f))%nat
       /\ truncated_points st_t = truncated_points st_f)
    (recon_pass ev (with_ignore_truncated_points request true))
    (recon_pass ev (with_ignore_truncated_points request false))
  /\ (forall cloud,
        gt_cloud_ptr_ ev = Some cloud ->
        lookup_ready ev = true ->
        (100 <= length cloud)%nat ->
        exists st_t st_f,
          recon_pass ev (with_ignore_truncated_points request true) = Done st_t
          /\ recon_pass ev (with_ignore_truncated_points request false) = Done st_f
          /\ (length (abserror st_t) <= length (abserror st_f))%nat
          /\ truncated_points st_t = truncated_points st_f).
Proof.
  assert (Hrel : outcome_rel ignore_related
            (recon_pass ev (with_ignore_truncated_points request true))
            (recon_pass ev (with_ignore_truncated_points request false))).
  { unfold recon_pass. destruct (gt_cloud_ptr_ ev) as [cloud|]; [|reflexivity].
    apply recon_loop_ignore_related.
    unfold ignore_related; simpl; repeat split; lia. }
  split.
  - destruct (recon_pass ev (with_ignore_truncated_points request true)),
      (recon_pass ev (with_ignore_truncated_points request false));
      simpl in *; try assumption.
    destruct Hrel as (_ & _ & Htr & _ & _ & Hlen). auto.
  - intros cloud Hgt Hready Hlen.
    rewrite (recon_pass_ready ev _ cloud Hgt Hready Hlen) in Hrel |- *.
    rewrite (recon_pass_ready ev _ cloud Hgt Hready Hlen) in Hrel |- *.
    simpl in Hrel. destruct Hrel as (_ & _ & Htr & _ & _ & Hle).
    eexists. eexists. repeat split; [exact Hle | exact Htr].
Qed.

Lemma C2_ignore_truncated_sample_size_witness :
  exists st_t st_f,
    recon_pass (axis_evaluator default_request)
      (with_ignore_truncated_points default_request true) = Done st_t
    /\ recon_pass (axis_evaluator default_request)
         (with_ignore_truncated_points default_request false) = Done st_f
    /\ (length (abserror st_t) <= length (abserror st_f))%nat
    /\ truncated_points st_t = truncated_points st_f.
Proof.
  apply (proj2 (C2_ignore_truncated_sample_size
                  (axis_evaluator default_request) default_request) axis_cloud).
  - reflexivity.
  - reflexivity.
  - vm_compute. lia.
Defined.

(** C4 on the code.  A valid request with the inlier distance 0.5 above
    the maximum distance 0.2 is evaluated over a ground truth of a hundred
    points, each observed at the raw distance 0.3: every point is truncated
    and within the inlier distance of the request, so the claim counts a
    hundred inliers.  [evaluate] reports none, because the test of line 277
    reads the inlier distance of the member [request_], which [evaluate]
    never sets and which holds the default 0.1.  The same pass with the
    request stored in the member, as the service has it, counts all
    hundred. *)
Theorem C4_inlier_on_raw_distance :
  isValid wide_inlier_request = true
  /\ Float32.ltb (maximum_distance wide_inlier_request)
       (inlier_distance wide_inlier_request) = true
  /\ Forall
       (fun p =>
          getDistance halfspace_planning (mkPoint (px p) (py p) (pz p)) true false
          = Some (Float32.lit 3 10))
       far_cloud
  /\ Float32.leb (Float32.abs (Float32.lit 3 10))
       (inlier_distance wide_inlier_request) = true
  /\ (exists (ev' : MapEvaluator) (file : string) (row : ReconSummary),
        evaluate far_world fresh_evaluator wide_inlier_request (fun _ => true)
        = Done (true, ev', [CsvRow file row])
        /\ inlier_distance (request_ ev') = Float32.lit 1 10
        /\ sum_total_points row = 100
        /\ sum_unknown_points row = 0
        /\ sum_truncated_points row = 100
        /\ sum_inliers row = 0)
  /\ (exists row : ReconSummary,
        computeReconstructionError
          (with_cloud (axis_evaluator wide_inlier_request) far_cloud)
          wide_inlier_request
        = Done row
        /\ sum_truncated_points row = 100
        /\ sum_inliers row = 100).
Proof.
  split; [reflexivity|]. split; [reflexivity|].
  split; [apply Forall_forall; intros p Hp;
          apply repeat_spec in Hp; subst p; reflexivity|].
  split; [reflexivity|].
  split.
  - eexists. eexists. eexists. split; [vm_compute; reflexivity|].
    repeat split; reflexivity.
  - eexists. split; [vm_compute; reflexivity|]. split; reflexivity.
Qed.

(** The passes do not read the [inlier_distance] of their argument. *)
Lemma recon_loop_inlier_argument (ev : MapEvaluator) (request : EvaluationRequest)
    (d : float) (interval : Z) (cloud : list PointXYZ) :
  forall st,
    recon_loop ev (with_inlier_distance request d) interval cloud st
    = recon_loop ev request interval cloud st.
Proof.
  induction cloud as [|p rest IH]; intros st; simpl; [reflexivity|].
  change (recon_body ev (with_inlier_distance request d) interval st p)
    with (recon_body ev request interval st p).
  destruct (recon_body ev request interval st p); simpl; [apply IH | reflexivity].
Qed.

Lemma mesh_submaps_loop_inlier_argument (tree : list Point)
    (request_0 request : EvaluationRequest) (d : float) (ros_ok : nat -> bool)
    (submaps : list Submap) :
  forall calls st,
    mesh_submaps_loop tree request_0 (with_inlier_distance request d) ros_ok
      submaps calls st
    = mesh_submaps_loop tree request_0 request ros_ok submaps calls st.
Proof.
  induction submaps as [|submap rest IH]; intros calls st; simpl; [reflexivity|].
  change (skipped (with_inlier_distance request d) submap)
    with (skipped request submap).
  destruct (skipped request submap); [apply IH|].
  destruct (mesh_blocks_loop tree request_0 ros_ok (mesh_blocks submap) calls st)
    as [[calls' st']|]; [apply IH | reflexivity].
Qed.

(** C9.  The inlier counts of both error passes do not depend on the
    [inlier_distance] of the request argument: two calls whose arguments
    differ only in that field return the same summary, inlier and outlier
    counts included, because the inlier test reads the member [request_];
    changing the [inlier_distance] of the member does change the count. *)
Theorem C9_inlier_distance_argument_unused :
  (forall (ev : MapEvaluator) (request : EvaluationRequest) (d : float)
      (ros_ok : nat -> bool),
      computeReconstructionError ev (with_inlier_distance request d)
      = computeReconstructionError ev request
      /\ computeMeshError ev (with_inlier_distance request d) ros_ok
         = computeMeshError ev request ros_ok)
  /\ (exists (request_0 : EvaluationRequest) (d : float) (a b : ReconSummary),
        computeReconstructionError (axis_evaluator request_0) request_0 = Done a
        /\ computeReconstructionError
             (axis_evaluator (with_inlier_distance request_0 d)) request_0 = Done b
        /\ sum_inliers a <> sum_inliers b).
Proof.
  split.
  - intros ev request d ros_ok. split.
    + unfold computeReconstructionError, recon_pass.
      destruct (gt_cloud_ptr_ ev) as [cloud|]; [|reflexivity].
      rewrite recon_loop_inlier_argument. reflexivity.
    + unfold computeMeshError, mesh_pass.
      destruct (submaps_ ev) as [collection|]; [|reflexivity].
      rewrite mesh_submaps_loop_inlier_argument. reflexivity.
  - exists default_request, (Float32.lit 1 2).
    eexists. eexists. split; [vm_compute; reflexivity|].
    split; [vm_compute; reflexivity|].
    simpl. discriminate.
Qed.

(** C10.  The progress guard of [computeReconstructionError] takes [count]
    modulo [interval], where [interval] is the number of ground-truth points
    divided by a hundred; the divisor is nonzero exactly for a hundred
    points or more, and for a non-empty cloud of fewer points the first
    iteration reaches the modulo by zero. *)
Theorem C10_progress_interval
    (ev : MapEvaluator) (request : EvaluationRequest)
    (p : PointXYZ) (rest : list PointXYZ) :
  gt_cloud_ptr_ ev = Some (p :: rest) ->
  lookup_ready ev = true ->
  (Z.of_nat (length (p :: rest)) / 100 <> 0 <-> (100 <= length (p :: rest))%nat)
  /\ ((length (p :: rest) < 100)%nat ->
      recon_body ev request (Z.of_nat (length (p :: rest)) / 100) recon_init p
      = Trap ModuloByZero
      /\ recon_pass ev request = Trap ModuloByZero
      /\ computeReconstructionError ev request = Trap ModuloByZero).
Proof.
  intros Hgt Hready. split; [apply interval_nonzero|].
  intros Hlen.
  assert (Hint : Z.of_nat (length (p :: rest)) / 100 = 0).
  { apply Z.div_small. lia. }
  unfold computeReconstructionError, recon_pass. rewrite Hgt. cbv zeta.
  generalize dependent (Z.of_nat (length (p :: rest)) / 100).
  intros interval ->.
  assert (Hbody : recon_body ev request 0 recon_init p = Trap ModuloByZero).
  { unfold recon_body. rewrite lookup_distance_ready by assumption.
    reflexivity. }
  split; [exact Hbody|].
  simpl recon_loop. rewrite Hbody. split; reflexivity.
Qed.

Lemma C10_progress_interval_witness :
  let ev :=
    mkEvaluator (Some [on_x_axis 0 1; on_x_axis 1 1; on_x_axis 1 10])
      None None None None false "" "" (Some halfspace_planning) [] false
      default_request in
  computeReconstructionError ev default_request = Trap ModuloByZero.
Proof.
  refine (proj2 (proj2 (proj2
            (C10_progress_interval
               (mkEvaluator (Some [on_x_axis 0 1; on_x_axis 1 1; on_x_axis 1 10])
                  None None None None false "" "" (Some halfspace_planning) []
                  false default_request)
               default_request (on_x_axis 0 1) [on_x_axis 1 1; on_x_axis 1 10]
               eq_refl eq_refl) _))).
  simpl. lia.
Defined.

(** ** Summary statistics *)

Lemma summary_statistics_empty :
  summary_statistics []
  = mkStatistics Float32.zero Float32.zero Float32.zero.
Proof. reflexivity. Qed.

(** With more than two samples the reported value is the square root of
    the summed squared deviations over [n - 1]. *)
Lemma summary_statistics_stddev_many (values : list float) :
  (2 < length values)%nat ->
  stddev (summary_statistics values)
  = sqrt_via_double
      (Float32.div
         (squared_deviations (mean (summary_statistics values)) values)
         (Float32.of_Z (Z.of_nat (length values) - 1))).
Proof.
  intros Hlen. unfold summary_statistics. cbv zeta. simpl stddev. simpl mean.
  destruct (2 <? Z.of_nat (length values)) eqn:E; [reflexivity|].
  apply Z.ltb_ge in E. lia.
Qed.

(** With at most two samples the summed squared deviations are reported as
    they are. *)
Lemma summary_statistics_stddev_few (values : list float) :
  (length values <= 2)%nat ->
  stddev (summary_statistics values)
  = squared_deviations (mean (summary_statistics values)) values.
Proof.
  intros Hlen. unfold summary_statistics. cbv zeta. simpl stddev. simpl mean.
  destruct (2 <? Z.of_nat (length values)) eqn:E; [|reflexivity].
  apply Z.ltb_lt in E. lia.
Qed.

(** C3.  The mean and the RMSE of an empty sample set are 0, and with more
    than two samples the stddev has the [n - 1] denominator; with exactly
    two samples, however, both passes report the summed squared deviations
    and not 0: for the samples [0] and [0.1] the stddev field is about
    [0.005]. *)
Theorem C3_stddev_of_two_samples :
  summary_statistics [] = mkStatistics Float32.zero Float32.zero Float32.zero
  /\ (exists s,
        computeReconstructionError two_observed_evaluator default_request = Done s
        /\ sum_total_points s - sum_unknown_points s = 2
        /\ stddev (recon_stats s) = S754_finite false 10737419 (-31)
        /\ SFeqb (stddev (recon_stats s)) Float32.zero = false)
  /\ (exists s,
        computeMeshError two_vertex_evaluator default_request (fun _ => true)
        = Done (Some s)
        /\ sum_mesh_inliers s + sum_mesh_outliers s = 2
        /\ stddev (mesh_stats s) = S754_finite false 10737419 (-31)
        /\ SFeqb (stddev (mesh_stats s)) Float32.zero = false).
Proof.
  split; [reflexivity|]. split.
  - eexists. split; [vm_compute; reflexivity|].
    repeat split; reflexivity.
  - eexists. split; [vm_compute; reflexivity|].
    repeat split; reflexivity.
Qed.

(** ** The coverage export *)

Lemma point_eta (p : Point) : mkPoint (px p) (py p) (pz p) = p.
Proof. destruct p; reflexivity. Qed.

Lemma coverage_cell_observed_points (grid : VoxelGrid) (filtered : list PointXYZ)
    (planning : PlanningInterface) (cell : Z * Z * Z) :
  representative grid filtered cell <> None ->
  coverage_cell grid filtered (Some planning) cell
  = Done (observed_points grid filtered planning cell).
Proof.
  unfold representative, coverage_cell, observed_points, representative, cloud_at.
  destruct (getCentroidIndexAt grid cell =? -1).
  - intros _. simpl.
    destruct (isObserved planning _); reflexivity.
  - destruct ((0 <=? getCentroidIndexAt grid cell)
              && (getCentroidIndexAt grid cell <? Z.of_nat (length filtered)));
      [|intros Hno; contradiction Hno; reflexivity].
    destruct (nth_error filtered (Z.to_nat (getCentroidIndexAt grid cell)))
      as [point|]; [|intros Hno; contradiction Hno; reflexivity].
    intros _. simpl. destruct (isObserved planning _); reflexivity.
Qed.

Lemma coverage_loop_observed_points (grid : VoxelGrid) (filtered : list PointXYZ)
    (planning : PlanningInterface) (cells : list (Z * Z * Z)) :
  (forall cell, In cell cells -> representative grid filtered cell <> None) ->
  forall coverage_cloud,
    coverage_loop grid filtered (Some planning) cells coverage_cloud
    = Done (coverage_cloud
            ++ flat_map (observed_points grid filtered planning) cells).
Proof.
  induction cells as [|cell rest IH]; intros Hrep coverage_cloud; simpl.
  - rewrite app_nil_r. reflexivity.
  - rewrite coverage_cell_observed_points by (apply Hrep; left; reflexivity).
    simpl. rewrite IH by (intros c Hc; apply Hrep; right; exact Hc).
    rewrite <- app_assoc. reflexivity.
Qed.

Lemma coverage_cell_empty (grid : VoxelGrid) (filtered : list PointXYZ)
    (planning : PlanningInterface) (cell : Z * Z * Z) :
  getCentroidIndexAt grid cell = -1 ->
  coverage_cell grid filtered (Some planning) cell
  = Done (if isObserved planning (get_voxel_centroid cell kCoverageGridVoxelSize)
          then [get_voxel_centroid cell kCoverageGridVoxelSize] else []).
Proof.
  intros Hempty. unfold coverage_cell. rewrite Hempty. simpl.
  rewrite point_eta. destruct (isObserved planning _); reflexivity.
Qed.

(** C5 on the code.  The cell [(-3, -4, 0)] lies in the bounding box of a
    grid and holds no point.  The claim places its synthetic point at the
    corner offset by half a cell size towards the centre of the cell, which
    is a point inside the cell.  [get_voxel_centroid] offsets the corner
    by half a cell size along the normalized cell index [(-3/5, -4/5, 0)]
    instead: the point lies below the corner in x and in y, outside the
    cell.  That point is what the export appends when the map marks it as
    observed, and nothing otherwise. *)
Theorem C5_empty_cell_point :
  In far_cell
    (grid_cells (getMinBoxCoordinates negative_grid)
       (getMaxBoxCoordinates negative_grid))
  /\ getCentroidIndexAt negative_grid far_cell = -1
  /\ get_voxel_centroid far_cell kCoverageGridVoxelSize
     = mkPoint
         (Float32.add (px (cell_corner far_cell kCoverageGridVoxelSize))
            (Float32.mul (Float32.lit (-3) 5)
               (Float32.div kCoverageGridVoxelSize (Float32.of_Z 2))))
         (Float32.add (py (cell_corner far_cell kCoverageGridVoxelSize))
            (Float32.mul (Float32.lit (-4) 5)
               (Float32.div kCoverageGridVoxelSize (Float32.of_Z 2))))
         Float32.zero
  /\ Float32.ltb (px (get_voxel_centroid far_cell kCoverageGridVoxelSize))
       (px (cell_corner far_cell kCoverageGridVoxelSize)) = true
  /\ Float32.ltb (py (get_voxel_centroid far_cell kCoverageGridVoxelSize))
       (py (cell_corner far_cell kCoverageGridVoxelSize)) = true
  /\ Float32.ltb (px (cell_corner far_cell kCoverageGridVoxelSize))
       (px (corner_to_center_point far_cell kCoverageGridVoxelSize)) = true
  /\ Float32.ltb (px (corner_to_center_point far_cell kCoverageGridVoxelSize))
       (px (cell_corner (-2, -3, 1) kCoverageGridVoxelSize)) = true
  /\ Float32.ltb (py (cell_corner far_cell kCoverageGridVoxelSize))
       (py (corner_to_center_point far_cell kCoverageGridVoxelSize)) = true
  /\ Float32.ltb (py (corner_to_center_point far_cell kCoverageGridVoxelSize))
       (py (cell_corner (-2, -3, 1) kCoverageGridVoxelSize)) = true
  /\ Float32.ltb (pz (cell_corner far_cell kCoverageGridVoxelSize))
       (pz (corner_to_center_point far_cell kCoverageGridVoxelSize)) = true
  /\ Float32.ltb (pz (corner_to_center_point far_cell kCoverageGridVoxelSize))
       (pz (cell_corner (-2, -3, 1) kCoverageGridVoxelSize)) = true
  /\ get_voxel_centroid far_cell kCoverageGridVoxelSize
     <> corner_to_center_point far_cell kCoverageGridVoxelSize
  /\ coverage_cell negative_grid [on_x_axis 1 100] (Some everywhere_planning)
       far_cell
     = Done [get_voxel_centroid far_cell kCoverageGridVoxelSize]
  /\ coverage_cell negative_grid [on_x_axis 1 100] (Some halfspace_planning)
       far_cell
     = Done [].
Proof.
  split; [vm_compute; tauto|].
  split; [reflexivity|].
  split; [vm_compute; reflexivity|].
  do 8 (split; [vm_compute; reflexivity|]).
  split; [vm_compute; discriminate|].
  split.
  - rewrite coverage_cell_empty by reflexivity. reflexivity.
  - rewrite coverage_cell_empty by reflexivity. vm_compute. reflexivity.
Qed.

(** ** The error-to-colour mapper *)

Section ExactGradient.
Local Open Scope Q_scope.

Lemma c_min_exact (a b : Q) :
  (b < a /\ c_min a b = b) \/ (a <= b /\ c_min a b = a).
Proof.
  unfold c_min. simpl. destruct (Qle_bool a b) eqn:E; simpl.
  - right. split; [apply Qle_bool_iff; exact E | reflexivity].
  - left. split; [|reflexivity]. apply Qnot_le_lt. intros Hle.
    apply Qle_bool_iff in Hle. congruence.
Qed.

Lemma color_red_exact (x : Q) :
  (x <= 1 # 2 /\ color_red x == 510 * x)
  \/ ((1 # 2) < x /\ color_red x == 255).
Proof.
  unfold color_red.
  destruct (c_min_exact
              (c_add (c_mul (c_sub x (c_lit 1 2)) (c_of_Z 2)) (c_of_Z 1))
              (c_of_Z 1)) as [[Hlt ->]|[Hle ->]];
    simpl in *; unfold inject_Z in *.
  - right. split; lra.
  - left. split; lra.
Qed.

Lemma color_green_exact (x : Q) :
  (x <= 1 # 2 /\ color_green x == 190 + 130 * x)
  \/ ((1 # 2) < x /\ color_green x == (1 - x) * 2 * 255).
Proof.
  unfold color_green. simpl. destruct (Qle_bool x (1 # 2)) eqn:E.
  - left. apply Qle_bool_iff in E. split; [exact E|]. unfold inject_Z. lra.
  - right. split; [|unfold inject_Z; lra]. apply Qnot_le_lt. intros Hle.
    apply Qle_bool_iff in Hle. congruence.
Qed.

(** A function that changes by at most 510 times the change of its
    argument is continuous. *)
Lemma steep_continuous (f : Q -> Q) :
  (forall x y, 0 <= x <= 1 -> 0 <= y <= 1 ->
     Qabs (f y - f x) <= 510 * Qabs (y - x)) ->
  continuous_on_unit f.
Proof.
  intros Hsteep x Hx eps Heps.
  exists (eps * (1 # 510)). split; [lra|].
  intros y Hy Hd.
  apply Qle_lt_trans with (510 * Qabs (y - x)); [apply Hsteep; assumption|].
  lra.
Qed.

Lemma color_red_steep (x y : Q) :
  0 <= x <= 1 -> 0 <= y <= 1 ->
  Qabs (color_red y - color_red x) <= 510 * Qabs (y - x).
Proof.
  intros Hx Hy.
  assert (H1 := Qle_Qabs (y - x)).
  assert (H2 := Qle_Qabs (- (y - x))). rewrite Qabs_opp in H2.
  apply Qabs_Qle_condition.
  destruct (color_red_exact x) as [[Hx' Ex]|[Hx' Ex]];
    destruct (color_red_exact y) as [[Hy' Ey]|[Hy' Ey]];
    rewrite Ex, Ey; split; lra.
Qed.

Lemma color_green_steep (x y : Q) :
  0 <= x <= 1 -> 0 <= y <= 1 ->
  Qabs (color_green y - color_green x) <= 510 * Qabs (y - x).
Proof.
  intros Hx Hy.
  assert (H1 := Qle_Qabs (y - x)).
  assert (H2 := Qle_Qabs (- (y - x))). rewrite Qabs_opp in H2.
  apply Qabs_Qle_condition.
  destruct (color_green_exact x) as [[Hx' Ex]|[Hx' Ex]];
    destruct (color_green_exact y) as [[Hy' Ey]|[Hy' Ey]];
    rewrite Ex, Ey; split; lra.
Qed.

Lemma color_red_nondecreasing : nondecreasing_between 0 1 color_red.
Proof.
  intros x y Hx Hxy Hy.
  destruct (color_red_exact x) as [[Hx' Ex]|[Hx' Ex]];
    destruct (color_red_exact y) as [[Hy' Ey]|[Hy' Ey]];
    rewrite Ex, Ey; lra.
Qed.

Lemma color_green_rises : nondecreasing_between 0 (1 # 2) color_green.
Proof.
  intros x y Hx Hxy Hy.
  destruct (color_green_exact x) as [[Hx' Ex]|[Hx' Ex]];
    destruct (color_green_exact y) as [[Hy' Ey]|[Hy' Ey]];
    rewrite Ex, Ey; lra.
Qed.

Lemma color_green_falls : nonincreasing_between (1 # 2) 1 color_green.
Proof.
  intros x y Hx Hxy Hy.
  destruct (color_green_exact x) as [[Hx' Ex]|[Hx' Ex]];
    destruct (color_green_exact y) as [[Hy' Ey]|[Hy' Ey]];
    rewrite Ex, Ey; lra.
Qed.

Lemma error_fraction_unit (e m : Q) :
  0 <= e -> 0 < m -> 0 <= error_fraction e m <= 1.
Proof.
  intros He Hm. unfold error_fraction.
  destruct (c_min_exact e m) as [[Hlt ->]|[Hle ->]]; simpl.
  - split; [apply Qle_shift_div_l | apply Qle_shift_div_r]; lra.
  - split; [apply Qle_shift_div_l | apply Qle_shift_div_r]; lra.
Qed.
End ExactGradient.

(** ** Division in binary32 *)

Lemma digits2_pos_size (p : positive) : digits2_pos p = Pos.size p.
Proof. induction p; simpl; congruence. Qed.

Lemma digits2_pos_bounds (p : positive) :
  2 ^ (Z.pos (digits2_pos p) - 1) <= Z.pos p < 2 ^ Z.pos (digits2_pos p).
Proof.
  rewrite digits2_pos_size. split.
  - assert (H := Pos.size_le p).
    assert (H2 : 2 ^ Z.pos (Pos.size p) <= 2 * Z.pos p).
    { rewrite <- Pos2Z.inj_pow. change (2 * Z.pos p) with (Z.pos p~0). exact H. }
    replace (Z.pos (Pos.size p)) with ((Z.pos (Pos.size p) - 1) + 1) in H2 by lia.
    rewrite Z.pow_add_r in H2 by lia. lia.
  - rewrite <- Pos2Z.inj_pow. apply Pos2Z.pos_lt_pos. apply Pos.size_gt.
Qed.

Lemma Zdigits2_le (q k : Z) : 0 <= k -> 0 <= q <= 2 ^ k -> Zdigits2 q <= k + 1.
Proof.
  intros Hk [Hq0 Hq]. destruct q as [|p|p]; simpl; [lia| |lia].
  destruct (digits2_pos_bounds p) as [Hlo _].
  destruct (Z_le_gt_dec (Z.pos (digits2_pos p)) (k + 1)) as [H|H]; [exact H|].
  exfalso.
  assert (2 ^ (k + 1) <= 2 ^ (Z.pos (digits2_pos p) - 1)) by (apply Z.pow_le_mono_r; lia).
  rewrite Z.pow_add_r in H0 by lia. 
  assert (0 < 2 ^ k) by (apply Z.pow_pos_nonneg; lia). lia.
Qed.

Lemma iter_pos_nat {A : Type} (f : A -> A) (p : positive) (x : A) :
  iter_pos f p x = Nat.iter (Pos.to_nat p) f x.
Proof.
  revert x. induction p as [p IH|p IH|]; intros x; cbn [iter_pos].
  - rewrite !IH, Pos2Nat.inj_xI, Nat.iter_succ_r.
    replace (2 * Pos.to_nat p)%nat with (Pos.to_nat p + Pos.to_nat p)%nat by lia.
    rewrite Nat.iter_add. reflexivity.
  - rewrite !IH, Pos2Nat.inj_xO.
    replace (2 * Pos.to_nat p)%nat with (Pos.to_nat p + Pos.to_nat p)%nat by lia.
    rewrite Nat.iter_add. reflexivity.
  - reflexivity.
Qed.

Lemma shr_1_m (mrs : shr_record) :
  0 <= shr_m mrs -> shr_m (shr_1 mrs) = shr_m mrs / 2.
Proof.
  destruct mrs as [m r s]. simpl. intros Hm.
  destruct m as [|[p|p|]|p]; simpl; try lia; try reflexivity.
  - rewrite Pos2Z.inj_xI. apply Z.div_unique with 1; lia.
  - rewrite Pos2Z.inj_xO. apply Z.div_unique with 0; lia.
Qed.

Lemma shr_1_exact (mrs : shr_record) :
  0 <= shr_m mrs -> shr_r mrs = false -> shr_s mrs = false ->
  (2 | shr_m mrs) ->
  shr_r (shr_1 mrs) = false /\ shr_s (shr_1 mrs) = false.
Proof.
  destruct mrs as [m r s]. simpl. intros Hm -> -> [k Hk].
  destruct m as [|[p|p|]|p]; simpl; try lia; auto.
Qed.

Lemma shr_iter_m (n : nat) (mrs : shr_record) :
  0 <= shr_m mrs ->
  shr_m (Nat.iter n shr_1 mrs) = shr_m mrs / 2 ^ Z.of_nat n.
Proof.
  intros Hm. induction n as [|n IH].
  - simpl. rewrite Z.div_1_r. reflexivity.
  - rewrite Nat.iter_succ. rewrite shr_1_m.
    + rewrite IH. rewrite Nat2Z.inj_succ, Z.pow_succ_r by lia.
      rewrite Z.div_div by lia. f_equal. lia.
    + rewrite IH. apply Z.div_pos; [exact Hm|]. apply Z.pow_pos_nonneg; lia.
Qed.

Lemma shr_iter_exact (n : nat) (mrs : shr_record) :
  0 <= shr_m mrs -> shr_r mrs = false -> shr_s mrs = false ->
  (2 ^ Z.of_nat n | shr_m mrs) ->
  shr_r (Nat.iter n shr_1 mrs) = false /\ shr_s (Nat.iter n shr_1 mrs) = false.
Proof.
  intros Hm Hr Hs. induction n as [|n IH]; intros Hdiv.
  - simpl. auto.
  - rewrite Nat.iter_succ.
    assert (Hpow : 2 ^ Z.of_nat (S n) = 2 * 2 ^ Z.of_nat n).
    { rewrite Nat2Z.inj_succ, Z.pow_succ_r by lia. reflexivity. }
    assert (Hpos : 0 < 2 ^ Z.of_nat n) by (apply Z.pow_pos_nonneg; lia).
    destruct Hdiv as [k Hk]. rewrite Hpow in Hk.
    destruct IH as [IHr IHs].
    { exists (k * 2). lia. }
    apply shr_1_exact; try assumption.
    + rewrite shr_iter_m by exact Hm. apply Z.div_pos; lia.
    + rewrite shr_iter_m by exact Hm. exists k.
      rewrite Hk. replace (k * (2 * 2 ^ Z.of_nat n)) with (k * 2 * 2 ^ Z.of_nat n) by lia.
      rewrite Z.div_mul by lia. reflexivity.
Qed.

Lemma loc_of_shr_record_of_loc (m : Z) (l : location) :
  loc_of_shr_record (shr_record_of_loc m l) = l.
Proof. destruct l as [|[]]; reflexivity. Qed.

Lemma fexp32_eq (k : Z) : fexp 24 128 k = fexp32 k.
Proof. reflexivity. Qed.

(** What [shr_fexp] does to a non-negative mantissa. *)
Lemma shr_fexp_spec (q e : Z) (l : location) :
  0 <= q ->
  exists mrs e1,
    shr_fexp 24 128 q e l = (mrs, e1)
    /\ e1 = Z.max e (fexp32 (Zdigits2 q + e))
    /\ shr_m mrs = q / 2 ^ (e1 - e)
    /\ (l = loc_Exact -> (2 ^ (e1 - e) | q) -> loc_of_shr_record mrs = loc_Exact)
    /\ (e1 = e -> loc_of_shr_record mrs = l).
Proof.
  intros Hq. unfold shr_fexp, shr. rewrite fexp32_eq.
  destruct (fexp32 (Zdigits2 q + e) - e) as [|p|p] eqn:En.
  - eexists. eexists. split; [reflexivity|].
    assert (He : Z.max e (fexp32 (Zdigits2 q + e)) = e) by lia.
    rewrite He, Z.sub_diag. simpl Z.pow. rewrite Z.div_1_r.
    split; [reflexivity|]. split; [destruct l as [|[]]; reflexivity|].
    split; intros; subst; apply loc_of_shr_record_of_loc.
  - eexists. eexists. split; [reflexivity|].
    assert (He : Z.max e (fexp32 (Zdigits2 q + e)) = e + Z.pos p) by lia.
    rewrite He. replace (e + Z.pos p - e) with (Z.pos p) by lia.
    rewrite iter_pos_nat.
    assert (Hp : Z.pos p = Z.of_nat (Pos.to_nat p)) by lia.
    split; [reflexivity|]. split.
    + rewrite shr_iter_m; [|destruct l as [|[]]; exact Hq].
      rewrite <- Hp. destruct l as [|[]]; reflexivity.
    + split.
      * intros -> Hdiv. rewrite Hp in Hdiv.
        destruct (shr_iter_exact (Pos.to_nat p) (shr_record_of_loc q loc_Exact))
          as [Hr Hs]; try reflexivity; try assumption.
        destruct (Nat.iter (Pos.to_nat p) shr_1 (shr_record_of_loc q loc_Exact)) as [m r s].
        simpl in Hr, Hs. subst. reflexivity.
      * intros Heq. lia.
  - eexists. eexists. split; [reflexivity|].
    assert (He : Z.max e (fexp32 (Zdigits2 q + e)) = e) by lia.
    rewrite He, Z.sub_diag. simpl Z.pow. rewrite Z.div_1_r.
    split; [reflexivity|]. split; [destruct l as [|[]]; reflexivity|].
    split; intros; subst; apply loc_of_shr_record_of_loc.
Qed.

Lemma round_nearest_even_bounds (q : Z) (l : location) :
  q <= round_nearest_even q l <= q + 1
  /\ (l = loc_Exact -> round_nearest_even q l = q).
Proof.
  destruct l as [|[]]; simpl; try destruct (Z.even q);
    (split; [lia | intros; try discriminate; reflexivity]).
Qed.

Lemma pow2_pos (k : Z) : 0 <= k -> 0 < 2 ^ k.
Proof. intros. apply Z.pow_pos_nonneg; lia. Qed.

Lemma pow2_split (a b : Z) : 0 <= b <= a -> 2 ^ a = 2 ^ (a - b) * 2 ^ b.
Proof.
  intros H. rewrite <- Z.pow_add_r by lia. f_equal. lia.
Qed.

Lemma shr_fexp_below_one (q e : Z) (l : location) :
  0 <= q -> e <= -23 -> q <= 2 ^ (- e) ->
  (q = 2 ^ (- e) -> l = loc_Exact) ->
  exists mrs e1,
    shr_fexp 24 128 q e l = (mrs, e1)
    /\ e1 <= -23
    /\ 0 <= shr_m mrs <= 2 ^ (- e1)
    /\ (shr_m mrs = 2 ^ (- e1) -> loc_of_shr_record mrs = loc_Exact).
Proof.
  intros Hq He Hle Hexact.
  destruct (shr_fexp_spec q e l Hq) as (mrs & e1 & Heq & He1 & Hm & Hex & _).
  exists mrs, e1. split; [exact Heq|].
  assert (Hd : Zdigits2 q <= - e + 1) by (apply Zdigits2_le; lia).
  assert (Hf : fexp32 (Zdigits2 q + e) <= -23) by (unfold fexp32; lia).
  assert (Hee : e <= e1 <= -23) by lia.
  assert (Hp : 0 < 2 ^ (e1 - e)) by (apply pow2_pos; lia).
  assert (Hsplit : 2 ^ (- e) = 2 ^ (- e1) * 2 ^ (e1 - e)).
  { rewrite (pow2_split (- e) (e1 - e)) by lia. f_equal. f_equal. lia. }
  split; [lia|]. split.
  - rewrite Hm. split; [apply Z.div_pos; lia|].
    apply Z.div_le_upper_bound; [exact Hp|]. rewrite Z.mul_comm, <- Hsplit. exact Hle.
  - intros Htop. rewrite Hm in Htop.
    assert (Hge : 2 ^ (e1 - e) * (q / 2 ^ (e1 - e)) <= q)
      by (apply Z.mul_div_le; exact Hp).
    rewrite Htop in Hge.
    assert (Hqeq : q = 2 ^ (- e)) by lia.
    apply Hex; [apply Hexact; exact Hqeq|].
    exists (2 ^ (- e1)). lia.
Qed.

Lemma binary_round_aux_below_one (q e : Z) (l : location) :
  0 <= q -> e <= -23 -> q <= 2 ^ (- e) ->
  (q = 2 ^ (- e) -> l = loc_Exact) ->
  SFleb (S754_zero false) (binary_round_aux 24 128 false q e l) = true
  /\ SFleb (binary_round_aux 24 128 false q e l) (Float32.of_Z 1) = true.
Proof.
  intros Hq He Hle Hexact. unfold binary_round_aux.
  destruct (shr_fexp_below_one q e l Hq He Hle Hexact)
    as (mrs & e1 & -> & He1 & [Hm0 Hm1] & Hex).
  destruct (round_nearest_even_bounds (shr_m mrs) (loc_of_shr_record mrs))
    as [[Hr0 Hr1] Hrex].
  set (q2 := round_nearest_even (shr_m mrs) (loc_of_shr_record mrs)) in *.
  assert (Hq2 : 0 <= q2 <= 2 ^ (- e1)).
  { split; [lia|].
    destruct (Z.eq_dec (shr_m mrs) (2 ^ (- e1))) as [Heq|Hne].
    - rewrite (Hrex (Hex Heq)). lia.
    - lia. }
  destruct (shr_fexp_below_one q2 e1 loc_Exact) as (mrs2 & e2 & -> & He2 & [Hm2 Hm3] & _);
    try lia; [reflexivity|].
  destruct (shr_m mrs2) as [|m3|m3] eqn:Em; [split; reflexivity| |lia].
  replace (e2 <=? 128 - 24) with true by (symmetry; apply Z.leb_le; lia).
  split; [reflexivity|].
  change (Float32.of_Z 1) with (S754_finite false 8388608 (-23)).
  unfold SFleb, SFcompare.
  destruct (e2 ?= -23) eqn:Ec.
  - apply Z.compare_eq in Ec. subst e2. change (2 ^ (- -23)) with 8388608 in Hm3.
    destruct (Pos.compare_cont Eq m3 8388608) eqn:Ep; try reflexivity.
    apply Pos.compare_gt_iff in Ep. lia.
  - reflexivity.
  - apply Z.compare_gt_iff in Ec. lia.
Qed.

Lemma bounded_canonical (m : positive) (e : Z) :
  bounded 24 128 m e = true ->
  -149 <= e /\ Z.pos (digits2_pos m) <= 24
  /\ (-149 < e -> Z.pos (digits2_pos m) = 24).
Proof.
  unfold bounded, canonical_mantissa. rewrite fexp32_eq. unfold fexp32.
  intros H. apply andb_prop in H. destruct H as [H _].
  apply Z.eqb_eq in H. lia.
Qed.

Lemma new_location_zero (nb : Z) : new_location nb 0 = loc_Exact.
Proof.
  unfold new_location, new_location_even, new_location_odd.
  destruct (Z.even nb); reflexivity.
Qed.

Lemma SFdiv_below_one (ma mm : positive) (ea em : Z) :
  bounded 24 128 ma ea = true ->
  bounded 24 128 mm em = true ->
  (ea < em \/ (ea = em /\ (ma <= mm)%positive)) ->
  SFleb (S754_zero false)
    (SFdiv 24 128 (S754_finite false ma ea) (S754_finite false mm em)) = true
  /\ SFleb (SFdiv 24 128 (S754_finite false ma ea) (S754_finite false mm em))
       (Float32.of_Z 1) = true.
Proof.
  intros Ha Hm Hord.
  destruct (bounded_canonical ma ea Ha) as (Hea & Hda & Hna).
  destruct (bounded_canonical mm em Hm) as (Hem & Hdm & Hnm).
  destruct (digits2_pos_bounds ma) as [Hma0 Hma1].
  destruct (digits2_pos_bounds mm) as [Hmm0 Hmm1].
  unfold SFdiv, SFdiv_core_binary. cbn [xorb Zdigits2].
  rewrite fexp32_eq.
  set (d1 := Z.pos (digits2_pos ma)) in *.
  set (d2 := Z.pos (digits2_pos mm)) in *.
  assert (Hdig : d1 + ea <= d2 + em).
  { destruct Hord as [Hlt|[Heq Hle]]; [lia|]. subst em.
    destruct (Z_le_gt_dec d1 d2) as [H|H]; [lia|]. exfalso.
    assert (2 ^ d2 <= 2 ^ (d1 - 1)) by (apply Z.pow_le_mono_r; lia).
    lia. }
  set (e' := Z.min (fexp32 (d1 + ea - (d2 + em))) (ea - em)).
  assert (He' : e' <= -24) by (unfold e', fexp32; lia).
  assert (Hs : 0 <= ea - em - e') by (unfold e'; lia).
  set (s := ea - em - e') in *.
  set (m' := match s with
             | 0 => Z.pos ma
             | Z.pos _ => Z.shiftl (Z.pos ma) s
             | Z.neg _ => 0
             end).
  assert (Hm' : m' = Z.pos ma * 2 ^ s).
  { unfold m'. destruct s as [|p|p] eqn:Es; [simpl; lia| |lia].
    rewrite Z.shiftl_mul_pow2 by lia. reflexivity. }
  assert (Hps : 0 < 2 ^ s) by (apply pow2_pos; lia).
  assert (Hbound : m' <= Z.pos mm * 2 ^ (- e')).
  { rewrite Hm'. destruct Hord as [Hlt|[Heq Hle]].
    - assert (Hd2 : d2 = 24) by lia.
      rewrite (pow2_split (- e') s) by (unfold s; lia).
      replace (- e' - s) with (em - ea) by (unfold s; lia).
      assert (H2 : 2 ^ 1 <= 2 ^ (em - ea)) by (apply Z.pow_le_mono_r; lia).
      assert (H23 : 2 ^ 23 <= Z.pos mm) by (rewrite Hd2 in Hmm0; exact Hmm0).
      assert (H24 : Z.pos ma < 2 ^ 24).
      { apply Z.lt_le_trans with (2 ^ d1); [exact Hma1|].
        apply Z.pow_le_mono_r; lia. }
      change (2 ^ 1) with 2 in H2. change (2 ^ 23) with 8388608 in H23.
      change (2 ^ 24) with 16777216 in H24.
      assert (Hstep : Z.pos ma <= Z.pos mm * 2 ^ (em - ea)) by nia.
      rewrite Z.mul_assoc. apply Z.mul_le_mono_nonneg_r; lia.
    - replace (- e') with s by (unfold s; lia).
      apply Z.mul_le_mono_nonneg_r; lia. }
  destruct (Z.div_eucl m' (Z.pos mm)) as [q r] eqn:Ediv.
  assert (Hqr : m' = Z.pos mm * q + r /\ 0 <= r < Z.pos mm).
  { generalize (Z_div_mod m' (Z.pos mm) ltac:(lia)). rewrite Ediv. tauto. }
  destruct Hqr as [Hqr Hr].
  assert (Hm'0 : 0 <= m') by (rewrite Hm'; lia).
  assert (Hq0 : 0 <= q) by nia.
  assert (Hp' : 0 < 2 ^ (- e')) by (apply pow2_pos; lia).
  assert (Hq1 : q <= 2 ^ (- e')) by nia.
  apply binary_round_aux_below_one; try lia.
  intros Hqtop. assert (r = 0) by nia. subst r. apply new_location_zero.
Qed.

(** For a non-negative error and a positive finite maximum distance the
    fraction computed in binary32 lies between 0 and 1. *)
Lemma float_error_fraction_unit (e m : float) :
  Float32.valid e = true ->
  Float32.valid m = true ->
  Float32.leb Float32.zero e = true ->
  Float32.ltb Float32.zero m = true ->
  m <> S754_infinity false ->
  Float32.leb Float32.zero (error_fraction e m) = true
  /\ Float32.leb (error_fraction e m) (Float32.of_Z 1) = true.
Proof.
  intros Ve Vm He Hm Hfin.
  destruct m as [sm|sm| |sm mm em]; try discriminate.
  - destruct sm; [discriminate | contradiction Hfin; reflexivity].
  - destruct sm; [discriminate|].
    assert (Hself : (em < em \/ (em = em /\ (mm <= mm)%positive)))
      by (right; split; [reflexivity | apply Pos.le_refl]).
    destruct e as [se|se| |se ma ea]; try discriminate.
    + destruct se; split; reflexivity.
    + destruct se; [discriminate|].
      apply (SFdiv_below_one mm mm em em Vm Vm Hself).
    + destruct se; [discriminate|].
      unfold error_fraction, c_min. cbn [c_ltb c_div float_arith].
      unfold Float32.ltb, SFltb, SFcompare.
      destruct (em ?= ea) eqn:Ec.
      * apply Z.compare_eq in Ec. subst ea.
        destruct (Pos.compare_cont Eq mm ma) eqn:Ep.
        -- apply Pos.compare_eq in Ep. subst ma.
           apply (SFdiv_below_one mm mm em em Vm Vm Hself).
        -- apply (SFdiv_below_one mm mm em em Vm Vm Hself).
        -- apply (SFdiv_below_one ma mm em em Ve Vm).
           right. split; [reflexivity|].
           apply Pos.compare_gt_iff in Ep. apply Pos.lt_le_incl. exact Ep.
      * apply (SFdiv_below_one mm mm em em Vm Vm Hself).
      * apply (SFdiv_below_one ma mm ea em Ve Vm).
        left. apply Z.compare_gt_iff in Ec. exact Ec.
Qed.

Lemma voxel_fraction_clamped (request : EvaluationRequest) (acc : VoxelError) :
  exists error_value : float,
    voxel_fraction request acc
    = error_fraction error_value (maximum_distance request).
Proof.
  unfold voxel_fraction.
  destruct (color_by_max_error request); eexists; reflexivity.
Qed.

(** C6, as the code has it.  The colour is a function of [frac] alone:
    red is [min((frac - 0.5) * 2 + 1, 1) * 255], green is
    [190 + 130 * frac] when [frac <= 0.5] and [(1 - frac) * 2 * 255]
    otherwise, blue is 0, and both colouring modes apply it to
    [min(error, maximum_distance) / maximum_distance].  Over exact
    fractions both channels are continuous on the unit interval and red
    never decreases; green rises from 190 to 255 up to [frac = 0.5] and
    falls to 0 from there.  The colour of fraction 0 is the green
    [(0, 190, 0)], the colour of fraction 1 the red [(255, 0, 0)], and for a
    non-negative error and a positive, finite maximum distance the fraction
    lies between 0 and 1, in exact arithmetic and in binary32. *)
Theorem C6_error_color_gradient :
  (forall (F : Type) (A : ColorArith F) (frac : F),
      red (colorFor frac)
      = c_mul (c_min (c_add (c_mul (c_sub frac (c_lit 1 2)) (c_of_Z 2))
                        (c_of_Z 1)) (c_of_Z 1)) (c_of_Z 255)
      /\ green (colorFor frac)
         = (if c_leb frac (c_lit 1 2)
            then c_add (c_of_Z 190) (c_mul (c_of_Z 130) frac)
            else c_mul (c_mul (c_sub (c_of_Z 1) frac) (c_of_Z 2)) (c_of_Z 255))
      /\ blue (colorFor frac) = c_of_Z 0)
  /\ (forall (request : EvaluationRequest) (ret_index : nat) (out_dist_sqr : float),
        mesh_vertex_color request (Some (ret_index, out_dist_sqr))
        = Some (colorFor (error_fraction (Float32.sqrt out_dist_sqr)
                            (maximum_distance request))))
  /\ (forall (request : EvaluationRequest) (acc : VoxelError),
        exists error_value : float,
          voxel_fraction request acc
          = error_fraction error_value (maximum_distance request))
  /\ continuous_on_unit color_red
  /\ continuous_on_unit color_green
  /\ nondecreasing_between 0 1 color_red
  /\ nondecreasing_between 0 (1 # 2) color_green
  /\ nonincreasing_between (1 # 2) 1 color_green
  /\ (color_green 0 == 190 /\ color_green (1 # 2) == 255 /\ color_green 1 == 0)%Q
  /\ (color_red 0 == 0 /\ color_red (1 # 2) == 255 /\ color_red 1 == 255)%Q
  /\ store_color (colorFor (Float32.of_Z 0)) = Some (mkColor 0 190 0)
  /\ store_color (colorFor (Float32.of_Z 1)) = Some (mkColor 255 0 0)
  /\ (forall e m : Q,
        (0 <= e)%Q -> (0 < m)%Q -> (0 <= error_fraction e m <= 1)%Q)
  /\ (forall e m : float,
        Float32.valid e = true ->
        Float32.valid m = true ->
        Float32.leb Float32.zero e = true ->
        Float32.ltb Float32.zero m = true ->
        m <> S754_infinity false ->
        Float32.leb Float32.zero (error_fraction e m) = true
        /\ Float32.leb (error_fraction e m) (Float32.of_Z 1) = true).
Proof.
  split; [intros F A frac; repeat split; reflexivity|].
  split; [intros request ret_index out_dist_sqr; reflexivity|].
  split; [exact voxel_fraction_clamped|].
  split; [apply steep_continuous; exact color_red_steep|].
  split; [apply steep_continuous; exact color_green_steep|].
  split; [exact color_red_nondecreasing|].
  split; [exact color_green_rises|].
  split; [exact color_green_falls|].
  split; [repeat split; reflexivity|].
  split; [repeat split; reflexivity|].
  split; [reflexivity|].
  split; [reflexivity|].
  split; [exact error_fraction_unit | exact float_error_fraction_unit].
Qed.

Lemma C6_error_color_gradient_witness :
  (0 <= error_fraction (3 # 10) (2 # 10) <= 1)%Q
  /\ (color_red (1 # 10) <= color_red (9 # 10))%Q
  /\ Float32.leb (error_fraction (Float32.lit 3 10) (Float32.lit 2 10))
       (Float32.of_Z 1) = true.
Proof.
  split; [|split].
  - apply (proj1 (proj2 (proj2 (proj2 (proj2 (proj2 (proj2 (proj2 (proj2 (proj2
             (proj2 (proj2 (proj2 C6_error_color_gradient)))))))))))));
      [vm_compute; discriminate | reflexivity].
  - apply (proj1 (proj2 (proj2 (proj2 (proj2 (proj2
             C6_error_color_gradient))))));
      vm_compute; discriminate.
  - apply (proj2 (proj2 (proj2 (proj2 (proj2 (proj2 (proj2 (proj2 (proj2 (proj2
             (proj2 (proj2 (proj2 C6_error_color_gradient)))))))))))));
      try reflexivity. discriminate.
Defined.

(** C6 as stated fails: the green channel is not monotonic in [frac]; it
    is 190 at 0, 255 at 0.5 and 0 at 1, in exact arithmetic and in the
    floats of the program alike. *)
Lemma C6_counterexample :
  (color_green 0 < color_green (1 # 2))%Q
  /\ (color_green 1 < color_green (1 # 2))%Q
  /\ Float32.ltb (color_green (Float32.of_Z 0)) (color_green (Float32.lit 1 2))
     = true
  /\ Float32.ltb (color_green (Float32.of_Z 1)) (color_green (Float32.lit 1 2))
     = true
  /\ ~ monotonic_on_unit color_green.
Proof.
  split; [reflexivity|]. split; [reflexivity|].
  split; [reflexivity|]. split; [reflexivity|].
  intros [Hup|Hdown].
  - specialize (Hup (1 # 2) 1)%Q.
    assert (H : (color_green (1 # 2) <= color_green 1)%Q).
    { apply Hup; vm_compute; discriminate. }
    vm_compute in H. apply H. reflexivity.
  - specialize (Hdown 0 (1 # 2))%Q.
    assert (H : (color_green (1 # 2) <= color_green 0)%Q).
    { apply Hdown; vm_compute; discriminate. }
    vm_compute in H. apply H. reflexivity.
Qed.

(** ** Paths *)

Lemma last_index_bounds (c : ascii) (s : string) :
  forall i found,
    0 <= i ->
    (found = npos \/ 0 <= found < i) ->
    last_index c s i found = npos
    \/ 0 <= last_index c s i found < i + string_size s.
Proof.
  unfold string_size.
  induction s as [|a rest IH]; intros i found Hi Hfound; simpl last_index.
  - simpl String.length. destruct Hfound as [->|Hf]; [left; reflexivity|right; lia].
  - assert (Hnext : (if Ascii.eqb a c then i else found) = npos
                    \/ 0 <= (if Ascii.eqb a c then i else found) < i + 1).
    { destruct (Ascii.eqb a c); [right; lia|].
      destruct Hfound as [->|Hf]; [left; reflexivity | right; lia]. }
    destruct (IH (i + 1) _ ltac:(lia) Hnext) as [E|E]; [left; exact E|].
    right. simpl String.length. lia.
Qed.

Lemma find_last_of_bounds (s : string) (c : ascii) :
  find_last_of s c = npos \/ 0 <= find_last_of s c < string_size s.
Proof.
  unfold find_last_of.
  destruct (last_index_bounds c s 0 npos ltac:(lia) ltac:(left; reflexivity))
    as [E|E]; [left; exact E | right; lia].
Qed.

Lemma substr_returns (s : string) (pos count0 : Z) :
  pos <= string_size s -> returns (substr s pos count0).
Proof.
  intros Hpos. unfold substr.
  destruct (string_size s <? pos) eqn:E; [apply Z.ltb_lt in E; lia|].
  eexists. reflexivity.
Qed.

Lemma string_size_nonneg (s : string) : 0 <= string_size s.
Proof. unfold string_size. lia. Qed.

Lemma path_directory_returns (path : string) :
  returns (substr path 0 (find_last_of path "/")).
Proof. apply substr_returns. apply string_size_nonneg. Qed.

Lemma path_map_name_returns (path extension : string) :
  returns (path_map_name path extension).
Proof.
  unfold path_map_name. apply substr_returns. unfold size_wrap.
  destruct (find_last_of_bounds path "/") as [E|E].
  - rewrite E. change ((npos + 1) mod u64_modulus) with 0.
    apply string_size_nonneg.
  - apply Z.le_trans with (find_last_of path "/" + 1); [|lia].
    apply Z.mod_le; [lia | reflexivity].
Qed.

(** ** Load failures *)

Lemma load_map_panmap_failure (w : World) (ev : MapEvaluator)
    (request : EvaluationRequest) :
  path_extension (map_file request) = Done ".panmap"%string ->
  loadFromFile w (map_file request) = None ->
  exists ev', load_map w ev request = Done (ev', false) /\ submaps_ ev' = None.
Proof.
  intros Hext Hload. unfold load_map.
  destruct (is_empty (map_file request)) eqn:Hempty.
  - destruct (map_file request); [|discriminate]. discriminate.
  - simpl negb. cbv iota. rewrite Hext. simpl obind.
    destruct (path_directory_returns (map_file request)) as [directory ->].
    destruct (path_map_name_returns (map_file request) ".panmap") as [name ->].
    simpl. rewrite Hload. eexists. split; reflexivity.
Qed.

Lemma load_ground_truth_failure (w : World) (ev : MapEvaluator)
    (request : EvaluationRequest) :
  evaluate_flag request || compute_coloring request = true ->
  is_empty (ground_truth_pointcloud_file request) = false ->
  fst (loadPLYFile w (ground_truth_pointcloud_file request)) <> 0 ->
  load_ground_truth w ev request = (with_ground_truth ev None, false).
Proof.
  intros Hneeded Hname Hcode. unfold load_ground_truth.
  rewrite Hneeded, Hname. simpl negb. cbv iota.
  destruct (loadPLYFile w (ground_truth_pointcloud_file request)) as [code cloud].
  simpl in Hcode. destruct (code =? 0) eqn:E; [apply Z.eqb_eq in E; contradiction|].
  reflexivity.
Qed.

(** C7, as the code has it.  In [evaluate] a ground-truth point cloud that
    fails to load, and a panoptic map file that fails to load, end the run
    with the value false and without a fault; so does a map that fails to
    load in the service callback.  In the coverage export a ground truth
    that fails to load with code -1 is logged at the fatal level, which
    terminates the process. *)
Theorem C7_load_failures :
  (forall (w : World) (ev : MapEvaluator) (request : EvaluationRequest)
      (ros_ok : nat -> bool),
      evaluate_flag request || compute_coloring request = true ->
      is_empty (ground_truth_pointcloud_file request) = false ->
      fst (loadPLYFile w (ground_truth_pointcloud_file request)) <> 0 ->
      exists ev', evaluate w ev request ros_ok = Done (false, ev', []))
  /\ (forall (w : World) (ev : MapEvaluator) (request : EvaluationRequest)
        (ros_ok : nat -> bool),
        path_extension (map_file request) = Done ".panmap"%string ->
        loadFromFile w (map_file request) = None ->
        exists ev', evaluate w ev request ros_ok = Done (false, ev', []))
  /\ (forall (w : World) (ev : MapEvaluator) (file_path : string)
        (ros_ok : nat -> bool),
        loadFromFile w file_path = None ->
        exists ev',
          evaluateMapCallback w ev file_path ros_ok = Done (false, ev', [])
          /\ submaps_ ev' = None)
  /\ (forall (w : World) (ev : MapEvaluator) (request : EvaluationRequest),
        gt_cloud_ptr_ ev = None ->
        fst (loadPLYFile w (ground_truth_pointcloud_file (request_ ev))) = -1 ->
        exportCoveragePointcloud w ev request = Trap FatalLog).
Proof.
  split; [|split; [|split]].
  - intros w ev request ros_ok Hneeded Hname Hcode. unfold evaluate.
    destruct (isValid request); simpl negb; cbv iota; [|eauto].
    rewrite load_ground_truth_failure by assumption. simpl. eauto.
  - intros w ev request ros_ok Hext Hload. unfold evaluate.
    destruct (isValid request); simpl negb; cbv iota; [|eauto].
    destruct (load_ground_truth w ev request) as [ev1 goes_on].
    destruct goes_on; simpl negb; cbv iota; [|eauto].
    destruct (load_map_panmap_failure w ev1 request Hext Hload)
      as [ev2 [-> _]].
    simpl. eauto.
  - intros w ev file_path ros_ok Hload. unfold evaluateMapCallback.
    rewrite Hload. eexists. split; reflexivity.
  - intros w ev request Hgt Hcode.
    unfold exportCoveragePointcloud, coverage_ground_truth. rewrite Hgt.
    destruct (loadPLYFile w (ground_truth_pointcloud_file (request_ ev)))
      as [code cloud].
    simpl in Hcode. rewrite Hcode. reflexivity.
Qed.

Lemma C7_load_failures_witness :
  (exists ev', evaluate bare_world fresh_evaluator panmap_request
                 (fun _ => true)
               = Done (false, ev', []))
  /\ (exists ev', evaluate no_map_world fresh_evaluator panmap_request
                    (fun _ => true)
                  = Done (false, ev', []))
  /\ exportCoveragePointcloud bare_world coverage_evaluator coverage_request
     = Trap FatalLog.
Proof.
  split; [|split].
  - apply (proj1 C7_load_failures bare_world fresh_evaluator panmap_request
             (fun _ => true));
      [reflexivity | reflexivity | simpl; lia].
  - apply (proj1 (proj2 C7_load_failures) no_map_world fresh_evaluator
             panmap_request (fun _ => true)); reflexivity.
  - apply (proj2 (proj2 (proj2 C7_load_failures)) bare_world coverage_evaluator
             coverage_request); reflexivity.
Defined.

(** C7 as stated fails in the coverage export: with no ground truth held
    and a ground-truth file that cannot be loaded, the export, and with it
    the service callback, ends the process at the fatal log entry. *)
Lemma C7_counterexample :
  gt_cloud_ptr_ coverage_evaluator = None
  /\ fst (loadPLYFile bare_world
            (ground_truth_pointcloud_file (request_ coverage_evaluator))) = -1
  /\ exportCoveragePointcloud bare_world coverage_evaluator coverage_request
     = Trap FatalLog
  /\ evaluateMapCallback bare_world coverage_evaluator "run/map.panmap"
       (fun _ => true)
     = Trap FatalLog.
Proof.
  repeat split; reflexivity.
Qed.

(** A voxblox layer that fails to load does not end [evaluate]: the result
    of [LoadLayer] is not looked at. *)
Lemma evaluate_layer_load_unchecked :
  LoadLayer bare_world (map_file layer_request) = None
  /\ exists ev',
       evaluate bare_world fresh_evaluator layer_request (fun _ => true)
       = Done (true, ev', [])
       /\ use_voxblox_ ev' = true
       /\ voxblox_ ev' = None.
Proof.
  split; [reflexivity|]. eexists. split; [vm_compute; reflexivity|].
  split; reflexivity.
Qed.

(** ** The labeled point cloud export *)

Lemma u32_wrap_nonneg (n : Z) : 0 <= u32_wrap n.
Proof. unfold u32_wrap. apply Z.mod_pos_bound. reflexivity. Qed.

Lemma vertex_label_bounded (submap : Submap)
    (class_block0 : option (Point -> ClassVoxel)) (vertex : Point) (label0 : Z) :
  vertex_label submap class_block0 vertex = Some label0 ->
  0 <= label0 <= 50000.
Proof.
  unfold vertex_label.
  match goal with
  | |- match ?chosen with _ => _ end = _ -> _ =>
      assert (Hchosen : forall l, chosen = Some l -> 0 <= l);
      [|destruct chosen as [l|]; [|discriminate]]
  end.
  - intros l. destruct class_block0 as [block|].
    + destruct (getVoxelType (block vertex)).
      all: try (destruct (getBelongingID (block vertex) =? 0); [discriminate|]).
      all: try discriminate.
      all: try (destruct (getLabel submap)).
      all: intros E; injection E as <-; apply u32_wrap_nonneg.
    + intros E; injection E as <-. lia.
  - destruct (50000 <? l) eqn:E; [discriminate|].
    intros H; injection H as <-. apply Z.ltb_ge in E.
    split; [apply Hchosen; reflexivity | exact E].
Qed.

Lemma export_vertices_bounded (submap : Submap)
    (class_block0 : option (Point -> ClassVoxel)) (vs : list Point) :
  forall (cs : list Color) (cloud cloud' : list PointXYZRGBL),
    Forall label_bounded cloud ->
    export_vertices submap class_block0 vs cs cloud = Done cloud' ->
    Forall label_bounded cloud'.
Proof.
  induction vs as [|vertex vs' IH]; intros cs cloud cloud' Hcloud; simpl.
  - intros E; injection E as <-. exact Hcloud.
  - destruct cs as [|color cs']; [discriminate|].
    apply IH.
    destruct (vertex_label submap class_block0 vertex) as [label0|] eqn:E;
      [|exact Hcloud].
    apply Forall_app. split; [exact Hcloud|].
    constructor; [|constructor].
    unfold label_bounded. simpl. eapply vertex_label_bounded. exact E.
Qed.

Lemma export_blocks_bounded (submap : Submap) (blocks : list MeshBlock) :
  forall cloud cloud' : list PointXYZRGBL,
    Forall label_bounded cloud ->
    export_blocks submap blocks cloud = Done cloud' ->
    Forall label_bounded cloud'.
Proof.
  induction blocks as [|block rest IH]; intros cloud cloud' Hcloud; simpl.
  - intros E; injection E as <-. exact Hcloud.
  - intros E. apply obind_done in E. destruct E as [mid [E1 E2]].
    apply (IH mid cloud'); [|exact E2].
    eapply export_vertices_bounded; [exact Hcloud | exact E1].
Qed.

Lemma export_submaps_bounded (submaps : list Submap) :
  forall cloud cloud' : list PointXYZRGBL,
    Forall label_bounded cloud ->
    export_submaps submaps cloud = Done cloud' ->
    Forall label_bounded cloud'.
Proof.
  induction submaps as [|submap rest IH]; intros cloud cloud' Hcloud; simpl.
  - intros E; injection E as <-. exact Hcloud.
  - destruct (hasClassLayer submap); simpl.
    + intros E. apply obind_done in E. destruct E as [mid [E1 E2]].
      apply (IH mid cloud'); [|exact E2].
      eapply export_blocks_bounded; [exact Hcloud | exact E1].
    + apply IH. exact Hcloud.
Qed.

Lemma read_label_map_fold (rows : list (Z * Z)) (instance : Z) :
  (forall row, In row rows -> snd row <> -1) ->
  instance <> -1 ->
  forall (label_map : gmap Z Z) (found : option Z),
    label_map !! instance = found ->
    fold_left
      (fun (label_map : gmap Z Z) (row : Z * Z) =>
         let (inst, cls) := row in
         if negb (inst =? -1) && negb (cls =? -1)
         then <[inst := cls]> label_map
         else label_map)
      rows label_map !! instance
    = fold_left
        (fun (found : option Z) (row : Z * Z) =>
           if fst row =? instance then Some (snd row) else found)
        rows found.
Proof.
  intros Hrows Hinstance.
  induction rows as [|[inst cls] rest IH]; intros label_map found Hfound; simpl.
  - exact Hfound.
  - apply IH; [intros row Hrow; apply Hrows; right; exact Hrow|].
    assert (Hcls : cls <> -1) by (apply (Hrows (inst, cls)); left; reflexivity).
    destruct (cls =? -1) eqn:Ec; [apply Z.eqb_eq in Ec; contradiction|].
    destruct (inst =? -1) eqn:Ei; simpl.
    + apply Z.eqb_eq in Ei. subst inst.
      destruct (-1 =? instance) eqn:E; [apply Z.eqb_eq in E; lia | exact Hfound].
    + destruct (inst =? instance) eqn:E.
      * apply Z.eqb_eq in E. subst inst. apply lookup_insert_eq.
      * apply Z.eqb_neq in E. rewrite lookup_insert_ne by exact E. exact Hfound.
Qed.

Lemma read_label_map_last_class (rows : list (Z * Z)) (instance : Z) :
  (forall row, In row rows -> snd row <> -1) ->
  instance <> -1 ->
  read_label_map rows !! instance = last_class rows instance.
Proof.
  intros Hrows Hinstance. unfold read_label_map, last_class.
  apply read_label_map_fold; [exact Hrows | exact Hinstance | apply lookup_empty].
Qed.

Lemma last_class_in (rows : list (Z * Z)) (instance cls : Z) :
  last_class rows instance = Some cls -> In (instance, cls) rows.
Proof.
  unfold last_class.
  assert (H : forall found,
             fold_left
               (fun (found : option Z) (row : Z * Z) =>
                  if fst row =? instance then Some (snd row) else found)
               rows found = Some cls ->
             found = Some cls \/ In (instance, cls) rows).
  { induction rows as [|[inst c] rest IH]; intros found; simpl.
    - intros E; left; exact E.
    - intros E. destruct (IH _ E) as [Hhere|Hrest]; [|right; right; exact Hrest].
      destruct (inst =? instance) eqn:Ei; [|left; exact Hhere].
      apply Z.eqb_eq in Ei. injection Hhere as ->. subst inst.
      right. left. reflexivity. }
  intros E. destruct (H None E) as [Hnone|Hin]; [discriminate | exact Hin].
Qed.

Lemma to_int_bounded (label0 : Z) :
  0 <= label0 <= 50000 -> to_int label0 = label0.
Proof.
  intros Hlabel. unfold to_int.
  destruct (label0 <? 2 ^ 31) eqn:E; [reflexivity|].
  apply Z.ltb_ge in E. lia.
Qed.

Lemma remap_label_mapped (label_map : gmap Z Z) (label0 cls : Z) :
  0 <= label0 <= 50000 ->
  label_map !! label0 = Some cls ->
  0 <= cls <= max_class ->
  remap_label label_map label0 = cls * 1000 + label0.
Proof.
  intros Hlabel Hfound Hcls. unfold remap_label.
  rewrite (to_int_bounded label0 Hlabel), Hfound.
  unfold u32_wrap. apply Z.mod_small.
  change max_class with 2147433 in Hcls.
  change u32_modulus with 4294967296. lia.
Qed.

Lemma remap_label_wrapped (label_map : gmap Z Z) (label0 cls : Z) :
  0 <= label0 <= 50000 ->
  label_map !! label0 = Some cls ->
  remap_label label_map label0 = u32_wrap (cls * 1000 + label0).
Proof.
  intros Hlabel Hfound. unfold remap_label.
  rewrite (to_int_bounded label0 Hlabel), Hfound. reflexivity.
Qed.

Lemma remap_label_unmapped (label_map : gmap Z Z) (label0 : Z) :
  0 <= label0 <= 50000 ->
  label_map !! label0 = None ->
  remap_label label_map label0 = label0 * 1000.
Proof.
  intros Hlabel Hnone. unfold remap_label.
  rewrite (to_int_bounded label0 Hlabel), Hnone.
  unfold u32_wrap. apply Z.mod_small.
  change u32_modulus with 4294967296. lia.
Qed.

Lemma remap_cloud_remapped_by (label_map : gmap Z Z) (cloud : list PointXYZRGBL) :
  Forall label_bounded cloud ->
  Forall2 (remapped_by label_map) cloud (remap_cloud label_map cloud).
Proof.
  intros Hcloud. unfold remap_cloud.
  induction Hcloud as [|p rest Hp Hrest IH]; simpl; constructor; [|exact IH].
  unfold remapped_by, remap_point. simpl. split; [reflexivity|].
  split; [reflexivity|].
  destruct (label_map !! label p) as [cls|] eqn:E.
  - apply remap_label_wrapped; assumption.
  - apply remap_label_unmapped; assumption.
Qed.

Lemma remap_cloud_remapped (rows : list (Z * Z)) (cloud : list PointXYZRGBL) :
  (forall row, In row rows -> 0 <= snd row <= max_class) ->
  Forall label_bounded cloud ->
  Forall2 (remapped rows) cloud (remap_cloud (read_label_map rows) cloud).
Proof.
  intros Hrows Hcloud. unfold remap_cloud.
  induction Hcloud as [|p rest Hp Hrest IH]; simpl; constructor; [|exact IH].
  unfold remapped, remap_point. simpl. split; [reflexivity|].
  split; [reflexivity|].
  assert (Hlookup : read_label_map rows !! label p = last_class rows (label p)).
  { apply read_label_map_last_class;
      [intros row Hrow; specialize (Hrows row Hrow); lia|].
    unfold label_bounded in Hp. lia. }
  destruct (last_class rows (label p)) as [cls|] eqn:E.
  - apply remap_label_mapped; [exact Hp | exact Hlookup |].
    apply last_class_in in E. exact (Hrows _ E).
  - apply remap_label_unmapped; [exact Hp | exact Hlookup].
Qed.

(** C8, as the code has it.  When the exported labeled point cloud is
    remapped through the instance-to-class table read from the label map
    file, every point whose label is an [InstanceID] key of the table
    receives the label [classID * 1000 + instanceID] as an unsigned 32-bit
    number, that is modulo [2^32] - the number itself whenever it is not
    negative and below [2^32] - and every point whose label is not in the
    table receives [label * 1000]; position and colour are kept.  The table
    holds, for an [InstanceID], the [ClassID] of its last row. *)
Theorem C8_label_remap
    (w : World) (ev : MapEvaluator) (request : EvaluationRequest)
    (collection : SubmapCollection) (rows : list (Z * Z))
    (exported : list PointXYZRGBL) :
  submaps_ ev = Some collection ->
  export_submaps collection [] = Done exported ->
  is_single_tsdf (request_ ev) = true ->
  read_label_rows w
    (target_directory_ ev ++ "/" ++ target_map_name_ ev ++ ".csv")%string
  = Some rows ->
  exists remapped_cloud,
    exportLabeledPointcloud w ev request
    = Done ((target_directory_ ev ++ "/" ++ target_map_name_ ev
             ++ ".pointcloud.ply")%string, remapped_cloud)
    /\ Forall2 (remapped_by (read_label_map rows)) exported remapped_cloud
    /\ Forall2
         (fun p q =>
            forall cls,
              read_label_map rows !! label p = Some cls ->
              0 <= cls * 1000 + label p < u32_modulus ->
              label q = cls * 1000 + label p)
         exported remapped_cloud
    /\ ((forall row, In row rows -> 0 <= snd row <= max_class) ->
        Forall2 (remapped rows) exported remapped_cloud).
Proof.
  intros Hsubmaps Hexport Hsingle Hfile.
  assert (Hbounded : Forall label_bounded exported).
  { eapply export_submaps_bounded; [|exact Hexport]. constructor. }
  assert (Hby := remap_cloud_remapped_by (read_label_map rows) exported Hbounded).
  exists (remap_cloud (read_label_map rows) exported).
  split; [|split; [|split]].
  - unfold exportLabeledPointcloud.
    rewrite Hsubmaps, Hexport. simpl obind. rewrite Hsingle, Hfile.
    reflexivity.
  - exact Hby.
  - eapply Forall2_impl; [|exact Hby].
    intros p q Hpq cls Hfound Hfits. destruct Hpq as [_ [_ Hlabel]].
    rewrite Hfound in Hlabel. rewrite Hlabel.
    unfold u32_wrap. apply Z.mod_small. exact Hfits.
  - intros Hrows. apply remap_cloud_remapped; assumption.
Qed.

Lemma C8_label_remap_witness :
  exists remapped_cloud,
    exportLabeledPointcloud bare_world single_tsdf_evaluator single_tsdf_request
    = Done ("run/map.pointcloud.ply"%string, remapped_cloud)
    /\ Forall2 (remapped [(7, 3)])
         [mkLabeled (on_x_axis 0 1) (mkColor 10 20 30) 7;
          mkLabeled (on_x_axis 1 1) (mkColor 40 50 60) 9]
         remapped_cloud.
Proof.
  destruct (C8_label_remap bare_world single_tsdf_evaluator single_tsdf_request
              [mkSubmap 0 kBackground kPersistent 0 0 true [instance_block]
                 (fun _ _ => None) 1]
              [(7, 3)]
              [mkLabeled (on_x_axis 0 1) (mkColor 10 20 30) 7;
               mkLabeled (on_x_axis 1 1) (mkColor 40 50 60) 9]
              eq_refl eq_refl eq_refl eq_refl)
    as [remapped_cloud [Hexport [_ [_ Hrows]]]].
  exists remapped_cloud. split; [exact Hexport|].
  apply Hrows. intros row [<-|[]]. vm_compute. split; discriminate.
Defined.

(** C8 as stated fails for a negative class: with the row [(7, -2)] in the
    label map file the point of label 7 receives 4294965303, which is
    [-2 * 1000 + 7] modulo [2^32], and not [-1993]. *)
Lemma C8_counterexample :
  read_label_rows negative_class_world "run/map.csv" = Some [(7, -2)]
  /\ read_label_map [(7, -2)] !! 7 = Some (-2)
  /\ exists exported remapped_cloud,
       export_submaps
         [mkSubmap 0 kBackground kPersistent 0 0 true [instance_block]
            (fun _ _ => None) 1] []
       = Done exported
       /\ map label exported = [7; 9]
       /\ exportLabeledPointcloud negative_class_world single_tsdf_evaluator
            single_tsdf_request
          = Done ("run/map.pointcloud.ply"%string, remapped_cloud)
       /\ map label remapped_cloud = [4294965303; 9000]
       /\ ~ Forall2 (remapped_exactly (read_label_map [(7, -2)]))
              exported remapped_cloud.
Proof.
  split; [reflexivity|]. split; [vm_compute; reflexivity|].
  eexists. eexists. split; [vm_compute; reflexivity|].
  split; [reflexivity|].
  split; [vm_compute; reflexivity|].
  split; [reflexivity|].
  intros Hall. inversion Hall as [|p q ps qs Hpq _]; subst.
  vm_compute in Hpq. discriminate Hpq.
Qed.

(* ================================================================== *)
(** * Part II, continued: further properties of the code               *)
(* ================================================================== *)

(** ** The reconstruction error pass, as a whole *)

(** One iteration, field by field. *)
Lemma recon_step_fields (ev : MapEvaluator) (request : EvaluationRequest)
    (st : ReconState) (p : PointXYZ) :
  total_points (recon_step ev request st p) = u64_incr (total_points st)
  /\ count (recon_step ev request st p) = u64_incr (count st)
  /\ unknown_points (recon_step ev request st p)
     = match reading_of ev request p with
       | Some _ => unknown_points st
       | None => u64_incr (unknown_points st)
       end
  /\ truncated_points (recon_step ev request st p)
     = (if is_truncated request (reading_of ev request p)
        then u64_incr (truncated_points st) else truncated_points st)
  /\ inliers (recon_step ev request st p)
     = match reading_of ev request p with
       | Some d =>
           if Float32.leb (Float32.abs d) (inlier_distance (request_ ev))
           then u64_incr (inliers st) else inliers st
       | None => inliers st
       end
  /\ abserror (recon_step ev request st p)
     = abserror st ++ samples_of request (reading_of ev request p).
Proof.
  unfold recon_step. cbn [total_points count unknown_points truncated_points
                            inliers abserror].
  rewrite classify_truncated_points, classify_inliers, classify_abserror.
  match goal with
  | |- context [classify ?r0 ?r ?rd ?a] =>
      destruct (classify_counters r0 r rd a) as (-> & -> & ->)
  end.
  simpl. repeat split; reflexivity.
Qed.

Lemma recon_pass_returns (ev : MapEvaluator) (request : EvaluationRequest)
    (cloud : list PointXYZ) :
  gt_cloud_ptr_ ev = Some cloud ->
  lookup_ready ev = true ->
  (length cloud = 0 \/ 100 <= length cloud)%nat ->
  recon_pass ev request = Done (fold_left (recon_step ev request) cloud recon_init).
Proof.
  intros Hgt Hready [Hempty|Hlen].
  - destruct cloud; [|discriminate]. unfold recon_pass. rewrite Hgt. reflexivity.
  - apply recon_pass_ready; assumption.
Qed.

(** X1.  On a ground-truth cloud of at least a hundred points the
    reconstruction error pass returns a summary in which [total_points] is
    the number of ground-truth points and the inliers and the truncated
    points are counted among the observed points only: each is at most
    [total_points - unknown_points]. *)
Theorem X1_recon_counters
    (ev : MapEvaluator) (request : EvaluationRequest) (cloud : list PointXYZ) :
  gt_cloud_ptr_ ev = Some cloud ->
  lookup_ready ev = true ->
  (100 <= length cloud)%nat ->
  Z.of_nat (length cloud) < u64_modulus ->
  exists s,
    computeReconstructionError ev request = Done s
    /\ sum_total_points s = Z.of_nat (length cloud)
    /\ 0 <= sum_unknown_points s <= sum_total_points s
    /\ 0 <= sum_inliers s <= sum_total_points s - sum_unknown_points s
    /\ 0 <= sum_truncated_points s <= sum_total_points s - sum_unknown_points s.
Proof.
  intros Hgt Hready Hlen Hsize. unfold computeReconstructionError.
  rewrite (recon_pass_ready ev request cloud Hgt Hready Hlen). simpl obind.
  eexists. split; [reflexivity|].
  destruct (recon_fold_consistent ev request cloud recon_init) as [Hc Ht].
  - unfold counters_consistent. simpl. lia.
  - simpl. lia.
  - simpl. lia.
  - destruct Hc as (Hu & Hi & Htr & Hiu & Htu & Hcount).
    simpl in Ht. unfold recon_summary. simpl. lia.
Qed.

Lemma X1_recon_counters_witness :
  exists s,
    computeReconstructionError (axis_evaluator default_request) default_request
    = Done s
    /\ sum_total_points s = 121
    /\ 0 <= sum_unknown_points s <= sum_total_points s
    /\ 0 <= sum_inliers s <= sum_total_points s - sum_unknown_points s
    /\ 0 <= sum_truncated_points s <= sum_total_points s - sum_unknown_points s.
Proof.
  apply (X1_recon_counters (axis_evaluator default_request) default_request
           axis_cloud); [reflexivity | reflexivity | vm_compute; lia | reflexivity].
Defined.

Lemma recon_step_accounted (ev : MapEvaluator) (request : EvaluationRequest)
    (st : ReconState) (p : PointXYZ) :
  counters_consistent st ->
  0 <= total_points st < u64_modulus - 1 ->
  samples_accounted request st ->
  samples_accounted request (recon_step ev request st p).
Proof.
  intros (Hu & Hi & Ht & Hiu & Htu & Hc) Hbound Hacc.
  unfold samples_accounted in *.
  destruct (recon_step_fields ev request st p)
    as (-> & _ & -> & -> & _ & ->).
  rewrite length_app, Nat2Z.inj_add.
  rewrite (u64_incr_small (total_points st)) by lia.
  unfold is_truncated, samples_of.
  destruct (reading_of ev request p) as [d|].
  - destruct (Float32.ltb (maximum_distance request) (Float32.abs d));
      destruct (ignore_truncated_points request);
      rewrite ?u64_incr_small by lia; simpl length; lia.
  - rewrite ?u64_incr_small by lia. simpl length. lia.
Qed.

Lemma recon_fold_accounted (ev : MapEvaluator) (request : EvaluationRequest)
    (cloud : list PointXYZ) :
  forall st,
    counters_consistent st ->
    0 <= total_points st ->
    total_points st + Z.of_nat (length cloud) < u64_modulus ->
    samples_accounted request st ->
    samples_accounted request (fold_left (recon_step ev request) cloud st).
Proof.
  induction cloud as [|p rest IH]; intros st Hst Hpos Hlen Hacc; simpl fold_left.
  - exact Hacc.
  - simpl length in Hlen. rewrite Nat2Z.inj_succ in Hlen.
    destruct (recon_step_consistent ev request st p Hst ltac:(lia)) as [Hst' Htot].
    apply IH; [exact Hst' | lia | lia |].
    apply recon_step_accounted; [exact Hst | lia | exact Hacc].
Qed.

(** X2.  At the end of the pass every ground-truth point is accounted for
    once: the number of error samples is [total_points - unknown_points]
    when truncated points are kept, and
    [total_points - unknown_points - truncated_points] when they are
    ignored. *)
Theorem X2_recon_sample_count
    (ev : MapEvaluator) (request : EvaluationRequest) (cloud : list PointXYZ) :
  gt_cloud_ptr_ ev = Some cloud ->
  lookup_ready ev = true ->
  (100 <= length cloud)%nat ->
  Z.of_nat (length cloud) < u64_modulus ->
  exists st,
    recon_pass ev request = Done st
    /\ Z.of_nat (length (abserror st))
       = total_points st - unknown_points st
         - (if ignore_truncated_points request then truncated_points st else 0).
Proof.
  intros Hgt Hready Hlen Hsize.
  rewrite (recon_pass_ready ev request cloud Hgt Hready Hlen).
  eexists. split; [reflexivity|].
  assert (Hacc : samples_accounted request
                   (fold_left (recon_step ev request) cloud recon_init)).
  { apply recon_fold_accounted.
    - unfold counters_consistent. simpl. lia.
    - simpl. lia.
    - simpl. lia.
    - unfold samples_accounted. simpl.
      destruct (ignore_truncated_points request); reflexivity. }
  unfold samples_accounted in Hacc. lia.
Qed.

Lemma X2_recon_sample_count_witness :
  exists st,
    recon_pass (axis_evaluator default_request)
      (with_ignore_truncated_points default_request true) = Done st
    /\ Z.of_nat (length (abserror st))
       = total_points st - unknown_points st - truncated_points st.
Proof.
  apply (X2_recon_sample_count (axis_evaluator default_request)
           (with_ignore_truncated_points default_request true) axis_cloud);
    [reflexivity | reflexivity | vm_compute; lia | reflexivity].
Defined.

Lemma float_ltb_irrefl (x : float) : Float32.ltb x x = false.
Proof.
  unfold Float32.ltb, SFltb, SFcompare.
  destruct x as [s|s| |s m e]; try destruct s; try reflexivity.
  - rewrite Z.compare_refl, Pos.compare_cont_refl. reflexivity.
  - rewrite Z.compare_refl, Pos.compare_cont_refl. reflexivity.
Qed.

Lemma samples_of_bounded (request : EvaluationRequest) (reading : option float) :
  Forall (fun v => Float32.ltb (maximum_distance request) v = false)
    (samples_of request reading).
Proof.
  unfold samples_of. destruct reading as [d|]; [|constructor].
  destruct (Float32.ltb (maximum_distance request) (Float32.abs d)) eqn:E.
  - destruct (ignore_truncated_points request); constructor; [|constructor].
    apply float_ltb_irrefl.
  - constructor; [exact E | constructor].
Qed.

(** X3.  No error sample of the pass exceeds [maximum_distance], whatever
    the distances that the map returns: the comparison
    [maximum_distance < sample] is false for every sample. *)
Theorem X3_recon_samples_bounded
    (ev : MapEvaluator) (request : EvaluationRequest) (st : ReconState) :
  recon_pass ev request = Done st ->
  Forall (fun v => Float32.ltb (maximum_distance request) v = false)
    (abserror st).
Proof.
  unfold recon_pass. destruct (gt_cloud_ptr_ ev) as [cloud|]; [|discriminate].
  generalize (Z.of_nat (length cloud) / 100). intros interval.
  assert (H : forall st0,
             Forall (fun v => Float32.ltb (maximum_distance request) v = false)
               (abserror st0) ->
             recon_loop ev request interval cloud st0 = Done st ->
             Forall (fun v => Float32.ltb (maximum_distance request) v = false)
               (abserror st)).
  { induction cloud as [|p rest IH]; intros st0 Hst0; simpl.
    - intros E; injection E as <-. exact Hst0.
    - intros E. apply obind_done in E. destruct E as [st1 [Hbody Hrest]].
      apply (IH st1); [|exact Hrest].
      unfold recon_body in Hbody. apply obind_done in Hbody.
      destruct Hbody as [reading [_ Hguard]].
      unfold progress_guard in Hguard.
      destruct (interval =? 0); [discriminate|]. injection Hguard as <-.
      cbn [abserror]. rewrite classify_abserror. cbn [abserror].
      apply Forall_app. split; [exact Hst0 | apply samples_of_bounded]. }
  apply H. constructor.
Qed.

Lemma X3_recon_samples_bounded_witness :
  exists st,
    recon_pass (axis_evaluator default_request) default_request = Done st
    /\ Forall (fun v => Float32.ltb (Float32.lit 2 10) v = false) (abserror st).
Proof.
  eexists. split; [vm_compute; reflexivity|].
  apply (X3_recon_samples_bounded (axis_evaluator default_request)
           default_request).
  vm_compute. reflexivity.
Defined.

Lemma recon_fold_all_unknown (ev : MapEvaluator) (request : EvaluationRequest)
    (cloud : list PointXYZ) :
  all_unknown ev request cloud ->
  forall st,
    0 <= total_points st -> 0 <= unknown_points st -> 0 <= count st ->
    total_points st + Z.of_nat (length cloud) < u64_modulus ->
    unknown_points st + Z.of_nat (length cloud) < u64_modulus ->
    count st + Z.of_nat (length cloud) < u64_modulus ->
    fold_left (recon_step ev request) cloud st
    = mkRecon (total_points st + Z.of_nat (length cloud))
        (unknown_points st + Z.of_nat (length cloud))
        (truncated_points st) (inliers st) (abserror st)
        (count st + Z.of_nat (length cloud)).
Proof.
  intros Hall. induction Hall as [|p rest Hp Hrest IH];
    intros st Ht Hu Hc Htl Hul Hcl.
  - simpl. rewrite !Z.add_0_r. destruct st; reflexivity.
  - simpl length in *. rewrite Nat2Z.inj_succ in *.
    cbn [fold_left].
    assert (Hstep : recon_step ev request st p
                    = mkRecon (total_points st + 1) (unknown_points st + 1)
                        (truncated_points st) (inliers st) (abserror st)
                        (count st + 1)).
    { unfold recon_step. rewrite Hp. cbn.
      rewrite !u64_incr_small by lia. reflexivity. }
    rewrite Hstep, IH by (cbn; lia). cbn. f_equal; lia.
Qed.

(** X4.  When the map observes none of the ground-truth points - in
    particular when the cloud is empty - the pass returns mean, stddev and
    RMSE 0, no truncated point and no inlier, and [unknown_points] equal to
    [total_points], the number of points.  This holds for the empty cloud
    and for clouds of at least a hundred points. *)
Theorem X4_recon_nothing_observed
    (ev : MapEvaluator) (request : EvaluationRequest) (cloud : list PointXYZ) :
  gt_cloud_ptr_ ev = Some cloud ->
  lookup_ready ev = true ->
  (length cloud = 0 \/ 100 <= length cloud)%nat ->
  Z.of_nat (length cloud) < u64_modulus ->
  all_unknown ev request cloud ->
  computeReconstructionError ev request
  = Done (mkReconSummary
            (mkStatistics Float32.zero Float32.zero Float32.zero)
            (Z.of_nat (length cloud)) (Z.of_nat (length cloud)) 0 0).
Proof.
  intros Hgt Hready Hlen Hsize Hall. unfold computeReconstructionError.
  rewrite (recon_pass_returns ev request cloud Hgt Hready Hlen). simpl obind.
  rewrite (recon_fold_all_unknown ev request cloud Hall) by (simpl; lia).
  reflexivity.
Qed.

Lemma X4_recon_nothing_observed_witness :
  computeReconstructionError
    (with_cloud (axis_evaluator default_request) unknown_cloud) default_request
  = Done (mkReconSummary
            (mkStatistics Float32.zero Float32.zero Float32.zero) 100 100 0 0)
  /\ computeReconstructionError
       (with_cloud (axis_evaluator default_request) []) default_request
     = Done (mkReconSummary
               (mkStatistics Float32.zero Float32.zero Float32.zero) 0 0 0 0).
Proof.
  split.
  - apply (X4_recon_nothing_observed
             (with_cloud (axis_evaluator default_request) unknown_cloud)
             default_request unknown_cloud);
      [reflexivity | reflexivity | right; vm_compute; lia | reflexivity |].
    unfold all_unknown, unknown_cloud. apply Forall_forall.
    intros p Hp. apply repeat_spec in Hp. subst p. reflexivity.
  - apply (X4_recon_nothing_observed
             (with_cloud (axis_evaluator default_request) [])
             default_request []);
      [reflexivity | reflexivity | left; reflexivity | reflexivity | constructor].
Defined.

(** The order of two consecutive ground-truth points does not matter to
    the counters. *)
Lemma same_counts_refl (a : ReconState) : same_counts a a.
Proof. unfold same_counts. repeat split; reflexivity. Qed.

Lemma same_counts_trans (a b c : ReconState) :
  same_counts a b -> same_counts b c -> same_counts a c.
Proof.
  intros (H1 & H2 & H3 & H4 & H5 & H6) (K1 & K2 & K3 & K4 & K5 & K6).
  unfold same_counts. repeat split; try congruence.
  eapply Permutation_trans; eassumption.
Qed.

Lemma recon_step_same_counts (ev : MapEvaluator) (request : EvaluationRequest)
    (a b : ReconState) (p : PointXYZ) :
  same_counts a b ->
  same_counts (recon_step ev request a p) (recon_step ev request b p).
Proof.
  intros (H1 & H2 & H3 & H4 & H5 & H6). unfold same_counts.
  destruct (recon_step_fields ev request a p) as (-> & -> & -> & -> & -> & ->).
  destruct (recon_step_fields ev request b p) as (-> & -> & -> & -> & -> & ->).
  rewrite H1, H2, H3, H4, H5. repeat split; try reflexivity.
  apply Permutation_app_tail. exact H6.
Qed.

Lemma recon_step_swap (ev : MapEvaluator) (request : EvaluationRequest)
    (a : ReconState) (p q : PointXYZ) :
  same_counts (recon_step ev request (recon_step ev request a p) q)
    (recon_step ev request (recon_step ev request a q) p).
Proof.
  unfold same_counts.
  destruct (recon_step_fields ev request (recon_step ev request a p) q)
    as (-> & -> & -> & -> & -> & ->).
  destruct (recon_step_fields ev request (recon_step ev request a q) p)
    as (-> & -> & -> & -> & -> & ->).
  destruct (recon_step_fields ev request a p) as (-> & -> & -> & -> & -> & ->).
  destruct (recon_step_fields ev request a q) as (-> & -> & -> & -> & -> & ->).
  split; [reflexivity|]. split.
  { destruct (reading_of ev request p), (reading_of ev request q); reflexivity. }
  split.
  { destruct (is_truncated request (reading_of ev request p)),
      (is_truncated request (reading_of ev request q)); reflexivity. }
  split.
  { destruct (reading_of ev request p) as [d|], (reading_of ev request q) as [d'|];
      try reflexivity.
    destruct (Float32.leb (Float32.abs d) (inlier_distance (request_ ev))),
      (Float32.leb (Float32.abs d') (inlier_distance (request_ ev)));
      reflexivity. }
  split; [reflexivity|].
  rewrite <- !app_assoc. apply Permutation_app_head. apply Permutation_app_comm.
Qed.

Lemma recon_fold_same_counts (ev : MapEvaluator) (request : EvaluationRequest)
    (cloud : list PointXYZ) :
  forall a b,
    same_counts a b ->
    same_counts (fold_left (recon_step ev request) cloud a)
      (fold_left (recon_step ev request) cloud b).
Proof.
  induction cloud as [|p rest IH]; intros a b Hab; simpl; [exact Hab|].
  apply IH. apply recon_step_same_counts. exact Hab.
Qed.

Lemma recon_fold_permutation (ev : MapEvaluator) (request : EvaluationRequest)
    (cloud cloud' : list PointXYZ) :
  Permutation cloud cloud' ->
  forall a,
    same_counts (fold_left (recon_step ev request) cloud a)
      (fold_left (recon_step ev request) cloud' a).
Proof.
  induction 1 as [|p l l' Hperm IH|p q l|l l' l'' H1 IH1 H2 IH2]; intros a.
  - apply same_counts_refl.
  - simpl. apply IH.
  - simpl. apply recon_fold_same_counts. apply recon_step_swap.
  - eapply same_counts_trans; [apply IH1 | apply IH2].
Qed.

(** X5.  The counters of the pass do not depend on the order of the
    ground-truth points: over the same map, two clouds that are
    permutations of each other give the same [total_points],
    [unknown_points], [truncated_points] and inlier count, and the same
    error samples up to their order. *)
Theorem X5_recon_order_independent
    (ev : MapEvaluator) (request : EvaluationRequest)
    (cloud cloud' : list PointXYZ) :
  Permutation cloud cloud' ->
  lookup_ready ev = true ->
  (100 <= length cloud)%nat ->
  exists st st',
    recon_pass (with_cloud ev cloud) request = Done st
    /\ recon_pass (with_cloud ev cloud') request = Done st'
    /\ same_counts st st'.
Proof.
  intros Hperm Hready Hlen.
  assert (Hlen' : (100 <= length cloud')%nat).
  { rewrite <- (Permutation_length Hperm). exact Hlen. }
  rewrite (recon_pass_ready (with_cloud ev cloud) request cloud eq_refl Hready Hlen).
  rewrite (recon_pass_ready (with_cloud ev cloud') request cloud' eq_refl Hready Hlen').
  eexists. eexists. split; [reflexivity|]. split; [reflexivity|].
  apply (recon_fold_permutation (with_cloud ev cloud) request cloud cloud' Hperm).
Qed.

Lemma X5_recon_order_independent_witness :
  exists st st',
    recon_pass (with_cloud (axis_evaluator default_request) axis_cloud)
      default_request = Done st
    /\ recon_pass (with_cloud (axis_evaluator default_request) reversed_axis_cloud)
         default_request = Done st'
    /\ same_counts st st'.
Proof.
  apply (X5_recon_order_independent (axis_evaluator default_request)
           default_request axis_cloud reversed_axis_cloud).
  - apply Permutation_rev.
  - reflexivity.
  - vm_compute. lia.
Defined.

(** ** The mesh error pass, as a whole *)

Lemma all_ok_app (ros_ok : nat -> bool) (first a b : nat) :
  all_ok ros_ok first (a + b)
  = all_ok ros_ok first a && all_ok ros_ok (first + a) b.
Proof.
  unfold all_ok. rewrite seq_app, forallb_app. reflexivity.
Qed.


Lemma mesh_blocks_loop_spec (tree : list Point) (request_0 : EvaluationRequest)
    (ros_ok : nat -> bool) (blocks : list MeshBlock) :
  forall calls st,
    mesh_blocks_loop tree request_0 ros_ok blocks calls st
    = if all_ok ros_ok calls (length blocks)
      then Some ((calls + length blocks)%nat,
                 fold_left (mesh_vertex tree request_0)
                   (flat_map vertices blocks) st)
      else None.
Proof.
  induction blocks as [|block rest IH]; intros calls st.
  - simpl. rewrite Nat.add_0_r. reflexivity.
  - cbn [mesh_blocks_loop length flat_map].
    change (all_ok ros_ok calls (S (length rest)))
      with (ros_ok calls && all_ok ros_ok (S calls) (length rest)).
    destruct (ros_ok calls); simpl negb; cbv iota; [|reflexivity].
    rewrite IH. simpl andb. rewrite fold_left_app.
    replace (S calls + length rest)%nat with (calls + S (length rest))%nat by lia.
    reflexivity.
Qed.

Lemma mesh_submaps_loop_spec (tree : list Point)
    (request_0 request : EvaluationRequest) (ros_ok : nat -> bool)
    (submaps : list Submap) :
  forall calls st,
    mesh_submaps_loop tree request_0 request ros_ok submaps calls st
    = if all_ok ros_ok calls (length (measured_blocks request submaps))
      then Some (fold_left (mesh_vertex tree request_0)
                   (measured_vertices request submaps) st)
      else None.
Proof.
  unfold measured_vertices.
  induction submaps as [|submap rest IH]; intros calls st.
  - reflexivity.
  - cbn [mesh_submaps_loop measured_blocks flat_map].
    destruct (skipped request submap).
    + simpl app. apply IH.
    + rewrite mesh_blocks_loop_spec, length_app, all_ok_app, flat_map_app,
        fold_left_app.
      destruct (all_ok ros_ok calls (length (mesh_blocks submap)));
        [|reflexivity].
      simpl andb. apply IH.
Qed.

Lemma knn_scan_some (q : Point) (pts : list Point) :
  forall i best, best <> None -> knn_scan q pts i best <> None.
Proof.
  induction pts as [|p rest IH]; intros i best Hbest; simpl; [exact Hbest|].
  apply IH. destruct best as [[j bd]|]; [|discriminate].
  destruct (Float32.ltb (dist_sqr q p) bd); discriminate.
Qed.

Lemma knnSearch1_none (tree : list Point) (q : Point) :
  knnSearch1 tree q = None <-> tree = [].
Proof.
  unfold knnSearch1. split.
  - destruct tree as [|p rest]; [reflexivity|]. simpl. intros H.
    exfalso. revert H. apply knn_scan_some. discriminate.
  - intros ->. reflexivity.
Qed.

Lemma mesh_vertex_accounted (tree : list Point) (request_0 : EvaluationRequest)
    (st : MeshState) (point : Point) :
  mesh_accounted st ->
  Z.of_nat (length (errors st)) < u64_modulus - 1 ->
  mesh_accounted (mesh_vertex tree request_0 st point)
  /\ length (errors (mesh_vertex tree request_0 st point))
     = (if match tree with [] => true | _ => false end
        then length (errors st) else S (length (errors st))).
Proof.
  intros (Hi & Ho & Hsum) Hbound. unfold mesh_vertex.
  destruct (knnSearch1 tree point) as [[ret_index d]|] eqn:E.
  - assert (Htree : tree <> []).
    { intros Hnil. subst tree. discriminate E. }
    destruct tree as [|t0 tree']; [contradiction|].
    destruct (Float32.leb _ _); unfold mesh_accounted; cbn;
      rewrite length_app; cbn; rewrite u64_incr_small by lia;
      (split; [|lia]); lia.
  - apply knnSearch1_none in E. subst tree. split; [|reflexivity].
    unfold mesh_accounted. auto.
Qed.

Lemma mesh_fold_accounted (tree : list Point) (request_0 : EvaluationRequest)
    (points : list Point) :
  forall st,
    mesh_accounted st ->
    Z.of_nat (length (errors st)) + Z.of_nat (length points) < u64_modulus ->
    mesh_accounted (fold_left (mesh_vertex tree request_0) points st)
    /\ length (errors (fold_left (mesh_vertex tree request_0) points st))
       = (if match tree with [] => true | _ => false end
          then length (errors st)
          else (length (errors st) + length points)%nat).
Proof.
  induction points as [|point rest IH]; intros st Hst Hbound.
  - simpl. split; [exact Hst|]. destruct tree; lia.
  - cbn [fold_left]. simpl length in Hbound. rewrite Nat2Z.inj_succ in Hbound.
    destruct (mesh_vertex_accounted tree request_0 st point Hst ltac:(lia))
      as [Hst' Hlen'].
    destruct (IH (mesh_vertex tree request_0 st point) Hst') as [Hfin Hlen].
    { rewrite Hlen'. destruct tree; lia. }
    split; [exact Hfin|]. rewrite Hlen, Hlen'. simpl length.
    destruct tree; lia.
Qed.

(** X6.  When the mesh error pass returns a summary, every vertex of the
    submaps it does not leave out has been measured once against a
    non-empty ground-truth index, and is counted either as an inlier or as
    an outlier: the two counts add up to the number of those vertices.
    With an empty index no vertex is measured and both counts are 0. *)
Theorem X6_mesh_vertex_accounting
    (ev : MapEvaluator) (request : EvaluationRequest) (ros_ok : nat -> bool)
    (collection : SubmapCollection) (st : MeshState) :
  submaps_ ev = Some collection ->
  Z.of_nat (length (measured_vertices request collection)) < u64_modulus ->
  mesh_pass ev request ros_ok = Done (Some st) ->
  0 <= mesh_inliers st
  /\ 0 <= mesh_outliers st
  /\ mesh_inliers st + mesh_outliers st = Z.of_nat (length (errors st))
  /\ (kdtree_data_ ev <> [] ->
      length (errors st) = length (measured_vertices request collection))
  /\ (kdtree_data_ ev = [] -> st = mesh_init).
Proof.
  intros Hsubmaps Hbound Hpass. unfold mesh_pass in Hpass.
  rewrite Hsubmaps, mesh_submaps_loop_spec in Hpass.
  destruct (all_ok ros_ok 0 (length (measured_blocks request collection)));
    [|discriminate].
  injection Hpass as <-.
  destruct (mesh_fold_accounted (kdtree_data_ ev) (request_ ev)
              (measured_vertices request collection) mesh_init)
    as [(Hi & Ho & Hsum) Hlen].
  { unfold mesh_accounted. simpl. lia. }
  { simpl. lia. }
  split; [exact Hi|]. split; [exact Ho|]. split; [exact Hsum|]. split.
  - intros Htree. rewrite Hlen. destruct (kdtree_data_ ev); [contradiction|].
    reflexivity.
  - intros Htree. rewrite Htree in *. clear Hlen Hi Ho Hsum.
    induction (measured_vertices request collection) as [|point rest IH];
      [reflexivity|].
    cbn [fold_left]. apply IH. simpl in Hbound |- *. lia.
Qed.

Lemma X6_mesh_vertex_accounting_witness :
  exists st,
    mesh_pass two_vertex_evaluator default_request (fun _ => true)
    = Done (Some st)
    /\ mesh_inliers st + mesh_outliers st = 2
    /\ length (errors st) = 2%nat.
Proof.
  exists (fold_left (mesh_vertex [on_x_axis 0 1] default_request)
            [on_x_axis 0 1; on_x_axis 1 10] mesh_init).
  destruct (X6_mesh_vertex_accounting two_vertex_evaluator default_request
              (fun _ => true) [two_vertex_submap]
              (fold_left (mesh_vertex [on_x_axis 0 1] default_request)
                 [on_x_axis 0 1; on_x_axis 1 10] mesh_init))
    as (_ & _ & Hsum & Hlen & _); [reflexivity | reflexivity | reflexivity |].
  split; [reflexivity|].
  rewrite Hsum, Hlen by discriminate. split; reflexivity.
Defined.



Lemma measured_blocks_filter (request : EvaluationRequest) (submaps : list Submap) :
  measured_blocks request
    (filter (fun submap => negb (skipped request submap)) submaps)
  = measured_blocks request submaps.
Proof.
  unfold measured_blocks. induction submaps as [|submap rest IH]; [reflexivity|].
  simpl. destruct (skipped request submap) eqn:E; simpl.
  - exact IH.
  - rewrite E, IH. reflexivity.
Qed.

(** X8.  The submaps that the mesh error pass leaves out - free space,
    absent and unobserved ones, unless the map is a single TSDF - have no
    influence on its result: the pass over a collection and the pass over
    the collection without them return the same, and for a single-TSDF
    request no submap is left out. *)
Theorem X8_mesh_skipped_submaps
    (ev : MapEvaluator) (request : EvaluationRequest) (ros_ok : nat -> bool)
    (collection : SubmapCollection) :
  computeMeshError (with_submaps ev (Some collection)) request ros_ok
  = computeMeshError
      (with_submaps ev
         (Some (filter (fun submap => negb (skipped request submap)) collection)))
      request ros_ok
  /\ (is_single_tsdf request = true ->
      measured_blocks request collection = flat_map mesh_blocks collection).
Proof.
  split.
  - unfold computeMeshError, mesh_pass. cbn [submaps_ with_submaps with_map].
    rewrite !mesh_submaps_loop_spec. unfold measured_vertices.
    rewrite measured_blocks_filter. reflexivity.
  - intros Hsingle. unfold measured_blocks, skipped. rewrite Hsingle.
    reflexivity.
Qed.

Lemma X8_mesh_skipped_submaps_witness :
  measured_blocks (with_ignore_truncated_points single_tsdf_request false)
    [free_space_submap; two_vertex_submap]
  = mesh_blocks free_space_submap ++ mesh_blocks two_vertex_submap.
Proof.
  rewrite (proj2 (X8_mesh_skipped_submaps mixed_evaluator
                    (with_ignore_truncated_points single_tsdf_request false)
                    (fun _ => true) [free_space_submap; two_vertex_submap])
             eq_refl).
  reflexivity.
Defined.

(** ** The labeled point cloud export, as a whole *)

(** X9.  Unless the labels are remapped through a label map file, no
    point of the exported labeled cloud has a label above 50000. *)
Theorem X9_exported_labels_bounded
    (w : World) (ev : MapEvaluator) (request : EvaluationRequest)
    (file : string) (cloud : list PointXYZRGBL) :
  exportLabeledPointcloud w ev request = Done (file, cloud) ->
  is_single_tsdf (request_ ev) = false
  \/ read_label_rows w
       (target_directory_ ev ++ "/" ++ target_map_name_ ev ++ ".csv")%string
     = None ->
  Forall (fun p => 0 <= label p <= 50000) cloud.
Proof.
  unfold exportLabeledPointcloud.
  destruct (submaps_ ev) as [collection|]; [|discriminate].
  destruct (export_submaps collection []) as [exported|f] eqn:E; [|discriminate].
  simpl obind. intros Hdone Hplain.
  assert (Hb : Forall label_bounded exported).
  { eapply export_submaps_bounded; [|exact E]. constructor. }
  assert (Hcloud : cloud = exported).
  { destruct Hplain as [Hsingle|Hfile].
    - rewrite Hsingle in Hdone. injection Hdone as _ <-. reflexivity.
    - rewrite Hfile in Hdone.
      destruct (is_single_tsdf (request_ ev)); injection Hdone as _ <-;
        reflexivity. }
  subst cloud. exact Hb.
Qed.

Lemma X9_exported_labels_bounded_witness :
  exists file cloud,
    exportLabeledPointcloud bare_world unlabeled_evaluator default_request
    = Done (file, cloud)
    /\ Forall (fun p => 0 <= label p <= 50000) cloud.
Proof.
  eexists. eexists. split; [vm_compute; reflexivity|].
  eapply (X9_exported_labels_bounded bare_world unlabeled_evaluator
            default_request).
  - vm_compute. reflexivity.
  - left. reflexivity.
Defined.

Lemma export_vertices_outcome (submap : Submap)
    (class_block0 : option (Point -> ClassVoxel)) (vs : list Point) :
  forall (cs : list Color) (cloud : list PointXYZRGBL),
    if (length vs <=? length cs)%nat
    then returns (export_vertices submap class_block0 vs cs cloud)
    else export_vertices submap class_block0 vs cs cloud = Trap OutOfRange.
Proof.
  induction vs as [|vertex vs' IH]; intros cs cloud.
  - simpl. eexists. reflexivity.
  - destruct cs as [|color cs']; [reflexivity|].
    cbn [export_vertices length]. apply IH.
Qed.

Lemma export_blocks_outcome (submap : Submap) (blocks : list MeshBlock) :
  forall cloud : list PointXYZRGBL,
    if forallb colored blocks
    then returns (export_blocks submap blocks cloud)
    else export_blocks submap blocks cloud = Trap OutOfRange.
Proof.
  induction blocks as [|block rest IH]; intros cloud.
  - simpl. eexists. reflexivity.
  - cbn [export_blocks forallb]. unfold colored at 1.
    generalize (export_vertices_outcome submap (class_block block)
                  (vertices block) (colors block) cloud).
    destruct (length (vertices block) <=? length (colors block))%nat.
    + intros [cloud' ->]. simpl. apply IH.
    + intros ->. reflexivity.
Qed.

Lemma export_submaps_outcome (submaps : list Submap) :
  forall cloud : list PointXYZRGBL,
    if exportable submaps
    then returns (export_submaps submaps cloud)
    else export_submaps submaps cloud = Trap OutOfRange.
Proof.
  unfold exportable.
  induction submaps as [|submap rest IH]; intros cloud.
  - simpl. eexists. reflexivity.
  - cbn [export_submaps forallb].
    destruct (hasClassLayer submap); simpl negb; cbv iota.
    + simpl orb. generalize (export_blocks_outcome submap (mesh_blocks submap) cloud).
      destruct (forallb colored (mesh_blocks submap)).
      * intros [cloud' ->]. simpl. apply IH.
      * intros ->. reflexivity.
    + simpl orb. simpl andb. apply IH.
Qed.

(** X10.  The labeled export reads a colour for every vertex it visits.
    It returns exactly when every mesh block of every submap with a class
    layer has at least as many colours as vertices; if one block has
    fewer, the export ends in the out-of-range exception of [colors.at],
    and no file is written. *)
Theorem X10_export_needs_colors
    (w : World) (ev : MapEvaluator) (request : EvaluationRequest)
    (collection : SubmapCollection) :
  submaps_ ev = Some collection ->
  (exportable collection = true -> returns (exportLabeledPointcloud w ev request))
  /\ (exportable collection = false ->
      exportLabeledPointcloud w ev request = Trap OutOfRange).
Proof.
  intros Hsubmaps. unfold exportLabeledPointcloud. rewrite Hsubmaps.
  generalize (export_submaps_outcome collection []).
  destruct (exportable collection).
  - intros [cloud ->]. split; [|discriminate]. intros _. simpl.
    eexists. reflexivity.
  - intros ->. split; [discriminate|]. intros _. reflexivity.
Qed.

Lemma X10_export_needs_colors_witness :
  exportLabeledPointcloud bare_world uncolored_evaluator default_request
  = Trap OutOfRange
  /\ returns (exportLabeledPointcloud bare_world unlabeled_evaluator
                default_request).
Proof.
  split.
  - apply (proj2 (X10_export_needs_colors bare_world uncolored_evaluator
                    default_request _ eq_refl)). reflexivity.
  - apply (proj1 (X10_export_needs_colors bare_world unlabeled_evaluator
                    default_request _ eq_refl)). reflexivity.
Defined.

Lemma export_vertices_unlabeled (submap : Submap) (vs : list Point) :
  forall (cs : list Color) (cloud cloud' : list PointXYZRGBL),
    export_vertices submap None vs cs cloud = Done cloud' ->
    exists added,
      cloud' = cloud ++ added
      /\ length added = length vs
      /\ Forall (fun p => label p = 0) added.
Proof.
  induction vs as [|vertex vs' IH]; intros cs cloud cloud'; simpl.
  - intros E; injection E as <-. exists []. rewrite app_nil_r.
    repeat split. constructor.
  - destruct cs as [|color cs']; [discriminate|].
    intros E. destruct (IH _ _ _ E) as (added & -> & Hlen & Hzero).
    exists (mkLabeled vertex color 0 :: added).
    rewrite <- app_assoc. split; [reflexivity|].
    split; [simpl; lia|]. constructor; [reflexivity | exact Hzero].
Qed.

Lemma export_blocks_unlabeled (submap : Submap) (blocks : list MeshBlock) :
  (forall block, In block blocks -> class_block block = None) ->
  forall cloud cloud' : list PointXYZRGBL,
    export_blocks submap blocks cloud = Done cloud' ->
    exists added,
      cloud' = cloud ++ added
      /\ length added = length (flat_map vertices blocks)
      /\ Forall (fun p => label p = 0) added.
Proof.
  induction blocks as [|block rest IH]; intros Hnone cloud cloud'; simpl.
  - intros E; injection E as <-. exists []. rewrite app_nil_r.
    repeat split. constructor.
  - intros E. apply obind_done in E. destruct E as [mid [E1 E2]].
    rewrite (Hnone block ltac:(left; reflexivity)) in E1.
    destruct (export_vertices_unlabeled _ _ _ _ _ E1) as (a1 & -> & L1 & Z1).
    destruct (IH ltac:(intros b Hb; apply Hnone; right; exact Hb) _ _ E2)
      as (a2 & -> & L2 & Z2).
    exists (a1 ++ a2). rewrite <- app_assoc. split; [reflexivity|].
    split; [rewrite !length_app; lia|].
    apply Forall_app. split; assumption.
Qed.

Lemma export_submaps_unlabeled (submaps : list Submap) :
  no_class_blocks submaps ->
  forall cloud cloud' : list PointXYZRGBL,
    export_submaps submaps cloud = Done cloud' ->
    exists added,
      cloud' = cloud ++ added
      /\ length added = length (class_layer_vertices submaps)
      /\ Forall (fun p => label p = 0) added.
Proof.
  unfold class_layer_vertices.
  induction submaps as [|submap rest IH]; intros Hnone cloud cloud'; simpl.
  - intros E; injection E as <-. exists []. rewrite app_nil_r.
    repeat split. constructor.
  - assert (Hrest : no_class_blocks rest).
    { intros s b Hs Hb. apply (Hnone s b); [right; exact Hs | exact Hb]. }
    destruct (hasClassLayer submap); simpl negb; cbv iota.
    + intros E. apply obind_done in E. destruct E as [mid [E1 E2]].
      destruct (export_blocks_unlabeled submap (mesh_blocks submap)
                  ltac:(intros b Hb; apply (Hnone submap b);
                        [left; reflexivity | exact Hb]) _ _ E1)
        as (a1 & -> & L1 & Z1).
      destruct (IH Hrest _ _ E2) as (a2 & -> & L2 & Z2).
      exists (a1 ++ a2). rewrite <- app_assoc. split; [reflexivity|].
      split; [rewrite !length_app; lia|].
      apply Forall_app. split; assumption.
    + intros E. destruct (IH Hrest _ _ E) as (a2 & -> & L2 & Z2).
      exists a2. repeat split; assumption.
Qed.

(** X11.  A submap without a class layer contributes no point to the
    labeled export, and a vertex whose mesh block has no block of the
    class layer under it is exported with the label 0: when no mesh block
    has a class block, the exported cloud has one point per vertex of the
    submaps with a class layer, all labeled 0 before any remapping. *)
Theorem X11_export_without_class_blocks
    (submaps : list Submap) (exported : list PointXYZRGBL) :
  no_class_blocks submaps ->
  export_submaps submaps [] = Done exported ->
  length exported = length (class_layer_vertices submaps)
  /\ Forall (fun p => label p = 0) exported.
Proof.
  intros Hnone Hexport.
  destruct (export_submaps_unlabeled submaps Hnone [] exported Hexport)
    as (added & -> & Hlen & Hzero).
  simpl. split; assumption.
Qed.

Lemma X11_export_without_class_blocks_witness :
  exists exported,
    export_submaps
      [two_vertex_submap;
       mkSubmap 0 kInstance kPersistent 1 7 true
         [mkMeshBlock [on_x_axis 0 1; on_x_axis 1 1]
            [mkColor 1 2 3; mkColor 4 5 6] None]
         (fun _ _ => None) 1] [] = Done exported
    /\ length exported = 2%nat
    /\ Forall (fun p => label p = 0) exported.
Proof.
  eexists. split; [vm_compute; reflexivity|].
  eapply (X11_export_without_class_blocks
            [two_vertex_submap;
             mkSubmap 0 kInstance kPersistent 1 7 true
               [mkMeshBlock [on_x_axis 0 1; on_x_axis 1 1]
                  [mkColor 1 2 3; mkColor 4 5 6] None]
               (fun _ _ => None) 1]).
  - intros submap block [<-|[<-|[]]] [<-|[]]; reflexivity.
  - vm_compute. reflexivity.
Defined.

Lemma read_label_map_entries (all_rows rows : list (Z * Z)) :
  (forall row, In row rows -> In row all_rows) ->
  forall (label_map : gmap Z Z),
    (forall k v, label_map !! k = Some v ->
                 k <> -1 /\ v <> -1 /\ In (k, v) all_rows) ->
    forall k v,
      fold_left
        (fun (label_map : gmap Z Z) (row : Z * Z) =>
           let (inst, cls) := row in
           if negb (inst =? -1) && negb (cls =? -1)
           then <[inst := cls]> label_map
           else label_map)
        rows label_map !! k = Some v ->
      k <> -1 /\ v <> -1 /\ In (k, v) all_rows.
Proof.
  induction rows as [|[inst cls] rest IH]; intros Hsub label_map Hmap k v; simpl.
  - apply Hmap.
  - apply IH; [intros row Hrow; apply Hsub; right; exact Hrow|].
    intros k' v'.
    destruct (inst =? -1) eqn:Ei; simpl; [apply Hmap|].
    destruct (cls =? -1) eqn:Ec; simpl; [apply Hmap|].
    apply Z.eqb_neq in Ei, Ec.
    destruct (Z.eq_dec inst k') as [<-|Hne].
    + rewrite lookup_insert_eq. intros E; injection E as <-.
      repeat split; [exact Ei | exact Ec |]. apply Hsub. left. reflexivity.
    + rewrite lookup_insert_ne by exact Hne. apply Hmap.
Qed.

Lemma read_label_map_fold_keeps (rows : list (Z * Z)) (inst : Z)
    (found : option Z) :
  (forall row, In row rows ->
     fst row = inst -> fst row = -1 \/ snd row = -1) ->
  forall label_map : gmap Z Z,
    label_map !! inst = found ->
    fold_left
      (fun (label_map : gmap Z Z) (row : Z * Z) =>
         let (inst, cls) := row in
         if negb (inst =? -1) && negb (cls =? -1)
         then <[inst := cls]> label_map
         else label_map)
      rows label_map !! inst = found.
Proof.
  induction rows as [|[i c] rest IH]; intros Hrows label_map Hfound; simpl.
  - exact Hfound.
  - apply IH; [intros row Hrow; apply Hrows; right; exact Hrow|].
    destruct (i =? -1) eqn:Ei; simpl; [exact Hfound|].
    destruct (c =? -1) eqn:Ec; simpl; [exact Hfound|].
    apply Z.eqb_neq in Ei, Ec.
    assert (Hi : i <> inst).
    { intros ->. destruct (Hrows (inst, c)) as [H|H];
        [left; reflexivity | reflexivity | |]; simpl in H; contradiction. }
    rewrite lookup_insert_ne by exact Hi. exact Hfound.
Qed.

(** X12.  The table read from the label map file never holds the value -1,
    neither as an [InstanceID] nor as a [ClassID], and every entry of the
    table is a row of the file.  A row with a -1 changes nothing: the table
    gives to an [InstanceID] the [ClassID] of its last row without a -1,
    whatever rows with a -1 follow, it has no entry for an [InstanceID]
    without such a row, and appending a row with a -1 leaves the table as
    it is. *)
Theorem X12_label_table_entries (rows : list (Z * Z)) :
  (forall k v, read_label_map rows !! k = Some v ->
               k <> -1 /\ v <> -1 /\ In (k, v) rows)
  /\ (forall inst cls later,
        inst <> -1 -> cls <> -1 ->
        (forall row, In row later -> fst row = inst -> snd row = -1) ->
        read_label_map (rows ++ (inst, cls) :: later) !! inst = Some cls)
  /\ (forall inst,
        (forall row, In row rows ->
           fst row = inst -> fst row = -1 \/ snd row = -1) ->
        read_label_map rows !! inst = None)
  /\ (forall inst cls,
        inst = -1 \/ cls = -1 ->
        read_label_map (rows ++ [(inst, cls)]) = read_label_map rows).
Proof.
  split; [|split; [|split]].
  - intros k v. unfold read_label_map.
    apply (read_label_map_entries rows rows); [auto|].
    intros k' v' H. rewrite lookup_empty in H. discriminate.
  - intros inst cls later Hinst Hcls Hlater. unfold read_label_map.
    rewrite fold_left_app. cbn [fold_left].
    destruct (inst =? -1) eqn:Ei; [apply Z.eqb_eq in Ei; contradiction|].
    destruct (cls =? -1) eqn:Ec; [apply Z.eqb_eq in Ec; contradiction|].
    simpl negb. simpl andb. cbv iota.
    apply read_label_map_fold_keeps.
    + intros row Hrow Hfst. right. apply Hlater; assumption.
    + apply lookup_insert_eq.
  - intros inst Hrows. unfold read_label_map.
    apply read_label_map_fold_keeps; [exact Hrows | apply lookup_empty].
  - intros inst cls Hinvalid. unfold read_label_map.
    rewrite fold_left_app. cbn [fold_left].
    destruct Hinvalid as [-> | ->].
    + reflexivity.
    + destruct (inst =? -1); reflexivity.
Qed.

Lemma X12_label_table_entries_witness :
  read_label_map ([(7, 3); (-1, 4)] ++ (7, 5) :: [(8, -1); (7, -1)]) !! 7
  = Some 5.
Proof.
  apply (proj1 (proj2 (X12_label_table_entries [(7, 3); (-1, 4)]))
           7 5 [(8, -1); (7, -1)]).
  - discriminate.
  - discriminate.
  - intros row [<-|[<-|[]]] Hfst; [discriminate Hfst | reflexivity].
Defined.

(** ** The coverage export, as a whole *)

Lemma int_range_in (lo hi n : Z) : In n (int_range lo hi) <-> lo <= n <= hi.
Proof.
  unfold int_range. rewrite in_map_iff. split.
  - intros [k [<- Hk]]. apply in_seq in Hk. lia.
  - intros Hn. exists (Z.to_nat (n - lo)). split; [lia|].
    apply in_seq. lia.
Qed.

Lemma int_range_length (lo hi : Z) : length (int_range lo hi) = range_size lo hi.
Proof.
  unfold int_range, range_size. rewrite length_map, length_seq. reflexivity.
Qed.

Lemma flat_map_constant_length {A B : Type} (f : A -> list B) (l : list A) (n : nat) :
  (forall a, length (f a) = n) -> length (flat_map f l) = (length l * n)%nat.
Proof.
  intros Hf. induction l as [|a rest IH]; [reflexivity|].
  simpl. rewrite length_app, Hf, IH. reflexivity.
Qed.

(** X13.  The three nested loops of the coverage export visit exactly the
    cells of the bounding box of the voxel grid, both bounds included, each
    once per index triple: the number of cells visited is the product of
    the three extents, and it is 0 when a maximum lies below its minimum. *)
Theorem X13_coverage_cells_visited (min_box max_box : Z * Z * Z) :
  (forall cell, In cell (grid_cells min_box max_box)
                <-> in_box min_box max_box cell)
  /\ length (grid_cells min_box max_box)
     = (range_size (fst (fst min_box)) (fst (fst max_box))
        * (range_size (snd (fst min_box)) (snd (fst max_box))
           * range_size (snd min_box) (snd max_box)))%nat.
Proof.
  destruct min_box as [[x0 y0] z0], max_box as [[x1 y1] z1]. split.
  - intros [[i j] k]. unfold grid_cells, in_box.
    rewrite in_flat_map. split.
    + intros [i' [Hi H]]. apply in_flat_map in H. destruct H as [j' [Hj H]].
      apply in_map_iff in H. destruct H as [k' [E Hk]].
      injection E as <- <- <-.
      apply int_range_in in Hi, Hj, Hk. auto.
    + intros (Hi & Hj & Hk). exists i. split; [apply int_range_in; exact Hi|].
      apply in_flat_map. exists j. split; [apply int_range_in; exact Hj|].
      apply in_map_iff. exists k. split; [reflexivity|].
      apply int_range_in; exact Hk.
  - unfold grid_cells. cbn [fst snd].
    rewrite (flat_map_constant_length _ _
               (range_size y0 y1 * range_size z0 z1)).
    + rewrite int_range_length. reflexivity.
    + intros i.
      rewrite (flat_map_constant_length _ _ (range_size z0 z1)).
      * rewrite int_range_length. reflexivity.
      * intros j. rewrite length_map. apply int_range_length.
Qed.

Lemma coverage_cell_unresolved (grid : VoxelGrid) (filtered : list PointXYZ)
    (planning : option PlanningInterface) (cell : Z * Z * Z) :
  representative grid filtered cell = None ->
  coverage_cell grid filtered planning cell = Trap OutOfRange.
Proof.
  unfold representative, coverage_cell, cloud_at.
  destruct (getCentroidIndexAt grid cell =? -1); [discriminate|].
  destruct ((0 <=? getCentroidIndexAt grid cell)
            && (getCentroidIndexAt grid cell <? Z.of_nat (length filtered)));
    [|reflexivity].
  intros ->. reflexivity.
Qed.

Lemma coverage_loop_unresolved (grid : VoxelGrid) (filtered : list PointXYZ)
    (planning : PlanningInterface) (cells : list (Z * Z * Z)) :
  (exists cell, In cell cells /\ representative grid filtered cell = None) ->
  forall coverage_cloud,
    coverage_loop grid filtered (Some planning) cells coverage_cloud
    = Trap OutOfRange.
Proof.
  induction cells as [|cell rest IH]; intros [bad [Hin Hbad]] coverage_cloud.
  - contradiction.
  - cbn [coverage_loop].
    destruct (representative grid filtered cell) as [point|] eqn:E.
    + rewrite coverage_cell_observed_points by congruence. simpl obind.
      apply IH. destruct Hin as [<-|Hin]; [congruence|].
      exists bad. split; assumption.
    + rewrite coverage_cell_unresolved by exact E. reflexivity.
Qed.

Lemma observed_points_spec (grid : VoxelGrid) (filtered : list PointXYZ)
    (planning : PlanningInterface) (cell : Z * Z * Z) (p : PointXYZ) :
  In p (observed_points grid filtered planning cell)
  <-> representative grid filtered cell = Some p
      /\ isObserved planning (mkPoint (px p) (py p) (pz p)) = true.
Proof.
  unfold observed_points.
  destruct (representative grid filtered cell) as [point|].
  - destruct (isObserved planning (mkPoint (px point) (py point) (pz point)))
      eqn:E; simpl.
    + split.
      * intros [<-|[]]. split; [reflexivity | exact E].
      * intros [H _]. injection H as <-. left. reflexivity.
    + split; [contradiction|]. intros [H Ho]. injection H as <-. congruence.
  - simpl. split; [contradiction|]. intros [H _]. discriminate.
Qed.

Lemma observed_points_length (grid : VoxelGrid) (filtered : list PointXYZ)
    (planning : PlanningInterface) (cell : Z * Z * Z) :
  (length (observed_points grid filtered planning cell) <= 1)%nat.
Proof.
  unfold observed_points.
  destruct (representative grid filtered cell) as [point|]; [|simpl; lia].
  destruct (isObserved planning _); simpl; lia.
Qed.

(** X14.  With the map loaded, the cell loop of the coverage export
    returns exactly when every cell it visits is empty (index -1) or has a
    centroid index inside the filtered cloud; an index outside ends it in
    the out-of-range exception of [at].  When it returns, the coverage
    cloud holds at most one point per cell, and a point is in it exactly
    when it is the representative point of a visited cell and the map
    marks it as observed. *)
Theorem X14_coverage_cloud
    (grid : VoxelGrid) (filtered : list PointXYZ) (planning : PlanningInterface)
    (cells : list (Z * Z * Z)) :
  ((exists cell, In cell cells /\ representative grid filtered cell = None) ->
   coverage_loop grid filtered (Some planning) cells [] = Trap OutOfRange)
  /\ ((forall cell, In cell cells -> representative grid filtered cell <> None) ->
      exists coverage_cloud,
        coverage_loop grid filtered (Some planning) cells [] = Done coverage_cloud
        /\ (length coverage_cloud <= length cells)%nat
        /\ forall p,
             In p coverage_cloud
             <-> exists cell,
                   In cell cells
                   /\ representative grid filtered cell = Some p
                   /\ isObserved planning (mkPoint (px p) (py p) (pz p)) = true).
Proof.
  split.
  - intros Hbad. apply coverage_loop_unresolved. exact Hbad.
  - intros Hall. rewrite coverage_loop_observed_points by exact Hall.
    eexists. split; [reflexivity|]. simpl app. split.
    + clear Hall. induction cells as [|cell rest IH]; [simpl; lia|].
      simpl. rewrite length_app.
      generalize (observed_points_length grid filtered planning cell). lia.
    + intros p. rewrite in_flat_map. split.
      * intros [cell [Hin Hp]]. exists cell. split; [exact Hin|].
        apply observed_points_spec. exact Hp.
      * intros [cell [Hin Hp]]. exists cell. split; [exact Hin|].
        apply observed_points_spec. exact Hp.
Qed.

Lemma X14_coverage_cloud_witness :
  coverage_loop stale_grid [on_x_axis 1 100] (Some halfspace_planning)
    (grid_cells (0, 0, 0) (0, 0, 0)) [] = Trap OutOfRange
  /\ exists coverage_cloud,
       coverage_loop two_cell_grid [on_x_axis 1 100] (Some halfspace_planning)
         (grid_cells (0, 0, 0) (1, 0, 0)) [] = Done coverage_cloud
       /\ (length coverage_cloud <= 2)%nat.
Proof.
  split.
  - apply (proj1 (X14_coverage_cloud stale_grid [on_x_axis 1 100]
                    halfspace_planning (grid_cells (0, 0, 0) (0, 0, 0)))).
    exists (0, 0, 0). split; [left; reflexivity | reflexivity].
  - destruct (proj2 (X14_coverage_cloud two_cell_grid [on_x_axis 1 100]
                       halfspace_planning (grid_cells (0, 0, 0) (1, 0, 0))))
      as [cloud [Hloop [Hlen _]]].
    + intros cell [<-|[<-|[]]]; discriminate.
    + exists cloud. split; [exact Hloop | exact Hlen].
Defined.

Lemma coverage_returns_cached (w : World) (ev ev2 : MapEvaluator)
    (request : EvaluationRequest) (file : string) (cloud : list PointXYZ) :
  exportCoveragePointcloud w ev request = Done (ev2, file, cloud) ->
  exists gt grid filtered,
    gt_cloud_ptr_ ev2 = Some gt
    /\ gt_voxel_grid_ptr_ ev2 = Some grid
    /\ filtered_gt_cloud_ptr_ ev2 = Some filtered
    /\ submaps_ ev2 = submaps_ ev
    /\ file = (target_directory_ ev2 ++ "/" ++ target_map_name_ ev2
               ++ ".coverage.ply")%string
    /\ coverage_loop grid filtered (new_PlanningInterface w (submaps_ ev2))
         (grid_cells (getMinBoxCoordinates grid) (getMaxBoxCoordinates grid)) []
       = Done cloud.
Proof.
  unfold exportCoveragePointcloud. intros H.
  apply obind_done in H. destruct H as [[ev1 gt] [Hgt H]].
  apply obind_done in H. destruct H as [[[ev2' grid] filtered] [Hgrid H]].
  apply obind_done in H. destruct H as [cloud' [Hloop H]].
  injection H as <- <- <-.
  assert (Hev1 : gt_cloud_ptr_ ev1 = Some gt /\ submaps_ ev1 = submaps_ ev
                 /\ gt_voxel_grid_ptr_ ev1 = gt_voxel_grid_ptr_ ev
                 /\ filtered_gt_cloud_ptr_ ev1 = filtered_gt_cloud_ptr_ ev).
  { unfold coverage_ground_truth in Hgt.
    destruct (gt_cloud_ptr_ ev) as [c|] eqn:E.
    - injection Hgt as <- <-. auto.
    - destruct (loadPLYFile w _) as [code c].
      destruct (code =? -1); [discriminate|]. injection Hgt as <- <-.
      repeat split; reflexivity. }
  destruct Hev1 as (Hg1 & Hs1 & Hv1 & Hf1).
  unfold coverage_voxel_grid in Hgrid. cbn [fst snd] in Hgrid.
  destruct (gt_voxel_grid_ptr_ ev1) as [g|] eqn:Eg.
  - destruct (filtered_gt_cloud_ptr_ ev1) as [f|] eqn:Ef; [|discriminate].
    injection Hgrid as <- <- <-.
    exists gt, g, f. repeat split; solve [assumption | reflexivity].
  - destruct (voxel_grid_filter w gt kCoverageGridVoxelSize) as [g f].
    injection Hgrid as <- <- <-.
    exists gt, g, f. repeat split; solve [assumption | reflexivity].
Qed.

(** X15.  The coverage export loads the ground truth and builds the voxel
    grid once: after an export has returned, the evaluator holds both, and
    a later export over the same map returns the same cloud without
    loading or filtering anything - in particular it cannot end at the
    fatal log entry, whatever has become of the ground-truth file. *)
Theorem X15_coverage_grid_cached
    (w w' : World) (ev ev2 : MapEvaluator) (request request' : EvaluationRequest)
    (file : string) (cloud : list PointXYZ) :
  exportCoveragePointcloud w ev request = Done (ev2, file, cloud) ->
  new_PlanningInterface w' (submaps_ ev2) = new_PlanningInterface w (submaps_ ev2) ->
  gt_cloud_ptr_ ev2 <> None
  /\ gt_voxel_grid_ptr_ ev2 <> None
  /\ exportCoveragePointcloud w' ev2 request' = Done (ev2, file, cloud).
Proof.
  intros Hexport Hplanning.
  destruct (coverage_returns_cached w ev ev2 request file cloud Hexport)
    as (gt & grid & filtered & Hgt & Hgrid & Hfiltered & _ & Hfile & Hloop).
  split; [congruence|]. split; [congruence|].
  unfold exportCoveragePointcloud, coverage_ground_truth. rewrite Hgt.
  simpl obind. unfold coverage_voxel_grid. cbn [fst snd].
  rewrite Hgrid, Hfiltered. simpl obind. rewrite Hplanning, Hloop.
  simpl obind. rewrite Hfile. reflexivity.
Qed.

Lemma X15_coverage_grid_cached_witness :
  exists ev2 file cloud,
    exportCoveragePointcloud grid_world service_evaluator coverage_request
    = Done (ev2, file, cloud)
    /\ exportCoveragePointcloud bare_world ev2 coverage_request
       = Done (ev2, file, cloud).
Proof.
  eexists. eexists. eexists. split; [vm_compute; reflexivity|].
  eapply (proj2 (proj2 (X15_coverage_grid_cached grid_world bare_world
                          service_evaluator _ coverage_request coverage_request
                          _ _ _ _))).
  Unshelve. all: try reflexivity.
Defined.

(** ** Paths, as a whole *)




Lemma last_index_absent (c : ascii) (s : string) :
  contains c s = false ->
  forall i found, last_index c s i found = found.
Proof.
  induction s as [|a rest IH]; intros Hno i found; simpl; [reflexivity|].
  simpl in Hno. apply orb_false_iff in Hno. destruct Hno as [Ha Hrest].
  rewrite Ha. apply IH. exact Hrest.
Qed.



Lemma find_last_of_absent (c : ascii) (s : string) :
  contains c s = false -> find_last_of s c = npos.
Proof. intros Hno. unfold find_last_of. apply last_index_absent. exact Hno. Qed.













(** ** [evaluate], as a whole *)

Lemma obind_trap {A B : Type} (m : outcome A) (k : A -> outcome B) (f : fault) :
  obind m k = Trap f ->
  m = Trap f \/ exists a, m = Done a /\ k a = Trap f.
Proof.
  destruct m as [a|g]; simpl; intros E; [right; eauto | left; congruence].
Qed.

Lemma path_extension_without_dot (path : string) :
  contains "." path = false ->
  string_size path < npos ->
  path_extension path = Trap OutOfRange.
Proof.
  intros Hdot Hsize. unfold path_extension, substr.
  rewrite find_last_of_absent by exact Hdot.
  apply Z.ltb_lt in Hsize. rewrite Hsize. reflexivity.
Qed.

(** X18.  A map path without a dot: [find_last_of] gives [npos], which is
    past the end of the path, and [substr] throws; [evaluate] ends with
    [std::out_of_range] after the ground truth has been loaded and before
    any map is read. *)
Theorem X18_map_path_without_dot
    (w : World) (ev : MapEvaluator) (request : EvaluationRequest)
    (ros_ok : nat -> bool) :
  isValid request = true ->
  snd (load_ground_truth w ev request) = true ->
  is_empty (map_file request) = false ->
  contains "." (map_file request) = false ->
  string_size (map_file request) < npos ->
  evaluate w ev request ros_ok = Trap OutOfRange.
Proof.
  intros Hvalid Hgt Hfile Hdot Hsize. unfold evaluate. rewrite Hvalid.
  destruct (load_ground_truth w ev request) as [ev1 goes_on].
  simpl in Hgt. subst goes_on. simpl negb. cbv iota.
  unfold load_map. rewrite Hfile. simpl negb. cbv iota.
  rewrite path_extension_without_dot by assumption. reflexivity.
Qed.

Lemma X18_map_path_without_dot_witness :
  evaluate small_world fresh_evaluator no_extension_request (fun _ => true)
  = Trap OutOfRange.
Proof.
  apply (X18_map_path_without_dot small_world fresh_evaluator
           no_extension_request (fun _ => true)); reflexivity.
Defined.

Lemma color_blocks_loop_spec (ros_ok : nat -> bool) (blocks : nat) :
  forall calls,
    color_blocks_loop ros_ok blocks calls
    = if all_ok ros_ok calls blocks then Some (calls + blocks)%nat else None.
Proof.
  induction blocks as [|rest IH]; intros calls.
  - simpl. rewrite Nat.add_0_r. reflexivity.
  - cbn [color_blocks_loop].
    change (all_ok ros_ok calls (S rest))
      with (ros_ok calls && all_ok ros_ok (S calls) rest).
    destruct (ros_ok calls); simpl negb; cbv iota; [|reflexivity].
    rewrite IH. simpl andb.
    replace (S calls + rest)%nat with (calls + S rest)%nat by lia.
    reflexivity.
Qed.

Lemma color_submaps_loop_spec (ros_ok : nat -> bool) (submaps : list Submap) :
  forall calls,
    color_submaps_loop ros_ok submaps calls
    = if all_ok ros_ok calls (tsdf_blocks_of submaps)
      then Some (calls + tsdf_blocks_of submaps)%nat else None.
Proof.
  induction submaps as [|submap rest IH]; intros calls.
  - simpl. rewrite Nat.add_0_r. reflexivity.
  - cbn [color_submaps_loop].
    change (tsdf_blocks_of (submap :: rest))
      with (tsdf_block_count submap + tsdf_blocks_of rest)%nat.
    rewrite all_ok_app, color_blocks_loop_spec.
    destruct (all_ok ros_ok calls (tsdf_block_count submap)); [|reflexivity].
    rewrite IH. simpl andb.
    destruct (all_ok ros_ok (calls + tsdf_block_count submap)
                (tsdf_blocks_of rest)); [|reflexivity].
    rewrite Nat.add_assoc. reflexivity.
Qed.

(** The colouring stores the map exactly when it colours by the mesh
    distance or [ros::ok()] holds before every block of the submaps it
    keeps; these submaps are what it leaves in the evaluator. *)
Lemma visualizeReconstructionError_saved (ev ev2 : MapEvaluator)
    (request : EvaluationRequest) (ros_ok : nat -> bool) (file : option string) :
  visualizeReconstructionError ev request ros_ok = Done (ev2, file) ->
  exists collection,
    submaps_ ev = Some collection
    /\ submaps_ ev2 = Some (kept_submaps request collection)
    /\ was_saved file
       = color_by_mesh_distance request
         || all_ok ros_ok 0 (tsdf_blocks_of (kept_submaps request collection)).
Proof.
  unfold visualizeReconstructionError.
  destruct (gt_cloud_ptr_ ev) as [cloud|]; [|discriminate].
  cbn [with_kdtree submaps_].
  destruct (submaps_ ev) as [collection|]; [|discriminate].
  intros H. cbv zeta in H.
  exists collection. split; [reflexivity|]. unfold kept_submaps.
  destruct (color_by_mesh_distance request).
  - injection H as <- <-. split; reflexivity.
  - rewrite color_submaps_loop_spec in H. simpl orb. revert H.
    destruct (all_ok ros_ok 0 _); intros H; injection H as <- <-;
      split; reflexivity.
Qed.

Lemma evaluate_outputs_kinds (w : World) (ev ev' : MapEvaluator)
    (request : EvaluationRequest) (ros_ok : nat -> bool) (result : bool)
    (artifacts : list Artifact) :
  evaluate_outputs w ev request ros_ok = Done (result, ev', artifacts) ->
  if result then
    exists saved : bool,
      map output_kind artifacts = outputs_of request saved
      /\ (compute_coloring request = true ->
          exists collection,
            submaps_ ev = Some collection
            /\ submaps_ ev' = Some (kept_submaps request collection)
            /\ saved
               = color_by_mesh_distance request
                 || all_ok ros_ok 0
                      (tsdf_blocks_of (kept_submaps request collection)))
  else artifacts = [].
Proof.
  unfold evaluate_outputs, outputs_of.
  destruct (evaluate_flag request && negb (open_output_file w _)).
  - intros H. injection H as <- <- <-. reflexivity.
  - intros H.
    apply obind_done in H. destruct H as [written [Hwritten H]].
    apply obind_done in H. destruct H as [meshed [Hmeshed H]].
    apply obind_done in H. destruct H as [labeled [Hlabeled H]].
    apply obind_done in H. destruct H as [colored [Hcolored H]].
    injection H as <- <- <-.
    assert (Hw : map output_kind written
                 = if evaluate_flag request then [ErrorRow] else []).
    { destruct (evaluate_flag request).
      - apply obind_done in Hwritten. destruct Hwritten as [row [_ Hrow]].
        injection Hrow as <-. reflexivity.
      - injection Hwritten as <-. reflexivity. }
    assert (Hm : map output_kind meshed
                 = if export_mesh request then [MergedMesh] else []).
    { destruct (export_mesh request).
      - apply obind_done in Hmeshed. destruct Hmeshed as [file [_ Hfile]].
        injection Hfile as <-. reflexivity.
      - injection Hmeshed as <-. reflexivity. }
    assert (Hl : map output_kind labeled
                 = if export_labeled_pointcloud request then [LabeledCloud]
                   else []).
    { destruct (export_labeled_pointcloud request).
      - apply obind_done in Hlabeled. destruct Hlabeled as [exported [_ Hx]].
        injection Hx as <-. reflexivity.
      - injection Hlabeled as <-. reflexivity. }
    rewrite !map_app, Hw, Hm, Hl.
    destruct (compute_coloring request).
    + apply obind_done in Hcolored.
      destruct Hcolored as [[ev2 file] [Hvisualized Hx]].
      injection Hx as <-. cbn [fst snd].
      destruct (visualizeReconstructionError_saved ev ev2 request ros_ok file
                  Hvisualized) as [collection [Hs [Hs2 Hsaved]]].
      exists (was_saved file). split.
      * destruct file; destruct (visualize request); reflexivity.
      * intros _. exists collection. repeat split; assumption.
    + injection Hcolored as <-. exists false. split.
      * destruct (visualize request); reflexivity.
      * discriminate.
Qed.

Lemma outputs_of_no_coverage (request : EvaluationRequest) (saved : bool)
    (artifacts : list Artifact) :
  map output_kind artifacts = outputs_of request saved ->
  forallb (fun a => negb (is_coverage a)) artifacts = true.
Proof.
  intros Hkinds. apply forallb_forall. intros a Hin.
  apply (in_map output_kind) in Hin. rewrite Hkinds in Hin.
  destruct a; try reflexivity. exfalso. unfold outputs_of in Hin.
  cbn [output_kind] in Hin.
  repeat (apply in_app_or in Hin; destruct Hin as [Hin|Hin]);
    repeat match goal with
           | H : In _ (if ?b then _ else _) |- _ => destruct b
           end;
    simpl in Hin; try contradiction;
    destruct Hin as [Hin|[]]; discriminate Hin.
Qed.

Lemma evaluate_cases (w : World) (ev ev' : MapEvaluator)
    (request : EvaluationRequest) (ros_ok : nat -> bool) (result : bool)
    (artifacts : list Artifact) :
  evaluate w ev request ros_ok = Done (result, ev', artifacts) ->
  (result = false /\ artifacts = [])
  \/ (isValid request = true
      /\ exists ev2, (submaps_ ev2 <> None \/ use_voxblox_ ev2 = true)
                     /\ evaluate_outputs w ev2 request ros_ok
                        = Done (result, ev', artifacts)).
Proof.
  unfold evaluate.
  destruct (isValid request); simpl negb; cbv iota;
    [|intros H; injection H as <- <- <-; left; split; reflexivity].
  destruct (load_ground_truth w ev request) as [ev1 goes_on].
  destruct goes_on; simpl negb; cbv iota;
    [|intros H; injection H as <- <- <-; left; split; reflexivity].
  intros H. apply obind_done in H. destruct H as [[ev2 goes_on2] [Hmap H]].
  destruct goes_on2; simpl negb in H; cbv iota in H;
    [|injection H as <- <- <-; left; split; reflexivity].
  destruct (submaps_ ev2) as [collection|] eqn:Es.
  - right. split; [reflexivity|]. exists ev2. split; [|exact H].
    left. congruence.
  - destruct (use_voxblox_ ev2) eqn:Ev.
    + right. split; [reflexivity|]. exists ev2. split; [|exact H].
      right. exact Ev.
    + injection H as <- <- <-. left. split; reflexivity.
Qed.



Lemma recon_loop_coverage_flag (ev : MapEvaluator) (request : EvaluationRequest)
    (b : bool) (interval : Z) (cloud : list PointXYZ) :
  forall st,
    recon_loop ev (with_export_coverage_pointcloud request b) interval cloud st
    = recon_loop ev request interval cloud st.
Proof.
  induction cloud as [|p rest IH]; intros st; simpl; [reflexivity|].
  change (recon_body ev (with_export_coverage_pointcloud request b) interval st p)
    with (recon_body ev request interval st p).
  destruct (recon_body ev request interval st p); simpl; [apply IH | reflexivity].
Qed.

Lemma evaluate_outputs_coverage_flag (w : World) (ev : MapEvaluator)
    (request : EvaluationRequest) (ros_ok : nat -> bool) (b : bool) :
  evaluate_outputs w ev (with_export_coverage_pointcloud request b) ros_ok
  = evaluate_outputs w ev request ros_ok.
Proof.
  assert (Hrecon : computeReconstructionError ev
                     (with_export_coverage_pointcloud request b)
                   = computeReconstructionError ev request).
  { unfold computeReconstructionError, recon_pass.
    destruct (gt_cloud_ptr_ ev) as [cloud|]; [|reflexivity].
    rewrite recon_loop_coverage_flag. reflexivity. }
  unfold evaluate_outputs. rewrite Hrecon. reflexivity.
Qed.

(** X20.  [evaluate] never reads [export_coverage_pointcloud]: two requests
    that differ in that field alone have the same run, and no run of
    [evaluate] writes a coverage cloud.  The service callback does honour
    the field. *)
Theorem X20_evaluate_ignores_coverage_flag :
  (forall (w : World) (ev : MapEvaluator) (request : EvaluationRequest)
      (ros_ok : nat -> bool) (b : bool),
      evaluate w ev (with_export_coverage_pointcloud request b) ros_ok
      = evaluate w ev request ros_ok)
  /\ (forall (w : World) (ev ev' : MapEvaluator) (request : EvaluationRequest)
        (ros_ok : nat -> bool) (result : bool) (artifacts : list Artifact),
        evaluate w ev request ros_ok = Done (result, ev', artifacts) ->
        forallb (fun a => negb (is_coverage a)) artifacts = true)
  /\ (exists (ev' : MapEvaluator) (artifacts : list Artifact),
        export_coverage_pointcloud (request_ service_evaluator) = true
        /\ evaluateMapCallback grid_world service_evaluator "run/map.panmap"
             (fun _ => true)
           = Done (true, ev', artifacts)
        /\ existsb is_coverage artifacts = true).
Proof.
  split; [|split].
  - intros w ev request ros_ok b. unfold evaluate.
    change (isValid (with_export_coverage_pointcloud request b))
      with (isValid request).
    destruct (isValid request); [|reflexivity]. simpl negb. cbv iota.
    change (load_ground_truth w ev (with_export_coverage_pointcloud request b))
      with (load_ground_truth w ev request).
    destruct (load_ground_truth w ev request) as [ev1 goes_on].
    destruct goes_on; [|reflexivity]. simpl negb. cbv iota.
    change (load_map w ev1 (with_export_coverage_pointcloud request b))
      with (load_map w ev1 request).
    destruct (load_map w ev1 request) as [[ev2 goes_on2]|f]; [|reflexivity].
    simpl obind. destruct goes_on2; [|reflexivity]. simpl negb. cbv iota.
    rewrite evaluate_outputs_coverage_flag. reflexivity.
  - intros w ev ev' request ros_ok result artifacts H.
    apply evaluate_cases in H.
    destruct H as [[-> ->]|[_ [ev2 [_ H]]]]; [reflexivity|].
    apply evaluate_outputs_kinds in H. destruct result.
    + destruct H as [saved [Hkinds _]].
      exact (outputs_of_no_coverage _ _ _ Hkinds).
    + subst artifacts. reflexivity.
  - eexists. eexists. split; [reflexivity|].
    split; [vm_compute; reflexivity|]. reflexivity.
Qed.

(** ** The evaluation service *)

Lemma recon_loop_faults (ev : MapEvaluator) (request : EvaluationRequest)
    (interval : Z) (cloud : list PointXYZ) :
  lookup_ready ev = true ->
  forall st f,
    recon_loop ev request interval cloud st = Trap f -> f = ModuloByZero.
Proof.
  intros Hready.
  induction cloud as [|p rest IH]; intros st f; cbn [recon_loop];
    [discriminate|].
  intros H. apply obind_trap in H. destruct H as [H|[st' [_ H]]].
  - unfold recon_body in H.
    rewrite lookup_distance_ready in H by exact Hready. simpl obind in H.
    unfold progress_guard in H.
    destruct (interval =? 0); [congruence | discriminate].
  - exact (IH _ _ H).
Qed.

Lemma computeReconstructionError_faults (ev : MapEvaluator)
    (request : EvaluationRequest) (f : fault) :
  gt_cloud_ptr_ ev <> None ->
  lookup_ready ev = true ->
  computeReconstructionError ev request = Trap f -> f = ModuloByZero.
Proof.
  intros Hgt Hready H. unfold computeReconstructionError, recon_pass in H.
  destruct (gt_cloud_ptr_ ev) as [cloud|]; [|contradiction Hgt; reflexivity].
  apply obind_trap in H. destruct H as [H|[st [_ H]]]; [|discriminate].
  exact (recon_loop_faults ev request _ cloud Hready _ _ H).
Qed.

Lemma computeMeshError_returns (ev : MapEvaluator) (request : EvaluationRequest)
    (ros_ok : nat -> bool) :
  submaps_ ev <> None -> returns (computeMeshError ev request ros_ok).
Proof.
  intros Hs. unfold computeMeshError, mesh_pass.
  destruct (submaps_ ev); [|contradiction Hs; reflexivity].
  simpl. eexists. reflexivity.
Qed.

Lemma exportLabeledPointcloud_faults (w : World) (ev : MapEvaluator)
    (request : EvaluationRequest) (f : fault) :
  submaps_ ev <> None ->
  exportLabeledPointcloud w ev request = Trap f -> f = OutOfRange.
Proof.
  intros Hs H. unfold exportLabeledPointcloud in H.
  destruct (submaps_ ev) as [collection|]; [|contradiction Hs; reflexivity].
  apply obind_trap in H. destruct H as [H|[cloud [_ H]]]; [|discriminate].
  generalize (export_submaps_outcome collection []).
  destruct (exportable collection).
  - intros [cloud E]. congruence.
  - intros E. congruence.
Qed.

Lemma cloud_at_faults (cloud : list PointXYZ) (index : Z) (f : fault) :
  cloud_at cloud index = Trap f -> f = OutOfRange.
Proof.
  unfold cloud_at.
  destruct ((0 <=? index) && (index <? Z.of_nat (length cloud)));
    [destruct (nth_error cloud (Z.to_nat index)); [discriminate|]|];
    congruence.
Qed.

Lemma coverage_loop_faults (grid : VoxelGrid) (filtered : list PointXYZ)
    (planning : PlanningInterface) (cells : list (Z * Z * Z)) :
  forall coverage_cloud f,
    coverage_loop grid filtered (Some planning) cells coverage_cloud = Trap f ->
    f = OutOfRange.
Proof.
  induction cells as [|cell rest IH]; intros coverage_cloud f;
    cbn [coverage_loop]; [discriminate|].
  intros H. apply obind_trap in H. destruct H as [H|[appended [_ H]]].
  - unfold coverage_cell in H.
    destruct (getCentroidIndexAt grid cell =? -1).
    + simpl in H. destruct (isObserved planning _); discriminate.
    + apply obind_trap in H. destruct H as [H|[point [_ H]]].
      * exact (cloud_at_faults _ _ _ H).
      * simpl in H. destruct (isObserved planning _); discriminate.
  - exact (IH _ _ H).
Qed.

Lemma exportCoveragePointcloud_ready (w : World) (ev : MapEvaluator)
    (request : EvaluationRequest) :
  (forall collection, new_PlanningInterface w (Some collection) <> None) ->
  service_ready ev = true ->
  submaps_ ev <> None ->
  match exportCoveragePointcloud w ev request with
  | Done (ev2, _, _) =>
      service_ready ev2 = true
      /\ request_ ev2 = request_ ev
  | Trap f => f = OutOfRange
  end.
Proof.
  intros Hplanner Hready Hs. unfold service_ready in Hready.
  apply andb_prop in Hready. destruct Hready as [Hready Hgrid].
  apply andb_prop in Hready. destruct Hready as [Hgt Hvox].
  unfold exportCoveragePointcloud, coverage_ground_truth.
  destruct (gt_cloud_ptr_ ev) as [gt|] eqn:Egt; [|discriminate].
  simpl obind. unfold coverage_voxel_grid. cbn [fst snd].
  destruct (submaps_ ev) as [collection|] eqn:Es;
    [|contradiction Hs; reflexivity].
  destruct (gt_voxel_grid_ptr_ ev) as [grid|] eqn:Eg.
  - destruct (filtered_gt_cloud_ptr_ ev) as [filtered|] eqn:Ef; [|discriminate].
    simpl obind. rewrite Es.
    destruct (new_PlanningInterface w (Some collection)) as [planning|] eqn:Ep;
      [|contradiction (Hplanner collection)].
    destruct (coverage_loop grid filtered (Some planning) _ [])
      as [cloud|f] eqn:El.
    + simpl. split; [|reflexivity].
      unfold service_ready. rewrite Egt, Eg, Ef, Hvox. reflexivity.
    + simpl. exact (coverage_loop_faults _ _ _ _ _ _ El).
  - destruct (voxel_grid_filter w gt kCoverageGridVoxelSize) as [grid filtered].
    simpl obind. cbn [with_voxel_grid submaps_]. rewrite Es.
    destruct (new_PlanningInterface w (Some collection)) as [planning|] eqn:Ep;
      [|contradiction (Hplanner collection)].
    destruct (coverage_loop grid filtered (Some planning) _ [])
      as [cloud|f] eqn:El.
    + simpl. split; [|reflexivity].
      unfold service_ready. cbn. rewrite Egt, Hvox. reflexivity.
    + simpl. exact (coverage_loop_faults _ _ _ _ _ _ El).
Qed.

Lemma obind_value_fault {A B : Type} (m : outcome A) (k : A -> outcome B)
    (P : B -> Prop) :
  (forall f, m = Trap f -> value_fault f = true) ->
  (forall a, m = Done a ->
     match k a with Done b => P b | Trap f => value_fault f = true end) ->
  match obind m k with Done b => P b | Trap f => value_fault f = true end.
Proof.
  destruct m as [a|f]; simpl; intros Hf Ha; [apply Ha | apply Hf]; reflexivity.
Qed.

Lemma substr_faults (s : string) (pos count : Z) (f : fault) :
  substr s pos count = Trap f -> f = OutOfRange.
Proof.
  unfold substr. destruct (string_size s <? pos); [congruence | discriminate].
Qed.

Lemma evaluateMapCallback_ready (w : World) (ev : MapEvaluator)
    (file_path : string) (ros_ok : nat -> bool) :
  (forall collection, new_PlanningInterface w (Some collection) <> None) ->
  service_ready ev = true ->
  match evaluateMapCallback w ev file_path ros_ok with
  | Done (_, ev', _) => service_ready ev' = true /\ request_ ev' = request_ ev
  | Trap f => value_fault f = true
  end.
Proof.
  intros Hplanner Hready. unfold evaluateMapCallback.
  destruct (loadFromFile w file_path) as [collection|].
  2:{ split; [|reflexivity]. destruct ev; exact Hready. }
  set (ev1 := with_map ev (Some collection) (voxblox_ ev) (use_voxblox_ ev) _).
  assert (Hready1 : service_ready ev1 = true) by (destruct ev; exact Hready).
  assert (Hs1 : submaps_ ev1 = Some collection) by reflexivity.
  assert (Hr1 : request_ ev1 = request_ ev) by reflexivity.
  assert (Hp1 : evaluate_flag (request_ ev) = true -> lookup_ready ev1 = true).
  { intros Hflag. unfold lookup_ready, ev1. cbn. rewrite Hflag.
    unfold service_ready in Hready.
    apply andb_prop in Hready. destruct Hready as [Hready _].
    apply andb_prop in Hready. destruct Hready as [_ Hvox].
    destruct (use_voxblox_ ev); [discriminate|].
    destruct (new_PlanningInterface w (Some collection)) eqn:E;
      [reflexivity | contradiction (Hplanner collection)]. }
  assert (Hgt1 : gt_cloud_ptr_ ev1 <> None).
  { unfold service_ready in Hready1.
    destruct (gt_cloud_ptr_ ev1); [discriminate | discriminate]. }
  clearbody ev1.
  apply obind_value_fault.
  { intros f H. destruct (evaluate_flag (request_ ev)); [|discriminate].
    apply obind_trap in H. destruct H as [H|[recon [_ H]]].
    - rewrite (computeReconstructionError_faults ev1 _ f Hgt1 (Hp1 eq_refl) H).
      reflexivity.
    - apply obind_trap in H. destruct H as [H|[mesh [_ H]]]; [|discriminate].
      destruct (computeMeshError_returns ev1 (request_ ev1) ros_ok) as [m Hm];
        congruence. }
  intros written _.
  apply obind_value_fault.
  { intros f H. rewrite (substr_faults _ _ _ _ H). reflexivity. }
  intros extension _.
  apply obind_value_fault.
  { intros f H. rewrite (substr_faults _ _ _ _ H). reflexivity. }
  intros name _.
  set (ev2 := with_target ev1 (target_directory_ ev1) name).
  assert (Hready2 : service_ready ev2 = true) by (destruct ev1; exact Hready1).
  assert (Hs2 : submaps_ ev2 <> None) by (unfold ev2; cbn; congruence).
  assert (Hr2 : request_ ev2 = request_ ev) by exact Hr1.
  clearbody ev2.
  apply obind_value_fault.
  { intros f H. destruct (export_mesh (request_ ev2)); [|discriminate].
    apply obind_trap in H. destruct H as [H|[file [_ H]]]; [|discriminate].
    unfold exportMesh in H. destruct (submaps_ ev2); [discriminate|].
    contradiction Hs2; reflexivity. }
  intros meshed _.
  apply obind_value_fault.
  { intros f H. destruct (export_labeled_pointcloud (request_ ev2));
      [|discriminate].
    apply obind_trap in H. destruct H as [H|[exported [_ H]]]; [|discriminate].
    rewrite (exportLabeledPointcloud_faults w ev2 _ f Hs2 H). reflexivity. }
  intros labeled _.
  apply obind_value_fault.
  { intros f H. destruct (export_coverage_pointcloud (request_ ev2));
      [|discriminate].
    apply obind_trap in H. destruct H as [H|[exported [_ H]]]; [|discriminate].
    generalize (exportCoveragePointcloud_ready w ev2 (request_ ev2)
                  Hplanner Hready2 Hs2).
    rewrite H. intros ->. reflexivity. }
  intros covered Hcovered.
  destruct (export_coverage_pointcloud (request_ ev2)).
  - apply obind_done in Hcovered. destruct Hcovered as [exported [Hx Hc]].
    injection Hc as <-. cbn [fst].
    generalize (exportCoveragePointcloud_ready w ev2 (request_ ev2)
                  Hplanner Hready2 Hs2).
    rewrite Hx. destruct exported as [[ev3 file] cloud]. cbn [fst].
    intros [H1 H2]. split; [exact H1 | congruence].
  - injection Hcovered as <-. cbn [fst]. split; assumption.
Qed.

Lemma serve_faults (w : World) (ros_ok : nat -> bool) (paths : list string) :
  (forall collection, new_PlanningInterface w (Some collection) <> None) ->
  forall ev f,
    service_ready ev = true ->
    serve w ros_ok ev paths = Trap f -> value_fault f = true.
Proof.
  intros Hplanner.
  induction paths as [|file_path rest IH]; intros ev f Hready;
    cbn [serve]; [discriminate|].
  generalize (evaluateMapCallback_ready w ev file_path ros_ok Hplanner Hready).
  destruct (evaluateMapCallback w ev file_path ros_ok)
    as [[[result ev'] artifacts]|g].
  - intros [Hready' _]. simpl obind. apply IH. exact Hready'.
  - intros Hg H. simpl in H. congruence.
Qed.

Lemma setupMultiMapEvaluation_advertised (w : World) (ev ev1 : MapEvaluator)
    (request : EvaluationRequest) :
  gt_voxel_grid_ptr_ ev = None ->
  setupMultiMapEvaluation w ev request = Done (true, ev1) ->
  service_ready ev1 = true
  /\ request_ ev1 = request
  /\ isValid request = true
  /\ target_directory_ ev1 = map_file request
  /\ open_output_file w
       (map_file request ++ "/" ++ output_suffix request ++ ".csv")%string = true
  /\ exists cloud,
       loadPLYFile w (ground_truth_pointcloud_file request) = (0, cloud)
       /\ gt_cloud_ptr_ ev1 = Some cloud
       /\ kdtree_data_ ev1 = map (fun p => mkPoint (px p) (py p) (pz p)) cloud.
Proof.
  intros Hgrid. unfold setupMultiMapEvaluation, buildKdTree.
  cbn -[isValid Z.eqb append].
  destruct (isValid request); simpl negb; cbv iota;
    [|intros H; discriminate H].
  destruct (loadPLYFile w (ground_truth_pointcloud_file request))
    as [code cloud] eqn:Eload.
  destruct (code =? 0) eqn:Ecode; simpl negb; cbv iota;
    [|intros H; discriminate H].
  apply Z.eqb_eq in Ecode. subst code.
  cbn -[append].
  destruct (open_output_file w _) eqn:Eopen; simpl negb; cbv iota;
    [|intros H; discriminate H].
  intros H. injection H as <-.
  split; [|split; [|split; [|split; [|split]]]]; try reflexivity.
  - unfold service_ready. cbn. rewrite Hgrid. reflexivity.
  - exists cloud. repeat split; reflexivity.
Qed.

(** X21.  When [setupMultiMapEvaluation] advertises the service, the
    request is valid, the ground truth was read with code 0, the kd-tree
    holds its points in their order, the row file is open and the outputs go
    to the directory named by [map_file].  From then on, over any sequence
    of service calls, the evaluator dereferences no missing object and
    never reaches the fatal log entry: given that a planning interface is
    constructed for every loaded map, a call can only end early with the
    modulo by zero of a small ground truth or with an index or a position
    out of range. *)
Theorem X21_service_after_setup
    (w : World) (ev ev1 : MapEvaluator) (request : EvaluationRequest)
    (ros_ok : nat -> bool) :
  (forall collection, new_PlanningInterface w (Some collection) <> None) ->
  gt_voxel_grid_ptr_ ev = None ->
  setupMultiMapEvaluation w ev request = Done (true, ev1) ->
  (isValid (request_ ev1) = true
   /\ target_directory_ ev1 = map_file request
   /\ exists cloud,
        loadPLYFile w (ground_truth_pointcloud_file request) = (0, cloud)
        /\ gt_cloud_ptr_ ev1 = Some cloud
        /\ kdtree_data_ ev1 = map (fun p => mkPoint (px p) (py p) (pz p)) cloud)
  /\ (forall (paths : list string) (f : fault),
        serve w ros_ok ev1 paths = Trap f ->
        f = ModuloByZero \/ f = OutOfRange).
Proof.
  intros Hplanner Hgrid Hsetup.
  destruct (setupMultiMapEvaluation_advertised w ev ev1 request Hgrid Hsetup)
    as (Hready & Hrequest & Hvalid & Hdir & _ & Hcloud).
  split.
  - rewrite Hrequest. repeat split; assumption.
  - intros paths f H.
    assert (Hf := serve_faults w ros_ok paths Hplanner ev1 f Hready H).
    destruct f; try discriminate; [left | right]; reflexivity.
Qed.

Lemma X21_service_after_setup_witness :
  exists ev1 : MapEvaluator,
    setupMultiMapEvaluation small_world fresh_evaluator default_request
    = Done (true, ev1)
    /\ serve small_world (fun _ => true) ev1 ["run/map.panmap"%string]
       = Trap ModuloByZero
    /\ (forall (paths : list string) (f : fault),
          serve small_world (fun _ => true) ev1 paths = Trap f ->
          f = ModuloByZero \/ f = OutOfRange).
Proof.
  eexists.
  match goal with |- ?P /\ _ => assert (E : P) by (vm_compute; reflexivity) end.
  split; [exact E|]. split; [vm_compute; reflexivity|].
  refine (proj2 (X21_service_after_setup small_world fresh_evaluator _
                   default_request (fun _ => true) _ eq_refl E)).
  intros collection. discriminate.
Defined.

(** ** The colour of a voxel *)

Lemma voxel_error_fold_uncounted (interpolator : TsdfLayer) (tree : list Point)
    (voxel_size_sqr : float) (results : list (nat * float)) :
  forallb (uncounted interpolator tree voxel_size_sqr) results = true ->
  forall acc,
    fold_left (voxel_error_step interpolator tree voxel_size_sqr) results acc
    = mkVoxelError (total_error acc) (max_error acc) (counted_voxels acc)
        (fold_left (fun m res => Float32.std_min m (snd res)) results
           (min_dist_sqr acc)).
Proof.
  induction results as [|res rest IH]; intros Hall acc.
  - destruct acc; reflexivity.
  - cbn [forallb] in Hall. apply andb_prop in Hall. destruct Hall as [Hres Hrest].
    cbn [fold_left]. rewrite IH by exact Hrest.
    unfold uncounted in Hres. unfold voxel_error_step.
    destruct (Float32.ltb voxel_size_sqr (snd res)); [reflexivity|].
    simpl in Hres.
    destruct (interpolator _ true); [discriminate | reflexivity].
Qed.

(** X22.  A voxel none of whose neighbours is counted - each lies further
    than one voxel size away or has no interpolated distance - is coloured
    from the nearest neighbour alone: by the squared distance to it when
    colouring by the maximum error, and by the distance itself when
    colouring by the mean error. *)
Theorem X22_voxel_without_counted_neighbour
    (interpolator : TsdfLayer) (tree : list Point) (request : EvaluationRequest)
    (voxel_size : float) (results : list (nat * float)) :
  results <> [] ->
  forallb (uncounted interpolator tree (Float32.mul voxel_size voxel_size))
    results = true ->
  voxel_color interpolator tree request voxel_size results
  = store_color
      (colorFor
         (error_fraction
            (if color_by_max_error request then nearest_sqr results
             else Float32.div
                    (Float32.add Float32.zero
                       (Float32.sqrt (nearest_sqr results)))
                    (Float32.of_Z 1))
            (maximum_distance request))).
Proof.
  intros Hne Hall. unfold voxel_color.
  destruct results as [|res rest]; [contradiction Hne; reflexivity|].
  rewrite voxel_error_fold_uncounted by exact Hall.
  unfold voxel_fraction. cbn [counted_voxels min_dist_sqr total_error max_error].
  change (0 =? 0) with true. cbv iota.
  cbn [counted_voxels min_dist_sqr total_error max_error].
  unfold nearest_sqr.
  destruct (color_by_max_error request); reflexivity.
Qed.

Lemma X22_voxel_without_counted_neighbour_witness :
  voxel_color unobserved_layer [] max_error_request (Float32.lit 1 10)
    far_results
  = Some (mkColor 101 216 0)
  /\ voxel_color unobserved_layer []
       (with_inlier_distance default_request (Float32.lit 1 10))
       (Float32.lit 1 10) far_results
     = Some (mkColor 255 0 0).
Proof.
  split.
  - rewrite (X22_voxel_without_counted_neighbour unobserved_layer []
               max_error_request (Float32.lit 1 10) far_results)
      by first [discriminate | reflexivity].
    vm_compute. reflexivity.
  - rewrite (X22_voxel_without_counted_neighbour unobserved_layer []
               (with_inlier_distance default_request (Float32.lit 1 10))
               (Float32.lit 1 10) far_results)
      by first [discriminate | reflexivity].
    vm_compute. reflexivity.
Defined.
